(** * Baymax: the two Naive Bayes classifiers, embedded and verified

    The repository holds two notebooks.

    - The spam notebook is a module-level script that fits a multinomial
      Naive Bayes model on tokenised messages, followed by [classify].
      It is embedded in [Module Spam].
    - The census notebook defines [class NaiveBayesClassifier] with
      [__init__], [train] and [predict] over a pandas DataFrame of discrete
      columns.  It is embedded in [Module Census].
    - The cells that measure the accuracy of the two classifiers are
      embedded in [Module SpamTest] and [Module CensusTest]; the rounding
      and the printing of the ratio are left out.

    Conventions of the embedding.

    - Python [int] counters are [nat]; Python/numpy floating point numbers
      are idealised as real numbers ([R]), so rounding is not modelled and
      sums are exact.  Where a statement speaks of a sum of probabilities,
      equality over [R] stands for equality within tolerance.  The
      statements about [classify] and [predict] concern which numbers are
      stored, read and added, in which order, and which exception leaves;
      none of them rests on differently computed scores cancelling or
      tying, which float64 additions do not preserve.
    - [np.log] is [ln].  numpy returns [-inf] at 0 and [nan] below 0; neither
      is a real number, so every statement about a logarithm is made where
      its argument is positive (a positive smoothing parameter).
    - A Python [dict] is an association list in insertion order with unique
      keys, which is what [dict] iteration and [max] observe.
    - Exceptions are values of [Py.exn], carried by [Py.result]. *)

From Stdlib Require Import List String Ascii Bool Arith PeanoNat Lia.
From Stdlib Require Import Permutation Sorted Reals Lra.
Import ListNotations.
Local Open Scope string_scope.

(** ** The fragment of Python the notebooks use *)

Module Py.

Inductive exn : Set :=
| KeyError
| IndexError
| ZeroDivisionError
| ValueError
| AttributeError
| TypeError.

Inductive result (A : Type) : Type :=
| Ok (a : A)
| Raise (e : exn).

Arguments Ok {A} a.
Arguments Raise {A} e.

Definition bind {A B : Type} (c : result A) (k : A -> result B) : result B :=
  match c with
  | Ok a => k a
  | Raise e => Raise e
  end.

(** A [for] loop whose body may raise: the state is threaded, the first
    exception leaves the loop. *)
Fixpoint for_each {S A : Type} (body : S -> A -> result S) (l : list A) (s : S)
  : result S :=
  match l with
  | [] => Ok s
  | x :: rest => bind (body s x) (for_each body rest)
  end.

(** [x in l] for a list of strings. *)
Definition mem (x : string) (l : list string) : bool :=
  existsb (String.eqb x) l.

(** [s.add(x)] for a set of strings, kept as a duplicate-free list. *)
Definition add (s : list string) (x : string) : list string :=
  if mem x s then s else s ++ [x].

(** The distinct elements of a list in order of first appearance: pandas'
    [Series.unique()]. *)
Definition unique (l : list string) : list string := fold_left add l [].

Definition dict (V : Type) : Type := list (string * V).

(** [d.get(k)] *)
Fixpoint get {V : Type} (d : dict V) (k : string) : option V :=
  match d with
  | [] => None
  | (k', v) :: rest => if String.eqb k k' then Some v else get rest k
  end.

(** [d[k]] as an expression *)
Definition getitem {V : Type} (d : dict V) (k : string) : result V :=
  match get d k with
  | Some v => Ok v
  | None => Raise KeyError
  end.

(** [k in d] *)
Definition contains {V : Type} (d : dict V) (k : string) : bool :=
  match get d k with
  | Some _ => true
  | None => false
  end.

(** [d[k] = v]: an existing key keeps its position, a new one goes last. *)
Fixpoint setitem {V : Type} (d : dict V) (k : string) (v : V) : dict V :=
  match d with
  | [] => [(k, v)]
  | (k', v') :: rest =>
      if String.eqb k k' then (k', v) :: rest else (k', v') :: setitem rest k v
  end.

Definition keys {V : Type} (d : dict V) : list string := map fst d.
Definition values {V : Type} (d : dict V) : list V := map snd d.

(** The scan of [max(d, key=d.get)]: the running best is replaced only by a
    strictly larger value, so among equal maxima the first key met wins. *)
Fixpoint max_scan (best : string) (best_val : R) (rest : dict R) : string :=
  match rest with
  | [] => best
  | (k, v) :: rest' =>
      if Rlt_dec best_val v then max_scan k v rest' else max_scan best best_val rest'
  end.

(** [max(d, key=d.get)]; [max] of an empty iterable raises [ValueError]. *)
Definition max_by_value (d : dict R) : result string :=
  match d with
  | [] => Raise ValueError
  | (k, v) :: rest => Ok (max_scan k v rest)
  end.

(** [a / b] on Python ints. *)
Definition truediv (a b : nat) : result R :=
  if Nat.eqb b 0 then Raise ZeroDivisionError else Ok (INR a / INR b)%R.

(** [np.log] on its positive domain. *)
Definition np_log (x : R) : R := ln x.

Definition sum (l : list R) : R := fold_right Rplus 0%R l.

End Py.

Notation "x <- c ;; k" := (Py.bind c (fun x => k))
  (at level 61, c at next level, right associativity).

(** ** The spam notebook: a multinomial model fitted by a module-level script *)

Module Spam.
Import Py.

(** A row of the data frame after the columns were renamed: [Label], [Text]. *)
Record row : Set := { Label : string; Text : string }.

(** *** Cleaning and tokenising *)

Definition is_upper (c : ascii) : bool :=
  ((65 <=? nat_of_ascii c) && (nat_of_ascii c <=? 90))%nat.

Definition is_lower (c : ascii) : bool :=
  ((97 <=? nat_of_ascii c) && (nat_of_ascii c <=? 122))%nat.

(** The character class [[a-zA-Z]]. *)
Definition is_letter (c : ascii) : bool := is_upper c || is_lower c.

Definition is_blank (c : ascii) : bool := Nat.eqb (nat_of_ascii c) 32.

(** The characters [str.split()] separates on. *)
Definition is_space (c : ascii) : bool :=
  let n := nat_of_ascii c in
  (((9 <=? n) && (n <=? 13)) || ((28 <=? n) && (n <=? 32))
   || Nat.eqb n 133 || Nat.eqb n 160)%nat.

Definition lower_char (c : ascii) : ascii :=
  if is_upper c then ascii_of_nat (nat_of_ascii c + 32) else c.

(** [s.lower()] as the two cleanings use it: on a text in which only the
    letters a-z, A-Z and blanks are left, where it maps A-Z to a-z. *)
Fixpoint lower (s : string) : string :=
  match s with
  | EmptyString => EmptyString
  | String c rest => String (lower_char c) (lower rest)
  end.

(** [str.replace('[^a-zA-Z ]', '', regex=True)]: every character that is
    neither a letter nor a blank is deleted. *)
Fixpoint delete_non_letters (s : string) : string :=
  match s with
  | EmptyString => EmptyString
  | String c rest =>
      if is_letter c || is_blank c then String c (delete_non_letters rest)
      else delete_non_letters rest
  end.

(** [re.sub('[^a-zA-Z]', ' ', message)]: every character that is not a
    letter becomes a blank. *)
Fixpoint blank_non_letters (s : string) : string :=
  match s with
  | EmptyString => EmptyString
  | String c rest =>
      String (if is_letter c then c else " "%char) (blank_non_letters rest)
  end.

(** [s.split()]: the maximal runs of non-space characters; [word] is the run
    being read. *)
Fixpoint split_from (word : string) (s : string) : list string :=
  match s with
  | EmptyString => if String.eqb word "" then [] else [word]
  | String c rest =>
      if is_space c then
        if String.eqb word "" then split_from "" rest
        else word :: split_from "" rest
      else split_from (word ++ String c "") rest
  end.

Definition split (s : string) : list string := split_from "" s.

(** The training cell's cleaning of the [Text] column, then [str.split()]. *)
Definition clean_training_text (text : string) : list string :=
  split (lower (delete_non_letters text)).

(** The first two lines of [classify]. *)
Definition clean_message (message : string) : list string :=
  split (lower (blank_non_letters message)).

(** *** The training cell *)

Definition alpha : nat := 1.
Definition number_of_classes : nat := 2.

(** [int(len(shuffled_data) * 0.8)]; the double nearest 0.8 times [n],
    truncated, is the integer part of [4n/5] for every length a frame has. *)
Definition split_index (n : nat) : nat := (n * 4) / 5.

(** One step of a descending insertion: [x] goes before the first entry
    with a strictly smaller count. *)
Fixpoint place (x : string * nat) (l : dict nat) : dict nat :=
  match l with
  | [] => [x]
  | y :: rest => if (snd y <? snd x)%nat then x :: l else y :: place x rest
  end.

(** [Series.value_counts()]: each distinct label with its number of
    occurrences, the most frequent first. *)
Definition value_counts (labels : list string) : dict nat :=
  fold_left (fun sorted x => place x sorted)
    (map (fun l => (l, count_occ string_dec labels l)) (unique labels)) [].

(** [series[i]] with an integer on a label-indexed series: by position. *)
Definition positional (s : dict nat) (i : nat) : result nat :=
  match nth_error s i with
  | Some (_, c) => Ok c
  | None => Raise IndexError
  end.

(** Lines 63-71: the class priors, from [shuffled_data]. *)
Definition compute_log_priors (shuffled_data : list row) : result (dict R) :=
  let counts := value_counts (map Label shuffled_data) in
  N_ham <- positional counts 0 ;;
  N_spam <- positional counts 1 ;;
  let n := List.length shuffled_data in
  let P_ham := (INR (N_ham + 1) / INR (n + number_of_classes))%R in
  let P_spam := (INR (N_spam + 1) / INR (n + number_of_classes))%R in
  Ok [("ham", np_log P_ham); ("spam", np_log P_spam)].

(** [cleaned_training_data]: the label and the token list of each row. *)
Definition cleaned := list (string * list string).

Definition clean_training_data (training_data : list row) : cleaned :=
  map (fun r => (Label r, clean_training_text (Text r))) training_data.

(** Lines 73-77: the set of distinct training words, then [list(...)].
    A Python set iterates in hash order; the order of first insertion is
    taken here, and the script only tests membership and length and fills
    dictionaries from it. *)
Definition build_vocabulary (data : cleaned) : list string :=
  fold_left (fun vocabulary text => fold_left add (snd text) vocabulary) data [].

(** The order in which the set literal [{'ham', 'spam'}] is iterated
    depends on the hash seed of the run; it is an input of the model. *)
Inductive set_order : Set := HamFirst | SpamFirst.

Definition iterate (o : set_order) : list string :=
  match o with
  | HamFirst => ["ham"; "spam"]
  | SpamFirst => ["spam"; "ham"]
  end.

(** Lines 83-84: the table one class starts from, every word at 0. *)
Definition zero_counts (vocabulary : list string) : dict nat :=
  fold_left (fun d word => setitem d word 0) vocabulary [].

(** Lines 79-84. *)
Definition init_word_frequency (o : set_order) (vocabulary : list string)
  : dict (dict nat) :=
  fold_left
    (fun word_frequency key =>
       if contains word_frequency key then word_frequency
       else setitem word_frequency key (zero_counts vocabulary))
    (iterate o) [].

(** [cleaned_training_data[cleaned_training_data['Label'] == label]['Text']] *)
Definition messages_of (label : string) (data : cleaned) : list (list string) :=
  map snd (filter (fun r => String.eqb (fst r) label) data).

(** The body of the counting loops, lines 90-98:
    [word_frequency[label][word] += 1; words_in_label += 1]. *)
Definition count_word (label : string) (st : dict (dict nat) * nat)
  (word : string) : result (dict (dict nat) * nat) :=
  per_class <- getitem (fst st) label ;;
  c <- getitem per_class word ;;
  Ok (setitem (fst st) label (setitem per_class word (c + 1)), snd st + 1).

Definition count_messages (label : string) (texts : list (list string))
  (word_frequency : dict (dict nat)) : result (dict (dict nat) * nat) :=
  for_each (fun st text => for_each (count_word label) text st)
    texts (word_frequency, 0).

(** The body of the inner loop of lines 103-113. *)
Definition fill_word (word_frequency : dict (dict nat))
  (words_in_spam words_in_ham N_vocab : nat) (key : string)
  (per_key : dict R) (word : string) : result (dict R) :=
  let N_words := if String.eqb key "spam" then words_in_spam else words_in_ham in
  per_class <- getitem word_frequency key ;;
  N_wi_label <- getitem per_class word ;;
  prob <- truediv (N_wi_label + alpha) (N_words + alpha * N_vocab) ;;
  Ok (setitem per_key word (np_log prob)).

(** The body of the outer loop of lines 103-113. *)
Definition fill_key (word_frequency : dict (dict nat))
  (words_in_spam words_in_ham : nat) (vocabulary : list string)
  (word_log_prob : dict (dict R)) (key : string) : result (dict (dict R)) :=
  let N_vocab := List.length vocabulary in
  let started :=
    if contains word_log_prob key then word_log_prob
    else setitem word_log_prob key [] in
  per_key <- getitem started key ;;
  filled <- for_each
              (fill_word word_frequency words_in_spam words_in_ham N_vocab key)
              vocabulary per_key ;;
  Ok (setitem started key filled).

(** Lines 100-113. *)
Definition compute_word_log_prob (word_frequency : dict (dict nat))
  (words_in_spam words_in_ham : nat) (vocabulary : list string)
  : result (dict (dict R)) :=
  for_each (fill_key word_frequency words_in_spam words_in_ham vocabulary)
    (keys word_frequency) [].

(** The module-level names [classify] reads after the training cell ran. *)
Record globals : Type := {
  log_priors : dict R;
  vocabulary : list string;
  word_frequency : dict (dict nat);
  words_in_spam : nat;
  words_in_ham : nat;
  word_log_prob : dict (dict R);
  key : string
}.

(** The counting and estimation part of the cell (lines 73-113), from the
    cleaned training frame.  [key] ends as the last key the loop of line 103
    iterated over. *)
Definition fit (o : set_order) (priors : dict R) (data : cleaned)
  : result globals :=
  let vocabulary := build_vocabulary data in
  let word_frequency0 := init_word_frequency o vocabulary in
  spam <- count_messages "spam" (messages_of "spam" data) word_frequency0 ;;
  ham <- count_messages "ham" (messages_of "ham" data) (fst spam) ;;
  let word_frequency := fst ham in
  let words_in_spam := snd spam in
  let words_in_ham := snd ham in
  word_log_prob <- compute_word_log_prob word_frequency words_in_spam
                     words_in_ham vocabulary ;;
  Ok {| log_priors := priors;
        vocabulary := vocabulary;
        word_frequency := word_frequency;
        words_in_spam := words_in_spam;
        words_in_ham := words_in_ham;
        word_log_prob := word_log_prob;
        key := last (keys word_frequency) (last (iterate o) "") |}.

(** The whole training cell, from the shuffled frame. *)
Definition training_data (shuffled_data : list row) : list row :=
  firstn (split_index (List.length shuffled_data)) shuffled_data.

Definition testing_data (shuffled_data : list row) : list row :=
  skipn (split_index (List.length shuffled_data)) shuffled_data.

Definition run (o : set_order) (shuffled_data : list row) : result globals :=
  priors <- compute_log_priors shuffled_data ;;
  fit o priors (clean_training_data (training_data shuffled_data)).

(** *** [classify] *)

(** Lines 133-137, the branch for a word outside the vocabulary. *)
Definition unseen_word_prob (g : globals) : result R :=
  let N_words :=
    if String.eqb (key g) "spam" then words_in_spam g else words_in_ham g in
  truediv (1 + alpha) (N_words + alpha * List.length (vocabulary g)).

(** The body of the loop over [words], lines 129-138. *)
Definition add_word (g : globals) (class_label : string) (log_prob : R)
  (word : string) : result R :=
  if mem word (vocabulary g) then
    per_class <- getitem (word_log_prob g) class_label ;;
    lp <- getitem per_class word ;;
    Ok (log_prob + lp)%R
  else
    prob <- unseen_word_prob g ;;
    Ok (log_prob + prob)%R.

(** Lines 126-139: the score of each class, in the order of [log_priors]. *)
Definition class_probabilities (g : globals) (words : list string)
  : result (dict R) :=
  for_each
    (fun probabilities class_label =>
       prior <- getitem (log_priors g) class_label ;;
       log_prob <- for_each (add_word g class_label) words prior ;;
       Ok (setitem probabilities class_label log_prob))
    (keys (log_priors g)) [].

Definition classify (g : globals) (message : string) : result string :=
  probabilities <- class_probabilities g (clean_message message) ;;
  max_by_value probabilities.

(** *** The counts the smoothing formula speaks of, read off the training frame *)

(** The tokens of the training messages labelled [label], in order. *)
Definition words_of (label : string) (data : cleaned) : list string :=
  List.concat (messages_of label data).

(** The number of occurrences of [word] in the messages labelled [label]. *)
Definition joint_count (label : string) (data : cleaned) (word : string) : nat :=
  count_occ string_dec (words_of label data) word.

(** The number of tokens in the messages labelled [label]. *)
Definition class_total (label : string) (data : cleaned) : nat :=
  List.length (words_of label data).

(** The additive-smoothing formula for [word] under [label]:
    log((N_{k,w} + alpha) / (N_k + alpha * V)). *)
Definition smoothed_log_prob (data : cleaned) (label word : string) : R :=
  ln (INR (joint_count label data word + alpha)
      / INR (class_total label data
             + alpha * List.length (build_vocabulary data))).


(** The class whose token total the branch for an unseen word reads: the
    one named by [key], whatever class is being scored. *)
Definition key_total (g : globals) : nat :=
  if String.eqb (key g) "spam" then words_in_spam g else words_in_ham g.

(** The number that branch adds to the running score. *)
Definition unseen_increment (g : globals) : R :=
  (INR (1 + alpha) / INR (key_total g + alpha * List.length (vocabulary g)))%R.

(** What one word adds to the score of class [k]. *)
Definition contribution (data : cleaned) (g : globals) (k w : string) : R :=
  if mem w (vocabulary g) then smoothed_log_prob data k w
  else unseen_increment g.

(** The score [classify] gives class [k] on a token list. *)
Definition score (data : cleaned) (g : globals) (k : string) (prior : R)
  (words : list string) : R :=
  fold_left Rplus (map (contribution data g k) words) prior.

(** [d[k][w]] read without raising. *)
Definition get2 {V : Type} (d : dict (dict V)) (k w : string) : option V :=
  match get d k with
  | Some inner => get inner w
  | None => None
  end.

End Spam.

(** ** The census notebook: [class NaiveBayesClassifier] *)

Module Census.
Import Py.

(** A pandas DataFrame of discrete values: the column names, and the rows,
    each giving the value it holds in a column. *)
Record DataFrame : Type := {
  columns : list string;
  rows : list (string -> string)
}.

(** The attributes [__init__] creates. *)
Record NaiveBayesClassifier : Type := {
  alpha : R;
  log_priors : option (dict R);
  class_conditional_probs : option (dict (dict (dict R)));
  features : option (list string)
}.

(** [NaiveBayesClassifier(alpha)] *)
Definition init (a : R) : NaiveBayesClassifier :=
  {| alpha := a;
     log_priors := None;
     class_conditional_probs := None;
     features := None |}.

(** [data.iloc[i][column]]: a label that is not a column raises. *)
Definition cell (data : DataFrame) (row : string -> string) (column : string)
  : result string :=
  if mem column (columns data) then Ok (row column) else Raise KeyError.

(** Lines 114-117: one more instance of [class_label]. *)
Definition tally (class_frequencies : dict nat) (class_label : string) : dict nat :=
  match get class_frequencies class_label with
  | Some c => setitem class_frequencies class_label (c + 1)
  | None => setitem class_frequencies class_label 1
  end.

(** The body of the loop of lines 112-117. *)
Definition count_class (data : DataFrame) (target_class : string)
  (class_frequencies : dict nat) (row : string -> string) : result (dict nat) :=
  class_label <- cell data row target_class ;;
  Ok (tally class_frequencies class_label).

Definition count_classes (data : DataFrame) (target_class : string)
  : result (dict nat) :=
  for_each (count_class data target_class) (rows data) [].

(** Lines 118-121. *)
Definition prior_table (a : R) (training_instances : nat)
  (class_frequencies : dict nat) : dict R :=
  fold_left
    (fun priors item =>
       let theta :=
         ((INR (snd item) + a)
          / (INR training_instances + a * INR (List.length class_frequencies)))%R in
       setitem priors (fst item) (np_log theta))
    class_frequencies [].

(** [data[feature].unique()] *)
Definition column_unique (data : DataFrame) (feature : string) : list string :=
  unique (map (fun row => row feature) (rows data)).

(** [len(data[(data[target_class] == class_value) & (data[feature] == feature_value)])] *)
Definition matching (data : DataFrame) (target_class class_value feature
  feature_value : string) : nat :=
  List.length
    (filter (fun row => String.eqb (row target_class) class_value
                        && String.eqb (row feature) feature_value)
            (rows data)).

(** Lines 128-130. *)
Definition total_count (data : DataFrame) (target_class class_value
  feature : string) : nat :=
  fold_left
    (fun total feature_value =>
       total + matching data target_class class_value feature feature_value)
    (column_unique data feature) 0.

(** The body of the loop of lines 133-138; [per_class] is
    [self.class_conditional_probs[class_value]]. *)
Definition store_value (a : R) (data : DataFrame) (target_class class_value
  feature : string) (total V_j : nat) (per_class : dict (dict R))
  (feature_value : string) : dict (dict R) :=
  let N_k_vj := matching data target_class class_value feature feature_value in
  let theta_k_j_v := ((INR N_k_vj + a) / (INR total + a * INR V_j))%R in
  let per_feature :=
    match get per_class feature with
    | Some d => d
    | None => []
    end in
  setitem per_class feature (setitem per_feature feature_value (np_log theta_k_j_v)).

(** The body of the loop of lines 126-138 over the columns. *)
Definition store_feature (a : R) (data : DataFrame) (target_class
  class_value : string) (per_class : dict (dict R)) (feature : string)
  : dict (dict R) :=
  if String.eqb feature target_class then per_class
  else
    let total := total_count data target_class class_value feature in
    let V_j := List.length (column_unique data feature) in
    fold_left (store_value a data target_class class_value feature total V_j)
      (column_unique data feature) per_class.

(** Lines 125-138 for one class. *)
Definition class_table (a : R) (data : DataFrame) (target_class
  class_value : string) : dict (dict R) :=
  fold_left (store_feature a data target_class class_value) (columns data) [].

(** Lines 123-138. *)
Definition conditional_table (a : R) (data : DataFrame) (target_class : string)
  (class_frequencies : dict nat) : dict (dict (dict R)) :=
  fold_left
    (fun probs class_value =>
       setitem probs class_value (class_table a data target_class class_value))
    (keys class_frequencies) [].

(** Line 140. *)
Definition feature_columns (data : DataFrame) (target_class : string)
  : list string :=
  filter (fun feature => negb (String.eqb feature target_class)) (columns data).

(** [self.train(data, target_class)]: the object after the call. *)
Definition train (self : NaiveBayesClassifier) (data : DataFrame)
  (target_class : string) : result NaiveBayesClassifier :=
  let training_instances := List.length (rows data) in
  class_frequencies <- count_classes data target_class ;;
  Ok {| alpha := alpha self;
        log_priors :=
          Some (prior_table (alpha self) training_instances class_frequencies);
        class_conditional_probs :=
          Some (conditional_table (alpha self) data target_class class_frequencies);
        features := Some (feature_columns data target_class) |}.

(** Reading an attribute that must hold a table or a list: [None] is
    neither subscriptable nor iterable. *)
Definition attribute {A : Type} (field : option A) : result A :=
  match field with
  | Some v => Ok v
  | None => Raise TypeError
  end.

(** The body of the loop of lines 146-148; [new_instance] is a Python dict
    from feature names to values, and [.get] of a missing name is [None],
    which is no key of a table. *)
Definition add_feature (self : NaiveBayesClassifier) (new_instance : dict string)
  (class_label : string) (log_prob : R) (feature : string) : result R :=
  let feature_value := get new_instance feature in
  probs <- attribute (class_conditional_probs self) ;;
  per_class <- getitem probs class_label ;;
  per_feature <- getitem per_class feature ;;
  match feature_value with
  | Some v => lp <- getitem per_feature v ;; Ok (log_prob + lp)%R
  | None => Raise KeyError
  end.

(** Lines 143-149: the score of each class, in the order of [log_priors];
    [self.log_priors.keys()] on an untrained object raises. *)
Definition class_probabilities (self : NaiveBayesClassifier)
  (new_instance : dict string) : result (dict R) :=
  match log_priors self with
  | None => Raise AttributeError
  | Some priors =>
      for_each
        (fun probabilities class_label =>
           log_prob <- getitem priors class_label ;;
           fs <- attribute (features self) ;;
           log_prob <- for_each (add_feature self new_instance class_label)
                         fs log_prob ;;
           Ok (setitem probabilities class_label log_prob))
        (keys priors) []
  end.

(** [self.predict(new_instance)] *)
Definition predict (self : NaiveBayesClassifier) (new_instance : dict string)
  : result string :=
  probabilities <- class_probabilities self new_instance ;;
  max_by_value probabilities.

(** *** The counts the smoothing formulas speak of, read off the frame *)

(** The target column, row by row. *)
Definition labels (data : DataFrame) (target_class : string) : list string :=
  map (fun row => row target_class) (rows data).

(** The number of rows whose target is [class_value]. *)
Definition class_count (data : DataFrame) (target_class class_value : string)
  : nat :=
  List.length
    (filter (fun row => String.eqb (row target_class) class_value) (rows data)).

(** The distinct labels in order of first appearance, each with the number
    of rows that carry it. *)
Definition counted_classes (data : DataFrame) (target_class : string) : dict nat :=
  map (fun k => (k, class_count data target_class k))
    (unique (labels data target_class)).

(** The additive-smoothing formula for the prior of [class_value]:
    log((N_k + alpha) / (n + alpha * K)). *)
Definition smoothed_prior (a : R) (data : DataFrame) (target_class
  class_value : string) : R :=
  ln ((INR (class_count data target_class class_value) + a)
      / (INR (List.length (rows data))
         + a * INR (List.length (unique (labels data target_class))))).

(** The additive-smoothing formula for the value [v] of feature [f] under
    [class_value]: log((N_{k,f,v} + alpha) / (N_k + alpha * V_f)). *)
Definition smoothed_conditional (a : R) (data : DataFrame) (target_class
  class_value f v : string) : R :=
  ln ((INR (matching data target_class class_value f v) + a)
      / (INR (class_count data target_class class_value)
         + a * INR (List.length (column_unique data f)))).

(** A table for feature [f] under class [k] is right when its keys are the
    distinct values of the column and each holds the smoothing formula. *)
Definition right_table (a : R) (data : DataFrame) (target_class k f : string)
  (T : dict R) : Prop :=
  keys T = column_unique data f
  /\ forall v, get T v
               = if mem v (column_unique data f)
                 then Some (smoothed_conditional a data target_class k f v)
                 else None.

(** The object [train] leaves behind, in closed form. *)
Definition trained (a : R) (data : DataFrame) (target_class : string)
  : NaiveBayesClassifier :=
  {| alpha := a;
     log_priors :=
       Some (map (fun k => (k, smoothed_prior a data target_class k))
               (unique (labels data target_class)));
     class_conditional_probs :=
       Some (map (fun k => (k, class_table a data target_class k))
               (unique (labels data target_class)));
     features := Some (feature_columns data target_class) |}.

(** [probs[k][f][v]] read without raising. *)
Definition get3 (probs : dict (dict (dict R))) (k f v : string) : option R :=
  match get probs k with
  | Some per_class =>
      match get per_class f with
      | Some per_feature => get per_feature v
      | None => None
      end
  | None => None
  end.

End Census.

(** ** The evaluation cell of the spam script *)

Module SpamTest.
Import Py.

(** Lines 160-162: one testing row; column 1 of the frame is the text and
    column 0 the label. *)
Definition check_row (g : Spam.globals) (correct_labels : nat) (r : Spam.row)
  : result nat :=
  let text := Spam.Text r in
  label <- Spam.classify g text ;;
  Ok (if String.eqb label (Spam.Label r) then correct_labels + 1
      else correct_labels).

(** Lines 158-162. *)
Definition count_correct (g : Spam.globals) (testing_data : list Spam.row)
  : result nat :=
  for_each (check_row g) testing_data 0.

(** Line 163: the ratio that is printed, before it is rounded to four
    places and scaled to a percentage. *)
Definition accuracy (g : Spam.globals) (testing_data : list Spam.row)
  : result R :=
  correct_labels <- count_correct g testing_data ;;
  truediv correct_labels (List.length testing_data).

(** The training cell followed by the evaluation cell. *)
Definition run (o : Spam.set_order) (shuffled_data : list Spam.row) : result R :=
  g <- Spam.run o shuffled_data ;;
  accuracy g (Spam.testing_data shuffled_data).

End SpamTest.

(** ** The evaluation cell of the census notebook *)

Module CensusTest.
Import Py.

(** What the cell can end with: a value, an exception of the classifier or
    of the arithmetic, or NameError at a name that was never assigned. *)
Inductive outcome (A : Type) : Type :=
| Done (a : A)
| Failed (e : exn)
| NameError (name : string).

Arguments Done {A} a.
Arguments Failed {A} e.
Arguments NameError {A} name.

(** Line 171. *)
Definition target_class : string := "sex".

(** The names the loop of lines 176-187 assigns; [new_instance] is the one
    dictionary created before the loop, and [correct_value] is unbound
    until the branch of line 183 runs. *)
Record state : Type := {
  new_instance : dict string;
  correct_value : option string;
  correct_labels : nat;
  incorrect_labels : nat
}.

(** Lines 176-177. *)
Definition initial : state :=
  {| new_instance := [];
     correct_value := None;
     correct_labels := 0;
     incorrect_labels := 0 |}.

(** Lines 180-183: one column of one row. *)
Definition read_cell (row : string -> string) (st : state) (column : string)
  : state :=
  if negb (String.eqb column target_class) then
    {| new_instance := setitem (new_instance st) column (row column);
       correct_value := correct_value st;
       correct_labels := correct_labels st;
       incorrect_labels := incorrect_labels st |}
  else
    {| new_instance := new_instance st;
       correct_value := Some (row target_class);
       correct_labels := correct_labels st;
       incorrect_labels := incorrect_labels st |}.

(** Lines 184-187. *)
Definition compare (classifier : Census.NaiveBayesClassifier) (st : state)
  : outcome state :=
  match Census.predict classifier (new_instance st) with
  | Raise e => Failed e
  | Ok label =>
      match correct_value st with
      | None => NameError "correct_value"
      | Some v =>
          if String.eqb label v then
            Done {| new_instance := new_instance st;
                    correct_value := correct_value st;
                    correct_labels := correct_labels st + 1;
                    incorrect_labels := incorrect_labels st |}
          else
            Done {| new_instance := new_instance st;
                    correct_value := correct_value st;
                    correct_labels := correct_labels st;
                    incorrect_labels := incorrect_labels st + 1 |}
      end
  end.

(** Lines 179-187: one row of the testing frame. *)
Definition test_row (classifier : Census.NaiveBayesClassifier)
  (test_data : Census.DataFrame) (st : state) (row : string -> string)
  : outcome state :=
  compare classifier (fold_left (read_cell row) (Census.columns test_data) st).

(** Lines 178-187. *)
Fixpoint test_rows (classifier : Census.NaiveBayesClassifier)
  (test_data : Census.DataFrame) (rows : list (string -> string)) (st : state)
  : outcome state :=
  match rows with
  | [] => Done st
  | row :: rest =>
      match test_row classifier test_data st row with
      | Done st' => test_rows classifier test_data rest st'
      | Failed e => Failed e
      | NameError name => NameError name
      end
  end.

(** Line 189: the percentage that is printed, before it is rounded to two
    places. *)
Definition accuracy (st : state) : outcome R :=
  match truediv (correct_labels st) (correct_labels st + incorrect_labels st) with
  | Ok ratio => Done (ratio * 100)%R
  | Raise e => Failed e
  end.

(** The whole cell, lines 168-189, from the two frames read. *)
Definition run (train_data test_data : Census.DataFrame) : outcome R :=
  match Census.train (Census.init 1) train_data target_class with
  | Raise e => Failed e
  | Ok classifier =>
      match test_rows classifier test_data (Census.rows test_data) initial with
      | Done st => accuracy st
      | Failed e => Failed e
      | NameError name => NameError name
      end
  end.

(** The dictionary a fresh [new_instance = {}] would hold after the cells
    of [row] were read: the columns other than the target, once each, with
    the row's values. *)
Definition instance_of (test_data : Census.DataFrame) (row : string -> string)
  : dict string :=
  map (fun column => (column, row column))
    (unique (Census.feature_columns test_data target_class)).

(** The same row with a dictionary of its own instead of the shared one. *)
Definition test_row_fresh (classifier : Census.NaiveBayesClassifier)
  (test_data : Census.DataFrame) (st : state) (row : string -> string)
  : outcome state :=
  test_row classifier test_data
    {| new_instance := [];
       correct_value := correct_value st;
       correct_labels := correct_labels st;
       incorrect_labels := incorrect_labels st |}
    row.

Fixpoint test_rows_fresh (classifier : Census.NaiveBayesClassifier)
  (test_data : Census.DataFrame) (rows : list (string -> string)) (st : state)
  : outcome state :=
  match rows with
  | [] => Done st
  | row :: rest =>
      match test_row_fresh classifier test_data st row with
      | Done st' => test_rows_fresh classifier test_data rest st'
      | Failed e => Failed e
      | NameError name => NameError name
      end
  end.

End CensusTest.

(** The state in which a row leaves the shared dictionary. *)
Definition settled (test_data : Census.DataFrame) (st : CensusTest.state) : Prop :=
  CensusTest.new_instance st = []
  \/ Py.keys (CensusTest.new_instance st)
     = Py.unique (Census.feature_columns test_data CensusTest.target_class).

(** ** Notions the properties of the two programs are stated with *)

(** The sum, over a list of classes, of the probabilities whose logarithms
    a table of priors stores under them; a class the table does not hold
    contributes nothing. *)
Definition prior_mass (priors : Py.dict R) (classes : list string) : R :=
  Py.sum (map (fun k => match Py.get priors k with
                        | Some p => exp p
                        | None => 0%R
                        end) classes).

(** A text with its ASCII capitals A-Z replaced by a-z and every other
    character, of whatever alphabet, left as it is. *)
Fixpoint ascii_lower (s : string) : string :=
  match s with
  | EmptyString => EmptyString
  | String c rest =>
      String (if Spam.is_upper c then ascii_of_nat (nat_of_ascii c + 32) else c)
        (ascii_lower rest)
  end.

(** Every character of [s] satisfies [p]. *)
Fixpoint all_chars (p : ascii -> bool) (s : string) : bool :=
  match s with
  | EmptyString => true
  | String c rest => p c && all_chars p rest
  end.

(** The characters of [s] that satisfy [p], in order. *)
Fixpoint keep_chars (p : ascii -> bool) (s : string) : string :=
  match s with
  | EmptyString => EmptyString
  | String c rest => if p c then String c (keep_chars p rest) else keep_chars p rest
  end.

(** The letters of a text, lower-cased, in order. *)
Definition letters_of (s : string) : string :=
  Spam.lower (keep_chars Spam.is_letter s).

(** The tokens of a list written one after the other. *)
Definition glue (tokens : list string) : string :=
  fold_right String.append "" tokens.

(** The counts of a series are in non-increasing order. *)
Definition descending (counts : Py.dict nat) : Prop :=
  Sorted (fun x y => snd y <= snd x) counts.

(** The instance holds, under the feature name, a value the training column
    holds. *)
Definition seen (data : Census.DataFrame) (new_instance : Py.dict string)
  (feature : string) : bool :=
  match Py.get new_instance feature with
  | Some v => Py.mem v (Census.column_unique data feature)
  | None => false
  end.

(** The smoothed estimate of P(feature = v | class):
    (N_{k,f,v} + alpha) / (N_k + alpha * V_f). *)
Definition value_probability (a : R) (data : Census.DataFrame)
  (target k f v : string) : R :=
  ((INR (Census.matching data target k f v) + a)
   / (INR (Census.class_count data target k)
      + a * INR (List.length (Census.column_unique data f))))%R.

(** What the instance gives for one feature under class [k]. *)
Definition feature_probability (a : R) (data : Census.DataFrame) (target : string)
  (new_instance : Py.dict string) (k f : string) : R :=
  match Py.get new_instance f with
  | Some v => value_probability a data target k f v
  | None => 1%R
  end.

(** The log-score the loop of [predict] accumulates for class [k]. *)
Definition log_score (a : R) (data : Census.DataFrame) (target : string)
  (new_instance : Py.dict string) (k : string) : R :=
  fold_left Rplus
    (map (fun f => ln (feature_probability a data target new_instance k f))
       (Census.feature_columns data target))
    (Census.smoothed_prior a data target k).

(** ** Concrete inputs *)

(** The scenario of the specification: three training messages; the frame
    needs a fourth row, since the script trains on the first four fifths. *)
Definition toy_corpus : list Spam.row :=
  [ {| Spam.Label := "spam"; Spam.Text := "win money" |};
    {| Spam.Label := "ham"; Spam.Text := "hello friend" |};
    {| Spam.Label := "spam"; Spam.Text := "win prize" |};
    {| Spam.Label := "ham"; Spam.Text := "see you" |} ].

(** Five rows: four are trained on (two of each class), the fifth is held
    out for testing. *)
Definition held_out_corpus : list Spam.row :=
  [ {| Spam.Label := "ham"; Spam.Text := "hi there" |};
    {| Spam.Label := "spam"; Spam.Text := "win cash" |};
    {| Spam.Label := "ham"; Spam.Text := "how are you" |};
    {| Spam.Label := "spam"; Spam.Text := "free prize" |};
    {| Spam.Label := "ham"; Spam.Text := "see you" |} ].

(** A frame whose only training message holds no letter. *)
Definition digits_corpus : list Spam.row :=
  [ {| Spam.Label := "ham"; Spam.Text := "12345" |};
    {| Spam.Label := "spam"; Spam.Text := "777 888" |} ].

(** A row of a frame written as its cells. *)
Definition row_of (cells : list (string * string)) : string -> string :=
  fun column =>
    match Py.get cells column with
    | Some v => v
    | None => ""
    end.

Definition census_frame : Census.DataFrame :=
  {| Census.columns := ["sex"; "education"];
     Census.rows :=
       [ row_of [("sex", "Male"); ("education", "HS")];
         row_of [("sex", "Female"); ("education", "BS")];
         row_of [("sex", "Male"); ("education", "HS")] ] |}.

(** Two rows that differ in the target only. *)
Definition tie_frame : Census.DataFrame :=
  {| Census.columns := ["sex"; "education"];
     Census.rows :=
       [ row_of [("sex", "Male"); ("education", "HS")];
         row_of [("sex", "Female"); ("education", "HS")] ] |}.

(** The same two rows in the other order. *)
Definition tie_frame_swapped : Census.DataFrame :=
  {| Census.columns := ["sex"; "education"];
     Census.rows :=
       [ row_of [("sex", "Female"); ("education", "HS")];
         row_of [("sex", "Male"); ("education", "HS")] ] |}.

Definition empty_frame : Census.DataFrame :=
  {| Census.columns := ["sex"; "education"]; Census.rows := [] |}.

(** A frame where spam outnumbers ham. *)
Definition spam_heavy_corpus : list Spam.row :=
  [ {| Spam.Label := "spam"; Spam.Text := "win cash" |};
    {| Spam.Label := "spam"; Spam.Text := "free prize" |};
    {| Spam.Label := "ham"; Spam.Text := "see you" |};
    {| Spam.Label := "spam"; Spam.Text := "cash now" |};
    {| Spam.Label := "spam"; Spam.Text := "win win" |} ].

(** A testing frame without the target column. *)
Definition unlabelled_frame : Census.DataFrame :=
  {| Census.columns := ["education"];
     Census.rows := [ row_of [("education", "HS")] ] |}.

(** Running the model on a concrete input: everything but the arithmetic
    of the reals is computed, and the counters are written as numerals. *)
Ltac evaluate :=
  cbv -[ln exp Rplus Rmult Rdiv Rinv Rminus Ropp Rlt Rle INR IZR Rlt_dec Py.sum];
  rewrite ?INR_IZR_INZ; cbn [Z.of_nat Pos.of_succ_nat Pos.succ].

(** ** Facts about the Python fragment *)

Section PyFacts.
Import Py.

Lemma mem_In (x : string) (l : list string) : mem x l = true <-> In x l.
Proof.
  unfold mem. rewrite existsb_exists. split.
  - intros [y [Hy Heq]]. apply String.eqb_eq in Heq. now subst.
  - intros H. exists x. split; [assumption | apply String.eqb_refl].
Qed.

Lemma mem_false (x : string) (l : list string) : mem x l = false <-> ~ In x l.
Proof.
  rewrite <- mem_In. destruct (mem x l); split; intros; congruence.
Qed.

Lemma In_add (s : list string) (x y : string) :
  In y (add s x) <-> In y s \/ y = x.
Proof.
  unfold add. destruct (mem x s) eqn:E.
  - apply mem_In in E. split; [auto | intros [H | ->]; assumption].
  - rewrite in_app_iff. simpl. intuition congruence.
Qed.

Lemma NoDup_add (s : list string) (x : string) : NoDup s -> NoDup (add s x).
Proof.
  intros H. unfold add. destruct (mem x s) eqn:E; [assumption |].
  apply mem_false in E. apply NoDup_app; [assumption | repeat constructor; auto |].
  intros a Ha [<- | []]. contradiction.
Qed.

Lemma In_fold_add (l s : list string) (y : string) :
  In y (fold_left add l s) <-> In y s \/ In y l.
Proof.
  revert s. induction l as [| x l IH]; intros s; simpl.
  - tauto.
  - rewrite IH, In_add. intuition congruence.
Qed.

Lemma NoDup_fold_add (l s : list string) : NoDup s -> NoDup (fold_left add l s).
Proof.
  revert s. induction l as [| x l IH]; intros s H; simpl; [assumption |].
  apply IH, NoDup_add, H.
Qed.

Lemma In_unique (l : list string) (y : string) : In y (unique l) <-> In y l.
Proof. unfold unique. rewrite In_fold_add. simpl. tauto. Qed.

Lemma NoDup_unique (l : list string) : NoDup (unique l).
Proof. apply NoDup_fold_add. constructor. Qed.

Context {V : Type}.

Lemma get_setitem_same (d : dict V) (k : string) (v : V) :
  get (setitem d k v) k = Some v.
Proof.
  induction d as [| [k' v'] d IH]; simpl.
  - now rewrite String.eqb_refl.
  - destruct (String.eqb k k') eqn:E; simpl; rewrite E; [reflexivity | exact IH].
Qed.

Lemma get_setitem_other (d : dict V) (k k' : string) (v : V) :
  k' <> k -> get (setitem d k v) k' = get d k'.
Proof.
  intros Hne. induction d as [| [k0 v0] d IH]; simpl.
  - apply String.eqb_neq in Hne. now rewrite Hne.
  - destruct (String.eqb k k0) eqn:E; simpl.
    + apply String.eqb_eq in E. subst k0.
      apply String.eqb_neq in Hne. now rewrite Hne.
    + now rewrite IH.
Qed.

Lemma get_setitem (d : dict V) (k k' : string) (v : V) :
  get (setitem d k v) k' = if String.eqb k' k then Some v else get d k'.
Proof.
  destruct (String.eqb k' k) eqn:E.
  - apply String.eqb_eq in E. subst. apply get_setitem_same.
  - apply String.eqb_neq in E. now apply get_setitem_other.
Qed.

Lemma get_In_keys (d : dict V) (k : string) :
  (exists v, get d k = Some v) <-> In k (keys d).
Proof.
  induction d as [| [k' v'] d IH]; simpl.
  - split; [intros [v H]; discriminate | tauto].
  - destruct (String.eqb k k') eqn:E.
    + apply String.eqb_eq in E. subst. split; [auto | eauto].
    + apply String.eqb_neq in E. rewrite IH. intuition congruence.
Qed.

Lemma get_None_keys (d : dict V) (k : string) :
  get d k = None <-> ~ In k (keys d).
Proof.
  rewrite <- get_In_keys. destruct (get d k).
  - split; [discriminate | intros H; exfalso; eauto].
  - split; [intros _ [v H]; discriminate | reflexivity].
Qed.

Lemma contains_In_keys (d : dict V) (k : string) :
  contains d k = true <-> In k (keys d).
Proof.
  rewrite <- get_In_keys. unfold contains. destruct (get d k).
  - split; eauto.
  - split; [discriminate | intros [v H]; discriminate].
Qed.

Lemma keys_setitem_present (d : dict V) (k : string) (v : V) :
  In k (keys d) -> keys (setitem d k v) = keys d.
Proof.
  induction d as [| [k' v'] d IH]; simpl; [tauto |].
  intros H. destruct (String.eqb k k') eqn:E; simpl; [reflexivity |].
  apply String.eqb_neq in E. f_equal. apply IH. intuition congruence.
Qed.

Lemma keys_setitem_absent (d : dict V) (k : string) (v : V) :
  ~ In k (keys d) -> keys (setitem d k v) = (keys d ++ [k])%list.
Proof.
  induction d as [| [k' v'] d IH]; simpl; [reflexivity |].
  intros H. destruct (String.eqb k k') eqn:E; simpl.
  - apply String.eqb_eq in E. subst. tauto.
  - f_equal. apply IH. tauto.
Qed.

Lemma setitem_absent (d : dict V) (k : string) (v : V) :
  ~ In k (keys d) -> setitem d k v = (d ++ [(k, v)])%list.
Proof.
  induction d as [| [k' v'] d IH]; simpl; [reflexivity |].
  intros H. destruct (String.eqb k k') eqn:E; simpl.
  - apply String.eqb_eq in E. subst. tauto.
  - f_equal. apply IH. tauto.
Qed.

Lemma In_keys_setitem (d : dict V) (k k' : string) (v : V) :
  In k' (keys (setitem d k v)) <-> In k' (keys d) \/ k' = k.
Proof.
  rewrite <- !get_In_keys, get_setitem.
  destruct (String.eqb k' k) eqn:E.
  - apply String.eqb_eq in E. split; eauto.
  - apply String.eqb_neq in E. intuition.
Qed.

Lemma NoDup_keys_setitem (d : dict V) (k : string) (v : V) :
  NoDup (keys d) -> NoDup (keys (setitem d k v)).
Proof.
  intros H. destruct (in_dec string_dec k (keys d)) as [Hin | Hout].
  - now rewrite keys_setitem_present.
  - rewrite keys_setitem_absent by assumption.
    apply NoDup_app; [assumption | repeat constructor; auto |].
    intros a Ha [<- | []]. contradiction.
Qed.

(** A dictionary with distinct keys is its keys paired with their lookups. *)
Lemma dict_by_keys (d : dict V) (f : string -> V) :
  NoDup (keys d) ->
  (forall k, In k (keys d) -> get d k = Some (f k)) ->
  d = map (fun k => (k, f k)) (keys d).
Proof.
  induction d as [| [k v] d IH]; simpl; intros Hnd Hget; [reflexivity |].
  inversion Hnd as [| ? ? Hk Hd]; subst.
  f_equal.
  - specialize (Hget k (or_introl eq_refl)). rewrite String.eqb_refl in Hget.
    congruence.
  - apply IH; [assumption |]. intros k' Hk'.
    specialize (Hget k' (or_intror Hk')).
    destruct (String.eqb k' k) eqn:E; [| assumption].
    apply String.eqb_eq in E. subst. contradiction.
Qed.

End PyFacts.

Section LoopFacts.
Import Py.

Lemma for_each_app {S A : Type} (body : S -> A -> result S) (l1 l2 : list A) (s : S) :
  for_each body (l1 ++ l2) s = bind (for_each body l1 s) (for_each body l2).
Proof.
  revert s. induction l1 as [| x l1 IH]; intros s; simpl; [reflexivity |].
  destruct (body s x); simpl; [apply IH | reflexivity].
Qed.

(** A loop over the texts with a loop over each text's words inside is one
    loop over all the words. *)
Lemma for_each_concat {S A : Type} (body : S -> A -> result S)
  (ls : list (list A)) (s : S) :
  for_each (fun st l => for_each body l st) ls s = for_each body (List.concat ls) s.
Proof.
  revert s. induction ls as [| l ls IH]; intros s; simpl; [reflexivity |].
  rewrite for_each_app. destruct (for_each body l s); simpl; [apply IH | reflexivity].
Qed.

(** A loop whose body never raises is a fold. *)
Lemma for_each_pure {S A : Type} (body : S -> A -> result S) (step : S -> A -> S)
  (l : list A) (s : S) :
  (forall st x, In x l -> body st x = Ok (step st x)) ->
  for_each body l s = Ok (fold_left step l s).
Proof.
  revert s. induction l as [| x l IH]; intros s H; simpl; [reflexivity |].
  rewrite H by (left; reflexivity). simpl. apply IH.
  intros st y Hy. apply H. now right.
Qed.

Lemma for_each_ext {S A : Type} (body body' : S -> A -> result S)
  (l : list A) (s : S) :
  (forall st x, In x l -> body st x = body' st x) ->
  for_each body l s = for_each body' l s.
Proof.
  revert s. induction l as [| x l IH]; intros s H; simpl; [reflexivity |].
  rewrite H by (left; reflexivity).
  destruct (body' s x); simpl; [| reflexivity].
  apply IH. intros st y Hy. apply H. now right.
Qed.

Context {V : Type}.

Lemma keys_setitem (d : dict V) (k : string) (v : V) :
  keys (setitem d k v) = add (keys d) k.
Proof.
  unfold add. destruct (mem k (keys d)) eqn:E.
  - apply mem_In in E. now apply keys_setitem_present.
  - apply mem_false in E. now apply keys_setitem_absent.
Qed.

(** Storing, for each key of a list, a value that depends on the key only. *)
Lemma get_fold_setitem (f : string -> V) (l : list string) (d : dict V) (k : string) :
  get (fold_left (fun acc w => setitem acc w (f w)) l d) k
  = if mem k l then Some (f k) else get d k.
Proof.
  revert d. induction l as [| x l IH]; intros d; simpl; [reflexivity |].
  rewrite IH, get_setitem.
  destruct (String.eqb k x) eqn:E; simpl.
  - apply String.eqb_eq in E. subst. now destruct (mem x l).
  - reflexivity.
Qed.

Lemma keys_fold_setitem (f : string -> V) (l : list string) (d : dict V) :
  keys (fold_left (fun acc w => setitem acc w (f w)) l d) = fold_left add l (keys d).
Proof.
  revert d. induction l as [| x l IH]; intros d; simpl; [reflexivity |].
  now rewrite IH, keys_setitem.
Qed.

End LoopFacts.

Lemma fold_add_fresh (l s : list string) :
  NoDup l -> (forall x, In x l -> ~ In x s) ->
  fold_left Py.add l s = (s ++ l)%list.
Proof.
  revert s. induction l as [| x l IH]; intros s Hnd Hfresh; simpl.
  - now rewrite app_nil_r.
  - inversion Hnd as [| ? ? Hx Hl]; subst.
    unfold Py.add at 2.
    assert (E : Py.mem x s = false) by (apply mem_false, Hfresh; now left).
    rewrite E, IH; [now rewrite <- app_assoc | assumption |].
    intros y Hy Hin. apply in_app_or in Hin. destruct Hin as [Hin | [<- | []]].
    + apply (Hfresh y); [now right | assumption].
    + contradiction.
Qed.

Lemma fold_add_present (l s : list string) :
  (forall x, In x l -> In x s) -> fold_left Py.add l s = s.
Proof.
  revert s. induction l as [| x l IH]; intros s H; simpl; [reflexivity |].
  unfold Py.add at 2.
  assert (E : Py.mem x s = true) by (apply mem_In, H; now left).
  rewrite E. apply IH. intros y Hy. apply H. now right.
Qed.

Lemma unique_NoDup (l : list string) : NoDup l -> Py.unique l = l.
Proof.
  intros H. unfold Py.unique. now rewrite fold_add_fresh.
Qed.

(** ** The spam notebook: counting *)

Section SpamCounting.
Import Py.

Lemma build_vocabulary_unique (data : Spam.cleaned) :
  Spam.build_vocabulary data = unique (List.concat (map snd data)).
Proof.
  unfold Spam.build_vocabulary, unique. generalize (@nil string).
  induction data as [| text data IH]; intros s; simpl; [reflexivity |].
  now rewrite IH, fold_left_app.
Qed.

Lemma In_build_vocabulary (data : Spam.cleaned) (w : string) :
  In w (Spam.build_vocabulary data) <-> exists text, In text data /\ In w (snd text).
Proof.
  rewrite build_vocabulary_unique, In_unique, in_concat. split.
  - intros [l [Hl Hw]]. apply in_map_iff in Hl. destruct Hl as [text [<- Ht]]. eauto.
  - intros [text [Ht Hw]]. exists (snd text). split; [now apply in_map | assumption].
Qed.

Lemma NoDup_build_vocabulary (data : Spam.cleaned) :
  NoDup (Spam.build_vocabulary data).
Proof. rewrite build_vocabulary_unique. apply NoDup_unique. Qed.

Lemma words_of_in_vocabulary (label : string) (data : Spam.cleaned) (w : string) :
  In w (Spam.words_of label data) -> In w (Spam.build_vocabulary data).
Proof.
  unfold Spam.words_of, Spam.messages_of. rewrite in_concat.
  intros [l [Hl Hw]]. apply in_map_iff in Hl. destruct Hl as [text [<- Ht]].
  apply filter_In in Ht. apply In_build_vocabulary. exists text. tauto.
Qed.

Lemma get_zero_counts (vocabulary : list string) (w : string) :
  get (Spam.zero_counts vocabulary) w = if mem w vocabulary then Some 0 else None.
Proof. unfold Spam.zero_counts. now rewrite (get_fold_setitem (fun _ => 0)). Qed.

Lemma keys_zero_counts (vocabulary : list string) :
  keys (Spam.zero_counts vocabulary) = unique vocabulary.
Proof. unfold Spam.zero_counts. now rewrite (keys_fold_setitem (fun _ => 0)). Qed.

Lemma init_word_frequency_eq (o : Spam.set_order) (vocabulary : list string) :
  Spam.init_word_frequency o vocabulary
  = map (fun k => (k, Spam.zero_counts vocabulary)) (Spam.iterate o).
Proof. destruct o; reflexivity. Qed.

(** One pass of the counting loop over the words of a class: every word
    has an entry, so nothing raises; each occurrence adds one to its word's
    entry and to the running total, and nothing else changes. *)
Lemma count_words_spec (label : string) (words : list string) :
  forall (wf : dict (dict nat)) (n : nat) (per : dict nat),
    get wf label = Some per ->
    (forall w, In w words -> In w (keys per)) ->
    exists wf' per',
      for_each (Spam.count_word label) words (wf, n)
      = Ok (wf', n + List.length words)
      /\ get wf' label = Some per'
      /\ (forall l, l <> label -> get wf' l = get wf l)
      /\ keys wf' = keys wf
      /\ keys per' = keys per
      /\ (forall w, get per' w
                    = option_map (fun c => c + count_occ string_dec words w)
                        (get per w)).
Proof.
  induction words as [| x words IH]; intros wf n per Hper Hin.
  - exists wf, per. simpl. rewrite Nat.add_0_r. repeat split; auto.
    intros w. destruct (get per w); simpl; [now rewrite Nat.add_0_r | reflexivity].
  - assert (Hx : In x (keys per)) by (apply Hin; now left).
    apply get_In_keys in Hx. destruct Hx as [c Hc].
    set (per1 := setitem per x (c + 1)).
    set (wf1 := setitem wf label per1).
    assert (Hstep : Spam.count_word label (wf, n) x = Ok (wf1, n + 1)).
    { unfold Spam.count_word, getitem. simpl. rewrite Hper. simpl.
      rewrite Hc. reflexivity. }
    assert (Hk1 : keys per1 = keys per).
    { apply keys_setitem_present, get_In_keys. eauto. }
    destruct (IH wf1 (n + 1) per1) as [wf' [per' [Hrun [Hg [Hother [Hkeys [Hkp Hcount]]]]]]].
    { apply get_setitem_same. }
    { intros w Hw. rewrite Hk1. apply Hin. now right. }
    exists wf', per'. simpl. rewrite Hstep. simpl. rewrite Hrun.
    repeat split.
    + f_equal. f_equal. lia.
    + assumption.
    + intros l Hl. rewrite Hother by assumption. now apply get_setitem_other.
    + rewrite Hkeys. apply keys_setitem_present, get_In_keys. eauto.
    + congruence.
    + intros w. rewrite Hcount. unfold per1. rewrite get_setitem.
      destruct (string_dec x w) as [-> | Hne].
      * rewrite String.eqb_refl, Hc. simpl. f_equal. lia.
      * assert (E : String.eqb w x = false) by (apply String.eqb_neq; congruence).
        rewrite E. reflexivity.
Qed.

End SpamCounting.

Section SpamFitting.
Import Py.

Lemma count_messages_flat (label : string) (texts : list (list string))
  (wf : dict (dict nat)) :
  Spam.count_messages label texts wf
  = for_each (Spam.count_word label) (List.concat texts) (wf, 0).
Proof. unfold Spam.count_messages. apply for_each_concat. Qed.

Lemma two_labels (k : string) :
  k = "ham" \/ k = "spam" -> forall o, In k (Spam.iterate o).
Proof. intros [-> | ->] []; simpl; auto. Qed.

Lemma get_init_word_frequency (o : Spam.set_order) (voc : list string) (k : string) :
  k = "ham" \/ k = "spam" ->
  get (Spam.init_word_frequency o voc) k = Some (Spam.zero_counts voc).
Proof. rewrite init_word_frequency_eq. intros [-> | ->]; destruct o; reflexivity. Qed.

(** The two counting loops never raise, and leave, for each class, a table
    over the vocabulary holding the number of occurrences of each word in
    that class's training messages. *)
Lemma counting_spec (o : Spam.set_order) (data : Spam.cleaned) :
  let voc := Spam.build_vocabulary data in
  exists wf1 wf2,
    Spam.count_messages "spam" (Spam.messages_of "spam" data)
      (Spam.init_word_frequency o voc)
    = Ok (wf1, Spam.class_total "spam" data)
    /\ Spam.count_messages "ham" (Spam.messages_of "ham" data) wf1
       = Ok (wf2, Spam.class_total "ham" data)
    /\ keys wf2 = Spam.iterate o
    /\ forall k, k = "ham" \/ k = "spam" ->
         exists per,
           get wf2 k = Some per
           /\ keys per = voc
           /\ forall w, get per w
                        = if mem w voc then Some (Spam.joint_count k data w)
                          else None.
Proof.
  intros voc.
  assert (Hvoc : keys (Spam.zero_counts voc) = voc).
  { rewrite keys_zero_counts. apply unique_NoDup, NoDup_build_vocabulary. }
  destruct (count_words_spec "spam" (Spam.words_of "spam" data)
              (Spam.init_word_frequency o voc) 0 (Spam.zero_counts voc))
    as [wf1 [ps [Hrun1 [Hg1 [Ho1 [Hk1 [Hkp1 Hc1]]]]]]].
  { apply get_init_word_frequency. now right. }
  { intros w Hw. rewrite Hvoc. eapply words_of_in_vocabulary, Hw. }
  destruct (count_words_spec "ham" (Spam.words_of "ham" data) wf1 0
              (Spam.zero_counts voc))
    as [wf2 [ph [Hrun2 [Hg2 [Ho2 [Hk2 [Hkp2 Hc2]]]]]]].
  { rewrite Ho1 by discriminate. apply get_init_word_frequency. now left. }
  { intros w Hw. rewrite Hvoc. eapply words_of_in_vocabulary, Hw. }
  exists wf1, wf2. rewrite !count_messages_flat. repeat split.
  - exact Hrun1.
  - exact Hrun2.
  - rewrite Hk2, Hk1, init_word_frequency_eq. unfold keys.
    rewrite map_map. simpl. apply map_id.
  - intros k [-> | ->].
    + exists ph. repeat split; [assumption | congruence |].
      intros w. rewrite Hc2, get_zero_counts. now destruct (mem w voc).
    + exists ps. repeat split.
      * rewrite Ho2 by discriminate. assumption.
      * congruence.
      * intros w. rewrite Hc1, get_zero_counts. now destruct (mem w voc).
Qed.

End SpamFitting.

Section SpamEstimation.
Import Py.

Lemma setitem_twice {V : Type} (d : dict V) (k : string) (v v' : V) :
  setitem (setitem d k v) k v' = setitem d k v'.
Proof.
  induction d as [| [k0 v0] d IH]; simpl.
  - now rewrite String.eqb_refl.
  - destruct (String.eqb k k0) eqn:E; simpl; rewrite E; [reflexivity | now rewrite IH].
Qed.

(** The inner loop of lines 106-113 never raises: it stores the smoothed
    ratio's logarithm for every word of the vocabulary. *)
Lemma fill_words_spec (wf : dict (dict nat)) (ws wh : nat) (voc : list string)
  (key : string) (per : dict nat) (cnt : string -> nat) :
  get wf key = Some per ->
  (forall w, In w voc -> get per w = Some (cnt w)) ->
  forall d,
    for_each (Spam.fill_word wf ws wh (List.length voc) key) voc d
    = Ok (fold_left
            (fun acc w =>
               setitem acc w
                 (ln (INR (cnt w + Spam.alpha)
                      / INR ((if String.eqb key "spam" then ws else wh)
                             + Spam.alpha * List.length voc))))
            voc d).
Proof.
  intros Hper Hcnt d. apply for_each_pure. intros st x Hx.
  unfold Spam.fill_word, getitem, truediv, np_log.
  rewrite Hper. cbn [bind]. rewrite (Hcnt x Hx). cbn [bind].
  destruct voc as [| y voc]; [contradiction |].
  destruct (Nat.eqb_spec
              ((if String.eqb key "spam" then ws else wh)
               + Spam.alpha * List.length (y :: voc)) 0) as [E | E].
  - unfold Spam.alpha in E. simpl in E. lia.
  - reflexivity.
Qed.

Lemma fill_key_spec (wf : dict (dict nat)) (ws wh : nat) (voc : list string)
  (key : string) (per : dict nat) (cnt : string -> nat) (wlp : dict (dict R)) :
  get wf key = Some per ->
  (forall w, In w voc -> get per w = Some (cnt w)) ->
  contains wlp key = false ->
  Spam.fill_key wf ws wh voc wlp key
  = Ok (setitem wlp key
          (fold_left
             (fun acc w =>
                setitem acc w
                  (ln (INR (cnt w + Spam.alpha)
                       / INR ((if String.eqb key "spam" then ws else wh)
                              + Spam.alpha * List.length voc))))
             voc [])).
Proof.
  intros Hper Hcnt Hfresh. unfold Spam.fill_key. rewrite Hfresh.
  unfold getitem at 1. rewrite get_setitem_same. simpl.
  rewrite (fill_words_spec wf ws wh voc key per cnt Hper Hcnt). simpl.
  now rewrite setitem_twice.
Qed.

(** What the training cell leaves behind, for every training frame and
    either iteration order of the set literal: it never raises, and the
    table of each class holds the additive-smoothing formula at every word
    of the vocabulary. *)
Lemma fit_spec (o : Spam.set_order) (priors : dict R) (data : Spam.cleaned) :
  exists g,
    Spam.fit o priors data = Ok g
    /\ Spam.log_priors g = priors
    /\ Spam.vocabulary g = Spam.build_vocabulary data
    /\ Spam.words_in_spam g = Spam.class_total "spam" data
    /\ Spam.words_in_ham g = Spam.class_total "ham" data
    /\ Spam.key g = last (Spam.iterate o) ""
    /\ keys (Spam.word_log_prob g) = Spam.iterate o
    /\ keys (Spam.word_frequency g) = Spam.iterate o
    /\ (forall k, k = "ham" \/ k = "spam" ->
          exists per,
            get (Spam.word_frequency g) k = Some per
            /\ keys per = Spam.vocabulary g
            /\ forall w, get per w
                         = if mem w (Spam.vocabulary g)
                           then Some (Spam.joint_count k data w) else None)
    /\ (forall k, k = "ham" \/ k = "spam" ->
          exists t,
            get (Spam.word_log_prob g) k = Some t
            /\ keys t = Spam.vocabulary g
            /\ forall w, get t w
                         = if mem w (Spam.vocabulary g)
                           then Some (Spam.smoothed_log_prob data k w) else None).
Proof.
  destruct (counting_spec o data) as [wf1 [wf2 [Hspam [Hham [Hkeys Hfreq]]]]].
  set (voc := Spam.build_vocabulary data) in *.
  destruct (Hfreq "ham" (or_introl eq_refl)) as [ph [Hgh [Hkh Hch]]].
  destruct (Hfreq "spam" (or_intror eq_refl)) as [ps [Hgs [Hks Hcs]]].
  set (table := fun k =>
         fold_left (fun acc w => setitem acc w (Spam.smoothed_log_prob data k w))
           voc ([] : dict R)).
  assert (Hfill : forall k per wlp,
             k = "ham" \/ k = "spam" -> get wf2 k = Some per ->
             (forall w, get per w
                        = if mem w voc then Some (Spam.joint_count k data w) else None) ->
             contains wlp k = false ->
             Spam.fill_key wf2 (Spam.class_total "spam" data)
               (Spam.class_total "ham" data) voc wlp k
             = Ok (setitem wlp k (table k))).
  { intros k per wlp Hk Hg Hc Hfresh.
    rewrite (fill_key_spec wf2 _ _ voc k per (Spam.joint_count k data) wlp Hg);
      [| | assumption].
    - unfold table, Spam.smoothed_log_prob. fold voc.
      destruct Hk as [-> | ->]; reflexivity.
    - intros w Hw. rewrite Hc. apply mem_In in Hw. now rewrite Hw. }
  assert (Hwlp : exists wlp,
             Spam.compute_word_log_prob wf2 (Spam.class_total "spam" data)
               (Spam.class_total "ham" data) voc = Ok wlp
             /\ wlp = map (fun k => (k, table k)) (Spam.iterate o)).
  { unfold Spam.compute_word_log_prob. rewrite Hkeys.
    destruct o; simpl Spam.iterate; cbn [for_each].
    - rewrite (Hfill "ham" ph []) by (auto; reflexivity). cbn [bind].
      rewrite (Hfill "spam" ps) by (auto; reflexivity). cbn [bind].
      eexists. split; reflexivity.
    - rewrite (Hfill "spam" ps []) by (auto; reflexivity). cbn [bind].
      rewrite (Hfill "ham" ph) by (auto; reflexivity). cbn [bind].
      eexists. split; reflexivity. }
  destruct Hwlp as [wlp [Hrun Hshape]].
  eexists. unfold Spam.fit. fold voc. rewrite Hspam. cbn [bind fst snd].
  rewrite Hham. cbn [bind fst snd]. rewrite Hrun. cbn [bind].
  split; [reflexivity |]. cbn [Spam.log_priors Spam.vocabulary Spam.words_in_spam
    Spam.words_in_ham Spam.key Spam.word_log_prob Spam.word_frequency].
  repeat split.
  - rewrite Hkeys. now destruct o.
  - rewrite Hshape. unfold keys. rewrite map_map. apply map_id.
  - exact Hkeys.
  - intros k Hk. destruct (Hfreq k Hk) as [per Hper]. exists per. exact Hper.
  - intros k Hk. exists (table k). repeat split.
    + rewrite Hshape. destruct Hk as [-> | ->]; destruct o; reflexivity.
    + unfold table.
      rewrite (keys_fold_setitem (fun w => Spam.smoothed_log_prob data k w)).
      apply unique_NoDup, NoDup_build_vocabulary.
    + intros w. unfold table.
      now rewrite (get_fold_setitem (fun w => Spam.smoothed_log_prob data k w)).
Qed.

End SpamEstimation.

(** ** The spam notebook: [classify] on a fitted model *)

Section SpamClassify.
Import Py.

Variable o : Spam.set_order.
Variables ph ps : R.
Variable data : Spam.cleaned.
Variable g : Spam.globals.
Hypothesis Hfit : Spam.fit o [("ham", ph); ("spam", ps)] data = Ok g.

Let facts := fit_spec o [("ham", ph); ("spam", ps)] data.

Lemma fitted_priors : Spam.log_priors g = [("ham", ph); ("spam", ps)].
Proof.
  destruct facts as [g' [Hg' H]]. rewrite Hfit in Hg'. injection Hg' as <-. tauto.
Qed.

Lemma fitted_vocabulary : Spam.vocabulary g = Spam.build_vocabulary data.
Proof.
  destruct facts as [g' [Hg' H]]. rewrite Hfit in Hg'. injection Hg' as <-. tauto.
Qed.

Lemma fitted_totals :
  Spam.words_in_spam g = Spam.class_total "spam" data
  /\ Spam.words_in_ham g = Spam.class_total "ham" data
  /\ Spam.key g = last (Spam.iterate o) "".
Proof.
  destruct facts as [g' [Hg' H]]. rewrite Hfit in Hg'. injection Hg' as <-. tauto.
Qed.

Lemma fitted_table (k : string) :
  k = "ham" \/ k = "spam" ->
  exists t,
    get (Spam.word_log_prob g) k = Some t
    /\ keys t = Spam.vocabulary g
    /\ forall w, get t w
                 = if mem w (Spam.vocabulary g)
                   then Some (Spam.smoothed_log_prob data k w) else None.
Proof.
  destruct facts as [g' [Hg' H]]. rewrite Hfit in Hg'. injection Hg' as <-.
  apply H.
Qed.

Lemma class_total_le_empty (k : string) :
  Spam.vocabulary g = [] -> Spam.class_total k data = 0.
Proof.
  intros Hv. unfold Spam.class_total.
  destruct (Spam.words_of k data) as [| w ws] eqn:E; [reflexivity |].
  assert (Hin : In w (Spam.build_vocabulary data)).
  { apply (words_of_in_vocabulary k). rewrite E. now left. }
  rewrite <- fitted_vocabulary, Hv in Hin. contradiction.
Qed.

Lemma unseen_word_prob_nonempty :
  Spam.vocabulary g <> [] -> Spam.unseen_word_prob g = Ok (Spam.unseen_increment g).
Proof.
  intros Hv. unfold Spam.unseen_word_prob, truediv, Spam.unseen_increment, Spam.key_total.
  destruct (Spam.vocabulary g) as [| w voc]; [congruence |].
  match goal with |- (if Nat.eqb ?d 0 then _ else _) = _ =>
    destruct (Nat.eqb_spec d 0) as [E | E] end.
  - unfold Spam.alpha in E. simpl in E. lia.
  - reflexivity.
Qed.

Lemma unseen_word_prob_empty :
  Spam.vocabulary g = [] -> Spam.unseen_word_prob g = Raise ZeroDivisionError.
Proof.
  intros Hv. unfold Spam.unseen_word_prob, truediv.
  destruct fitted_totals as [Hs [Hh _]].
  rewrite Hs, Hh, Hv, !class_total_le_empty by assumption.
  now destruct (String.eqb (Spam.key g) "spam").
Qed.

Lemma add_word_known (k : string) (x : R) (w : string) :
  k = "ham" \/ k = "spam" -> mem w (Spam.vocabulary g) = true ->
  Spam.add_word g k x w = Ok (x + Spam.smoothed_log_prob data k w)%R.
Proof.
  intros Hk Hw. unfold Spam.add_word, getitem. rewrite Hw.
  destruct (fitted_table k Hk) as [t [Ht [_ Hget]]].
  rewrite Ht. cbn [bind]. rewrite Hget, Hw. reflexivity.
Qed.

Lemma add_word_unknown (k : string) (x : R) (w : string) :
  mem w (Spam.vocabulary g) = false ->
  Spam.add_word g k x w = (p <- Spam.unseen_word_prob g ;; Ok (x + p)%R).
Proof. intros Hw. unfold Spam.add_word. now rewrite Hw. Qed.

Lemma add_words_nonempty (k : string) (words : list string) :
  k = "ham" \/ k = "spam" -> Spam.vocabulary g <> [] ->
  forall x,
    for_each (Spam.add_word g k) words x
    = Ok (fold_left Rplus (map (Spam.contribution data g k) words) x).
Proof.
  intros Hk Hv. induction words as [| w words IH]; intros x; simpl; [reflexivity |].
  unfold Spam.contribution at 2. destruct (mem w (Spam.vocabulary g)) eqn:Hw.
  - rewrite add_word_known by assumption. cbn [bind]. apply IH.
  - rewrite add_word_unknown, unseen_word_prob_nonempty by assumption.
    cbn [bind]. apply IH.
Qed.


Lemma class_probabilities_nonempty (words : list string) :
  Spam.vocabulary g <> [] ->
  Spam.class_probabilities g words
  = Ok [("ham", Spam.score data g "ham" ph words);
        ("spam", Spam.score data g "spam" ps words)].
Proof.
  intros Hv. unfold Spam.class_probabilities. rewrite fitted_priors.
  cbn [keys map fst for_each]. unfold getitem. cbn [get String.eqb Ascii.eqb Bool.eqb].
  cbn [bind]. rewrite !add_words_nonempty by auto. reflexivity.
Qed.


End SpamClassify.

(** ** [max] over a dictionary of scores *)

Section MaxFacts.
Import Py.

(** The scan returns either the running best, when nothing after it is
    strictly larger, or a later entry that is strictly larger than the
    running best and than everything before it, and at least as large as
    everything after it. *)
Lemma max_scan_spec (rest : dict R) :
  forall (k : string) (v : R),
    (max_scan k v rest = k /\ forall p, In p rest -> (snd p <= v)%R)
    \/ exists before w after,
         rest = (before ++ (max_scan k v rest, w) :: after)%list
         /\ (v < w)%R
         /\ (forall p, In p before -> (snd p < w)%R)
         /\ (forall p, In p after -> (snd p <= w)%R).
Proof.
  induction rest as [| [k1 v1] rest IH]; intros k v.
  - left. split; [reflexivity | intros p []].
  - simpl. destruct (Rlt_dec v v1) as [Hlt | Hge].
    + right. destruct (IH k1 v1) as [[Hk Hall] | [b [w [a [Hsplit [Hw [Hb Ha]]]]]]].
      * exists [], v1, rest. rewrite Hk. repeat split; auto. intros p [].
      * exists ((k1, v1) :: b), w, a. repeat split.
        -- simpl. f_equal. exact Hsplit.
        -- lra.
        -- intros p [<- | Hp]; [exact Hw | now apply Hb].
        -- exact Ha.
    + destruct (IH k v) as [[Hk Hall] | [b [w [a [Hsplit [Hw [Hb Ha]]]]]]].
      * left. split; [exact Hk |]. intros p [<- | Hp]; [simpl; lra | now apply Hall].
      * right. exists ((k1, v1) :: b), w, a. repeat split.
        -- simpl. f_equal. exact Hsplit.
        -- exact Hw.
        -- intros p [<- | Hp]; [simpl; lra | now apply Hb].
        -- exact Ha.
Qed.

(** [max(d, key=d.get)] returns the first key, in the order of the
    dictionary, whose value is maximal. *)
Lemma max_by_value_first_maximum (d : dict R) (label : string) :
  max_by_value d = Ok label ->
  exists before w after,
    d = (before ++ (label, w) :: after)%list
    /\ (forall p, In p before -> (snd p < w)%R)
    /\ (forall p, In p after -> (snd p <= w)%R).
Proof.
  destruct d as [| [k v] rest]; simpl; [discriminate |].
  intros H. injection H as <-.
  destruct (max_scan_spec rest k v) as [[Hk Hall] | [b [w [a [Hsplit [Hw [Hb Ha]]]]]]].
  - exists [], v, rest. rewrite Hk. repeat split; auto. intros p [].
  - exists ((k, v) :: b), w, a. repeat split.
    + simpl. f_equal. exact Hsplit.
    + intros p [<- | Hp]; [exact Hw | now apply Hb].
    + exact Ha.
Qed.

Lemma max_by_value_nonempty (d : dict R) :
  d <> [] -> exists label, max_by_value d = Ok label.
Proof. destruct d as [| [k v] rest]; [congruence | simpl; eauto]. Qed.

Lemma max_of_two (k1 k2 : string) (a b : R) :
  max_by_value [(k1, a); (k2, b)] = Ok (if Rlt_dec a b then k2 else k1).
Proof. simpl. now destruct (Rlt_dec a b). Qed.

Lemma fold_left_Rplus (l : list R) (x : R) :
  fold_left Rplus l x = (x + sum l)%R.
Proof.
  revert x. induction l as [| y l IH]; intros x; simpl; [lra |].
  rewrite IH. lra.
Qed.

Lemma sum_cons (x : R) (l : list R) : sum (x :: l) = (x + sum l)%R.
Proof. reflexivity. Qed.

End MaxFacts.

(** ** The spam notebook: the whole cell *)

Section SpamRun.
Import Py.

Lemma compute_log_priors_shape (sd : list Spam.row) (priors : dict R) :
  Spam.compute_log_priors sd = Ok priors ->
  exists ph ps, priors = [("ham", ph); ("spam", ps)].
Proof.
  unfold Spam.compute_log_priors.
  destruct (Spam.positional _ 0); cbn [bind]; [| discriminate].
  destruct (Spam.positional _ 1); cbn [bind]; [| discriminate].
  intros H. injection H as <-. eauto.
Qed.

Lemma run_fit (o : Spam.set_order) (sd : list Spam.row) (g : Spam.globals) :
  Spam.run o sd = Ok g ->
  exists ph ps,
    Spam.compute_log_priors sd = Ok [("ham", ph); ("spam", ps)]
    /\ Spam.fit o [("ham", ph); ("spam", ps)]
         (Spam.clean_training_data (Spam.training_data sd)) = Ok g.
Proof.
  unfold Spam.run. destruct (Spam.compute_log_priors sd) as [priors |] eqn:E;
    cbn [bind]; [| discriminate].
  destruct (compute_log_priors_shape sd priors E) as [ph [ps ->]]. eauto.
Qed.

Lemma classify_nonempty (o : Spam.set_order) (ph ps : R) (data : Spam.cleaned)
  (g : Spam.globals) (message : string) :
  Spam.fit o [("ham", ph); ("spam", ps)] data = Ok g ->
  Spam.vocabulary g <> [] ->
  Spam.classify g message
  = Ok (if Rlt_dec (Spam.score data g "ham" ph (Spam.clean_message message))
                   (Spam.score data g "spam" ps (Spam.clean_message message))
        then "spam" else "ham").
Proof.
  intros Hfit Hv. unfold Spam.classify.
  rewrite (class_probabilities_nonempty o ph ps data g Hfit _ Hv). cbn [bind].
  apply max_of_two.
Qed.

End SpamRun.

(** ** Counting by groups *)

Section Partition.

Lemma fold_left_add_sum {A : Type} (f : A -> nat) (l : list A) (x : nat) :
  fold_left (fun total v => total + f v) l x = x + list_sum (map f l).
Proof.
  revert x. induction l as [| v l IH]; intros x; simpl; [lia |].
  rewrite IH. lia.
Qed.

Lemma list_sum_zeros {A : Type} (l : list A) :
  list_sum (map (fun _ => 0) l) = 0.
Proof. induction l; simpl; auto. Qed.

Lemma list_sum_indicator (k : string) (vals : list string) :
  NoDup vals -> In k vals ->
  list_sum (map (fun v => if String.eqb k v then 1 else 0) vals) = 1.
Proof.
  induction vals as [| v vals IH]; intros Hnd Hin; [contradiction |].
  inversion Hnd as [| ? ? Hv Hvals]; subst. simpl.
  destruct (String.eqb k v) eqn:E.
  - apply String.eqb_eq in E. subst v.
    assert (Hz : list_sum (map (fun v => if String.eqb k v then 1 else 0) vals) = 0).
    { clear IH Hnd Hin Hvals. induction vals as [| u vals IH]; [reflexivity |].
      simpl. destruct (String.eqb k u) eqn:E.
      - apply String.eqb_eq in E. subst. exfalso. apply Hv. now left.
      - apply IH. intros H. apply Hv. now right. }
    now rewrite Hz.
  - apply String.eqb_neq in E. destruct Hin as [-> | Hin]; [congruence |].
    now rewrite IH.
Qed.

(** Rows grouped by the value of a column: when the groups' keys are
    distinct and cover every row, the groups' sizes add up to the whole. *)
Lemma count_partition {A : Type} (f : A -> string) (Q : A -> bool)
  (vals : list string) (l : list A) :
  NoDup vals -> (forall x, In x l -> In (f x) vals) ->
  list_sum
    (map (fun v => List.length (filter (fun x => Q x && String.eqb (f x) v) l)) vals)
  = List.length (filter Q l).
Proof.
  intros Hnd. induction l as [| x l IH]; intros Hcover.
  - simpl. apply list_sum_zeros.
  - assert (Hstep :
      list_sum
        (map (fun v => List.length
                         (filter (fun x => Q x && String.eqb (f x) v) (x :: l))) vals)
      = list_sum (map (fun v => if Q x && String.eqb (f x) v then 1 else 0) vals)
        + list_sum
            (map (fun v => List.length
                             (filter (fun x => Q x && String.eqb (f x) v) l)) vals)).
    { clear. induction vals as [| v vals IHv]; [reflexivity |].
      cbn [map list_sum fold_right]. fold (list_sum
        (map (fun v => List.length
                         (filter (fun x => Q x && String.eqb (f x) v) (x :: l))) vals)).
      unfold list_sum in *. rewrite IHv. cbn [filter].
      destruct (Q x && String.eqb (f x) v); simpl; lia. }
    rewrite Hstep, IH by (intros y Hy; apply Hcover; now right).
    cbn [filter]. destruct (Q x) eqn:HQ; cbn [andb].
    + rewrite (list_sum_indicator (f x) vals Hnd) by (apply Hcover; now left).
      reflexivity.
    + now rewrite list_sum_zeros.
Qed.

Lemma count_occ_filter {A : Type} (f : A -> string) (l : list A) (k : string) :
  count_occ string_dec (map f l) k
  = List.length (filter (fun x => String.eqb (f x) k) l).
Proof.
  induction l as [| x l IH]; [reflexivity |]. simpl.
  destruct (string_dec (f x) k) as [E | E].
  - apply String.eqb_eq in E as E'. rewrite E'. simpl. now rewrite IH.
  - apply String.eqb_neq in E. now rewrite E.
Qed.

End Partition.

(** ** The census notebook: [train] *)

Section CensusTraining.
Import Py.

Lemma fold_setitem_NoDup {V : Type} (f : string -> V) (ks : list string) :
  NoDup ks ->
  fold_left (fun acc k => setitem acc k (f k)) ks [] = map (fun k => (k, f k)) ks.
Proof.
  intros Hnd.
  assert (Hk : keys (fold_left (fun acc k => setitem acc k (f k)) ks []) = ks).
  { rewrite keys_fold_setitem. now apply unique_NoDup. }
  rewrite (dict_by_keys _ f).
  - now rewrite Hk.
  - now rewrite Hk.
  - intros k Hin. rewrite Hk in Hin. rewrite get_fold_setitem.
    apply mem_In in Hin. now rewrite Hin.
Qed.

Lemma get_map_pairs {V : Type} (f : string -> V) (ks : list string) (k : string) :
  get (map (fun k => (k, f k)) ks) k = if mem k ks then Some (f k) else None.
Proof.
  induction ks as [| x ks IH]; [reflexivity |]. simpl.
  destruct (String.eqb k x) eqn:E; simpl; [| exact IH].
  apply String.eqb_eq in E. now subst.
Qed.

Lemma keys_map_pairs {V : Type} (f : string -> V) (ks : list string) :
  keys (map (fun k => (k, f k)) ks) = ks.
Proof. unfold keys. rewrite map_map. apply map_id. Qed.

Lemma keys_tally (cf : dict nat) (l : string) :
  keys (Census.tally cf l) = add (keys cf) l.
Proof. unfold Census.tally. destruct (get cf l); apply keys_setitem. Qed.

Lemma keys_tally_fold (ls : list string) (cf : dict nat) :
  keys (fold_left Census.tally ls cf) = fold_left add ls (keys cf).
Proof.
  revert cf. induction ls as [| l ls IH]; intros cf; simpl; [reflexivity |].
  now rewrite IH, keys_tally.
Qed.

Lemma get_tally (cf : dict nat) (l k : string) :
  get (Census.tally cf l) k
  = if String.eqb k l
    then Some (match get cf l with Some c => c + 1 | None => 1 end)
    else get cf k.
Proof. unfold Census.tally. destruct (get cf l); apply get_setitem. Qed.

(** The dictionary built by the loop of lines 112-117 holds, for each label
    met, the number of times it was met. *)
Lemma get_tally_fold (ls : list string) :
  forall (cf : dict nat) (k : string),
    get (fold_left Census.tally ls cf) k
    = match get cf k with
      | Some c => Some (c + count_occ string_dec ls k)
      | None => if mem k ls then Some (count_occ string_dec ls k) else None
      end.
Proof.
  induction ls as [| l ls IH]; intros cf k; simpl.
  - destruct (get cf k); [now rewrite Nat.add_0_r | reflexivity].
  - rewrite IH, get_tally. destruct (string_dec l k) as [-> | Hne].
    + rewrite String.eqb_refl. simpl. destruct (get cf k); f_equal; lia.
    + assert (E : String.eqb k l = false) by (apply String.eqb_neq; congruence).
      rewrite E. simpl. reflexivity.
Qed.

Lemma count_classes_fold (data : Census.DataFrame) (target : string) :
  mem target (Census.columns data) = true ->
  Census.count_classes data target
  = Ok (fold_left Census.tally (Census.labels data target) []).
Proof.
  intros Hcol. unfold Census.count_classes, Census.labels.
  rewrite (for_each_pure _ (fun cf row => Census.tally cf (row target))).
  - f_equal. generalize (@nil (string * nat)).
    induction (Census.rows data) as [| r rs IH]; intros cf; simpl; [reflexivity | apply IH].
  - intros cf row _. unfold Census.count_class, Census.cell. now rewrite Hcol.
Qed.

Lemma count_classes_missing_column (data : Census.DataFrame) (target : string) :
  mem target (Census.columns data) = false -> Census.rows data <> [] ->
  Census.count_classes data target = Raise KeyError.
Proof.
  intros Hcol Hrows. unfold Census.count_classes.
  destruct (Census.rows data) as [| r rs]; [congruence |].
  simpl. unfold Census.count_class, Census.cell. now rewrite Hcol.
Qed.

Lemma count_classes_spec (data : Census.DataFrame) (target : string) :
  mem target (Census.columns data) = true ->
  Census.count_classes data target = Ok (Census.counted_classes data target).
Proof.
  intros Hcol. rewrite count_classes_fold by assumption. f_equal.
  set (cf := fold_left Census.tally (Census.labels data target) []).
  assert (Hk : keys cf = unique (Census.labels data target)).
  { unfold cf. now rewrite keys_tally_fold. }
  unfold Census.counted_classes. rewrite <- Hk.
  apply dict_by_keys.
  - rewrite Hk. apply NoDup_unique.
  - intros k Hin. rewrite Hk, In_unique in Hin. unfold cf.
    rewrite get_tally_fold. simpl. apply mem_In in Hin. rewrite Hin.
    unfold Census.class_count, Census.labels. now rewrite count_occ_filter.
Qed.

End CensusTraining.

Section CensusTables.
Import Py.

Variable a : R.
Variable data : Census.DataFrame.
Variable target : string.

Lemma In_column_unique (f : string) (row : string -> string) :
  In row (Census.rows data) -> In (row f) (Census.column_unique data f).
Proof.
  intros H. unfold Census.column_unique. apply In_unique.
  now apply (in_map (fun r => r f)).
Qed.

(** The total the loop of lines 128-130 accumulates for a feature is the
    number of rows of the class: each row is counted under its own value. *)
Lemma total_count_class_count (k f : string) :
  Census.total_count data target k f = Census.class_count data target k.
Proof.
  unfold Census.total_count, Census.class_count, Census.matching.
  rewrite fold_left_add_sum. simpl.
  apply (count_partition (fun row => row f) (fun row => String.eqb (row target) k)).
  - apply NoDup_unique.
  - intros row. apply In_column_unique.
Qed.

Lemma store_values_spec (k f : string) (total V_j : nat) (vals : list string) :
  forall per_class,
    vals <> [] ->
    fold_left (Census.store_value a data target k f total V_j) vals per_class
    = setitem per_class f
        (fold_left
           (fun d v =>
              setitem d v
                (ln ((INR (Census.matching data target k f v) + a)
                     / (INR total + a * INR V_j))))
           vals
           (match get per_class f with Some d => d | None => [] end)).
Proof.
  destruct vals as [| v rest]; intros per_class Hne; [congruence |]. clear Hne.
  revert v per_class. induction rest as [| v' rest IH]; intros v per_class.
  - reflexivity.
  - transitivity
      (fold_left (Census.store_value a data target k f total V_j) (v' :: rest)
         (Census.store_value a data target k f total V_j per_class v));
      [reflexivity |].
    rewrite IH.
    assert (Hs : Census.store_value a data target k f total V_j per_class v
                 = setitem per_class f
                     (setitem (match get per_class f with Some d => d | None => [] end)
                        v (ln ((INR (Census.matching data target k f v) + a)
                               / (INR total + a * INR V_j)))))
      by reflexivity.
    rewrite Hs, get_setitem_same, setitem_twice. reflexivity.
Qed.

Lemma right_table_eq (k f : string) (T : dict R) :
  Census.right_table a data target k f T ->
  T = map (fun v => (v, Census.smoothed_conditional a data target k f v))
        (Census.column_unique data f).
Proof.
  intros [Hk Hget]. rewrite <- Hk. apply dict_by_keys.
  - rewrite Hk. apply NoDup_unique.
  - intros v Hin. rewrite Hget. rewrite Hk in Hin. apply mem_In in Hin.
    now rewrite Hin.
Qed.

Lemma store_feature_spec (k : string) (per_class : dict (dict R)) (feature : string) :
  (forall f T, get per_class f = Some T -> Census.right_table a data target k f T) ->
  (Census.store_feature a data target k per_class feature = per_class
   /\ (feature = target \/ Census.column_unique data feature = []))
  \/ (exists T,
        Census.store_feature a data target k per_class feature = setitem per_class feature T
        /\ Census.right_table a data target k feature T
        /\ feature <> target
        /\ Census.column_unique data feature <> []).
Proof.
  intros Hinv. unfold Census.store_feature.
  destruct (String.eqb feature target) eqn:E.
  - left. apply String.eqb_eq in E. auto.
  - apply String.eqb_neq in E.
    destruct (Census.column_unique data feature) as [| v vals] eqn:Hvals.
    + left. auto.
    + right. rewrite store_values_spec by discriminate.
      eexists. split; [reflexivity |]. split; [| split; [assumption | discriminate]].
      set (G := fun v0 => ln ((INR (Census.matching data target k feature v0) + a)
                             / (INR (Census.total_count data target k feature)
                                + a * INR (List.length (v :: vals))))).
      assert (HG : forall v0, G v0
                   = Census.smoothed_conditional a data target k feature v0).
      { intros v0. unfold G, Census.smoothed_conditional.
        now rewrite total_count_class_count, Hvals. }
      assert (Hnd : NoDup (v :: vals)).
      { rewrite <- Hvals. apply NoDup_unique. }
      split.
      * rewrite (keys_fold_setitem G), Hvals.
        destruct (get per_class feature) as [T |] eqn:HT.
        -- destruct (Hinv feature T HT) as [Hk _]. rewrite Hk, Hvals.
           now apply fold_add_present.
        -- exact (unique_NoDup _ Hnd).
      * intros v0. rewrite (get_fold_setitem G), Hvals, HG.
        destruct (mem v0 (v :: vals)) eqn:Hm; [reflexivity |].
        destruct (get per_class feature) as [T |] eqn:HT; [| reflexivity].
        destruct (Hinv feature T HT) as [_ Hget]. now rewrite Hget, Hvals, Hm.
Qed.

Lemma class_table_fold (k : string) (cols : list string) :
  forall acc,
    (forall f T, get acc f = Some T -> Census.right_table a data target k f T) ->
    (forall f T, get (fold_left (Census.store_feature a data target k) cols acc) f = Some T ->
                 Census.right_table a data target k f T)
    /\ (forall f, In f (keys (fold_left (Census.store_feature a data target k) cols acc))
                  <-> In f (keys acc)
                      \/ (In f cols /\ f <> target
                          /\ Census.column_unique data f <> [])).
Proof.
  induction cols as [| c cols IH]; intros acc Hinv.
  - simpl. split; [exact Hinv | intros f; tauto].
  - cbn [fold_left].
    destruct (store_feature_spec k acc c Hinv) as [[Heq Hskip] | [T [Heq [HT [Hc Hv]]]]].
    + rewrite Heq. destruct (IH acc Hinv) as [H1 H2]. split; [exact H1 |].
      intros f. rewrite H2. simpl. split.
      * intros [H | [H [Hf Hu]]]; auto.
      * intros [H | [[<- | H] [Hf Hu]]]; auto.
        destruct Hskip; contradiction.
    + rewrite Heq.
      assert (Hinv' : forall f T0, get (setitem acc c T) f = Some T0 ->
                                   Census.right_table a data target k f T0).
      { intros f T0. rewrite get_setitem.
        destruct (String.eqb f c) eqn:E.
        - apply String.eqb_eq in E. subst. intros H. injection H as <-. exact HT.
        - apply Hinv. }
      destruct (IH _ Hinv') as [H1 H2]. split; [exact H1 |].
      intros f. rewrite H2, In_keys_setitem. simpl. split.
      * intros [[H | ->] | [H [Hf Hu]]]; auto.
      * intros [H | [[<- | H] [Hf Hu]]]; auto.
Qed.

(** The table [train] stores for a class: a feature has an entry exactly
    when it is a column other than the target and the frame has a row, and
    the entry lists the column's distinct values, each with the smoothing
    formula. *)
Lemma class_table_spec (k f : string) :
  (forall T, get (Census.class_table a data target k) f = Some T ->
             T = map (fun v => (v, Census.smoothed_conditional a data target k f v))
                   (Census.column_unique data f)
                 /\ In f (Census.feature_columns data target)
                 /\ Census.column_unique data f <> [])
  /\ (In f (Census.feature_columns data target) -> Census.rows data <> [] ->
      exists T, get (Census.class_table a data target k) f = Some T).
Proof.
  unfold Census.class_table.
  destruct (class_table_fold k (Census.columns data) [])
    as [H1 H2]; [intros ? ? H; discriminate |].
  split.
  - intros T HT. split; [apply right_table_eq, H1, HT |].
    assert (Hin : In f (keys (fold_left (Census.store_feature a data target k) (Census.columns data) [])))
      by (apply get_In_keys; eauto).
    apply H2 in Hin. destruct Hin as [[] | [Hc [Hne Hu]]].
    split; [| assumption]. unfold Census.feature_columns. apply filter_In.
    split; [assumption |]. apply String.eqb_neq in Hne. now rewrite Hne.
  - intros Hf Hrows. apply get_In_keys, H2. right.
    unfold Census.feature_columns in Hf. apply filter_In in Hf.
    destruct Hf as [Hc Hne]. split; [assumption |]. split.
    + intros ->. rewrite String.eqb_refl in Hne. discriminate.
    + destruct (Census.rows data) as [| r rs] eqn:Hr; [congruence |].
      intros Hu. assert (Hin : In (r f) (Census.column_unique data f)).
      { apply In_column_unique. rewrite Hr. now left. }
      rewrite Hu in Hin. contradiction.
Qed.

End CensusTables.

Section CensusTrain.
Import Py.

Lemma count_classes_inv (data : Census.DataFrame) (target : string) (cf : dict nat) :
  Census.count_classes data target = Ok cf ->
  cf = Census.counted_classes data target.
Proof.
  intros H. destruct (mem target (Census.columns data)) eqn:Hcol.
  - rewrite count_classes_spec in H by assumption. congruence.
  - destruct (Census.rows data) as [| r rs] eqn:Hr.
    + unfold Census.count_classes in H. rewrite Hr in H. simpl in H.
      injection H as <-. unfold Census.counted_classes, Census.labels.
      now rewrite Hr.
    + rewrite count_classes_missing_column in H; [discriminate | assumption |].
      rewrite Hr. discriminate.
Qed.

Lemma fold_left_pairs {A V : Type} (c : string -> A) (F : A -> V)
  (ks : list string) (acc : dict V) :
  fold_left (fun d item => setitem d (fst item) (F (snd item)))
    (map (fun k => (k, c k)) ks) acc
  = fold_left (fun d k => setitem d k (F (c k))) ks acc.
Proof.
  revert acc. induction ks as [| k ks IH]; intros acc; [reflexivity | apply IH].
Qed.

Lemma prior_table_eq (a : R) (data : Census.DataFrame) (target : string) :
  Census.prior_table a (List.length (Census.rows data))
    (Census.counted_classes data target)
  = map (fun k => (k, Census.smoothed_prior a data target k))
      (unique (Census.labels data target)).
Proof.
  unfold Census.prior_table, Census.counted_classes. rewrite length_map.
  rewrite (fold_left_pairs (Census.class_count data target)
             (fun c => np_log
                         ((INR c + a)
                          / (INR (List.length (Census.rows data))
                             + a * INR (List.length
                                          (unique (Census.labels data target))))))).
  apply (fold_setitem_NoDup (fun k => Census.smoothed_prior a data target k)).
  apply NoDup_unique.
Qed.

Lemma conditional_table_eq (a : R) (data : Census.DataFrame) (target : string) :
  Census.conditional_table a data target (Census.counted_classes data target)
  = map (fun k => (k, Census.class_table a data target k))
      (unique (Census.labels data target)).
Proof.
  unfold Census.conditional_table, Census.counted_classes.
  rewrite keys_map_pairs.
  apply (fold_setitem_NoDup (fun k => Census.class_table a data target k)).
  apply NoDup_unique.
Qed.

Lemma train_inv (self self' : Census.NaiveBayesClassifier)
  (data : Census.DataFrame) (target : string) :
  Census.train self data target = Ok self' ->
  self' = Census.trained (Census.alpha self) data target.
Proof.
  unfold Census.train.
  destruct (Census.count_classes data target) as [cf |] eqn:Hcf; cbn [bind];
    [| discriminate].
  apply count_classes_inv in Hcf. subst cf.
  rewrite prior_table_eq, conditional_table_eq. intros H. now injection H as <-.
Qed.

Lemma train_ok (self : Census.NaiveBayesClassifier) (data : Census.DataFrame)
  (target : string) :
  mem target (Census.columns data) = true ->
  Census.train self data target = Ok (Census.trained (Census.alpha self) data target).
Proof.
  intros Hcol. unfold Census.train.
  rewrite count_classes_spec by assumption. cbn [bind].
  now rewrite prior_table_eq, conditional_table_eq.
Qed.

Lemma train_missing_target (self : Census.NaiveBayesClassifier)
  (data : Census.DataFrame) (target : string) :
  mem target (Census.columns data) = false -> Census.rows data <> [] ->
  Census.train self data target = Raise KeyError.
Proof.
  intros Hcol Hrows. unfold Census.train.
  now rewrite count_classes_missing_column.
Qed.

End CensusTrain.

(** ** The census notebook: [predict] *)

Section CensusPredict.
Import Py.

(** [predict] reads the instance through [.get] at the trained feature
    names only. *)
Lemma add_feature_agree (self : Census.NaiveBayesClassifier)
  (i1 i2 : dict string) (k : string) (x : R) (f : string) :
  get i1 f = get i2 f ->
  Census.add_feature self i1 k x f = Census.add_feature self i2 k x f.
Proof. intros H. unfold Census.add_feature. now rewrite H. Qed.

Lemma class_probabilities_agree (self : Census.NaiveBayesClassifier)
  (i1 i2 : dict string) :
  (forall fs f, Census.features self = Some fs -> In f fs -> get i1 f = get i2 f) ->
  Census.class_probabilities self i1 = Census.class_probabilities self i2.
Proof.
  intros Hagree. unfold Census.class_probabilities.
  destruct (Census.log_priors self) as [priors |]; [| reflexivity].
  apply for_each_ext. intros acc k _.
  destruct (getitem priors k) as [x |]; cbn [bind]; [| reflexivity].
  destruct (Census.features self) as [fs |] eqn:Hfs; cbn [Census.attribute bind];
    [| reflexivity].
  rewrite (for_each_ext (Census.add_feature self i1 k) (Census.add_feature self i2 k));
    [reflexivity |].
  intros y f Hf. apply add_feature_agree. now apply (Hagree fs).
Qed.

(** The scores come out in the order of the keys looped over. *)
Lemma keys_scored (score_of : string -> result R) (ks : list string) :
  forall acc probs,
    for_each (fun d k => v <- score_of k ;; Ok (setitem d k v)) ks acc = Ok probs ->
    keys probs = fold_left add ks (keys acc).
Proof.
  induction ks as [| k ks IH]; intros acc probs; simpl.
  - intros H. now injection H as <-.
  - destruct (score_of k) as [v |]; cbn [bind]; [| discriminate].
    intros H. rewrite (IH _ _ H). now rewrite keys_setitem.
Qed.

Lemma class_probabilities_keys (self : Census.NaiveBayesClassifier)
  (inst : dict string) (priors probs : dict R) :
  Census.log_priors self = Some priors ->
  Census.class_probabilities self inst = Ok probs ->
  keys probs = unique (keys priors).
Proof.
  intros Hp. unfold Census.class_probabilities. rewrite Hp. intros H.
  apply (keys_scored
           (fun k =>
              log_prob <- getitem priors k ;;
              fs <- Census.attribute (Census.features self) ;;
              for_each (Census.add_feature self inst k) fs log_prob)
           (keys priors) [] probs).
  rewrite <- H. apply for_each_ext. intros acc k _.
  destruct (getitem priors k); cbn [bind]; [| reflexivity].
  destruct (Census.attribute (Census.features self)); cbn [bind]; [| reflexivity].
  destruct (for_each _ _ _); reflexivity.
Qed.

End CensusPredict.

(** ** Sums of smoothed ratios *)

Section SmoothedSums.
Import Py.

Lemma sum_ratios (c : string -> nat) (a D : R) (vals : list string) :
  sum (map (fun v => (INR (c v) + a) / D)%R vals)
  = ((INR (list_sum (map c vals)) + a * INR (List.length vals)) / D)%R.
Proof.
  induction vals as [| v vals IH].
  - simpl. unfold Rdiv. ring.
  - cbn [map List.length list_sum fold_right]. rewrite sum_cons, IH.
    fold (list_sum (map c vals)). rewrite plus_INR, S_INR. unfold Rdiv. ring.
Qed.

Lemma sum_exp_ln (F : string -> R) (vals : list string) :
  (forall v, In v vals -> (0 < F v)%R) ->
  sum (map (fun v => exp (ln (F v))) vals) = sum (map F vals).
Proof.
  induction vals as [| v vals IH]; intros Hpos; [reflexivity |].
  cbn [map]. rewrite !sum_cons, IH by (intros u Hu; apply Hpos; now right).
  rewrite exp_ln by (apply Hpos; now left). reflexivity.
Qed.

Lemma values_map_pairs {V : Type} (f : string -> V) (ks : list string) :
  values (map (fun k => (k, f k)) ks) = map f ks.
Proof. unfold values. rewrite map_map. reflexivity. Qed.

(** A table of smoothed log-ratios over distinct values whose counts add up
    to the denominator's count is a probability distribution. *)
Lemma smoothed_table_sums_to_one (c : string -> nat) (a : R) (N : nat)
  (vals : list string) :
  (0 < a)%R -> vals <> [] -> list_sum (map c vals) = N ->
  sum (map exp
         (values (map (fun v => (v, ln ((INR (c v) + a)
                                       / (INR N + a * INR (List.length vals)))%R))
                    vals)))
  = 1%R.
Proof.
  intros Ha Hne Hsum.
  assert (HD : (0 < INR N + a * INR (List.length vals))%R).
  { destruct vals as [| v vals]; [congruence |].
    cbn [List.length]. rewrite S_INR.
    pose proof (pos_INR N). pose proof (pos_INR (List.length vals)). nra. }
  rewrite (values_map_pairs
             (fun v => ln ((INR (c v) + a) / (INR N + a * INR (List.length vals)))%R)).
  rewrite map_map.
  rewrite (sum_exp_ln
             (fun v => ((INR (c v) + a) / (INR N + a * INR (List.length vals)))%R)).
  - rewrite sum_ratios, Hsum. field. lra.
  - intros v _. apply Rdiv_lt_0_compat; [| assumption].
    pose proof (pos_INR (c v)). lra.
Qed.

End SmoothedSums.

Lemma ln_negative (x : R) : (0 < x < 1)%R -> (ln x < 0)%R.
Proof. intros [H0 H1]. rewrite <- ln_1. now apply ln_increasing. Qed.

Lemma ln_add2_lt (a b c d : R) :
  (0 < a)%R -> (0 < b)%R -> (0 < c)%R -> (0 < d)%R -> (a * b < c * d)%R ->
  (ln a + ln b < ln c + ln d)%R.
Proof.
  intros Ha Hb Hc Hd H. rewrite <- !ln_mult by assumption.
  apply ln_increasing; [now apply Rmult_lt_0_compat | assumption].
Qed.

Lemma ln_add3_lt (p a b q c d : R) :
  (0 < p)%R -> (0 < a)%R -> (0 < b)%R -> (0 < q)%R -> (0 < c)%R -> (0 < d)%R ->
  (p * a * b < q * c * d)%R ->
  (ln p + ln a + ln b < ln q + ln c + ln d)%R.
Proof.
  intros Hp Ha Hb Hq Hc Hd H.
  rewrite <- !ln_mult by (try assumption; now apply Rmult_lt_0_compat).
  apply ln_increasing; [| assumption].
  repeat apply Rmult_lt_0_compat; assumption.
Qed.

(** ** The claims *)

(** C1 (the code departs from the claim).  On the scenario of the
    specification, with ["spam"] iterated last, the branch of [classify] for
    a word outside the vocabulary adds the ratio (1 + 1) / (4 + 1 * 5) = 2/9
    itself to the score of both classes: no logarithm is taken, the
    numerator is 1 + alpha and the token total is the one of the class named
    by the left-over [key].  The claim asks for log((0 + 1) / (N_k + 1 * 5)),
    which is log(1/7) for ham and log(1/9) for spam. *)
Theorem unseen_word_adds_unlogged_ratio :
  exists g,
    Spam.run Spam.HamFirst toy_corpus = Py.Ok g
    /\ Spam.vocabulary g = ["win"; "money"; "hello"; "friend"; "prize"]
    /\ Spam.words_in_ham g = 2 /\ Spam.words_in_spam g = 4
    /\ Spam.unseen_word_prob g = Py.Ok (2 / 9)%R
    /\ Spam.class_probabilities g (Spam.clean_message "zzz")
       = Py.Ok [("ham", ln (3 / 6) + 2 / 9); ("spam", ln (3 / 6) + 2 / 9)]%R
    /\ (2 / 9 <> ln ((0 + 1) / (2 + 1 * 5)))%R
    /\ (2 / 9 <> ln ((0 + 1) / (4 + 1 * 5)))%R.
Proof.
  eexists. split; [evaluate; reflexivity |].
  split; [reflexivity |]. split; [reflexivity |]. split; [reflexivity |].
  split; [evaluate; reflexivity |].
  split; [evaluate; reflexivity |].
  assert (H7 : (ln ((0 + 1) / (2 + 1 * 5)) < 0)%R) by (apply ln_negative; lra).
  assert (H9 : (ln ((0 + 1) / (4 + 1 * 5)) < 0)%R) by (apply ln_negative; lra).
  split; lra.
Qed.

(** C3 (the code departs from the claim).  The spam script computes its
    priors from [shuffled_data], the whole frame, not from the training
    rows: with four training rows (two ham, two spam) and one held-out ham
    row, the stored priors are log((3+1)/(5+2)) and log((2+1)/(5+2)), where
    the claim's formula over the training instances gives
    log((2+1)/(4+1*2)) for both classes. *)
Theorem spam_priors_count_held_out_rows :
  exists g,
    Spam.run Spam.HamFirst held_out_corpus = Py.Ok g
    /\ map Spam.Label (Spam.training_data held_out_corpus)
       = ["ham"; "spam"; "ham"; "spam"]
    /\ map Spam.Label (Spam.testing_data held_out_corpus) = ["ham"]
    /\ Spam.log_priors g = [("ham", ln (4 / 7)); ("spam", ln (3 / 7))]%R
    /\ (ln (4 / 7) <> ln ((2 + 1) / (4 + 1 * 2)))%R
    /\ (ln (3 / 7) <> ln ((2 + 1) / (4 + 1 * 2)))%R.
Proof.
  eexists. split; [evaluate; reflexivity |].
  split; [reflexivity |]. split; [reflexivity |].
  split; [reflexivity |].
  split; intros H; apply ln_inv in H; lra.
Qed.

(** C4 (the code departs from the claim).  A value of a trained feature
    that no training row holds makes [predict] raise [KeyError]: the table
    of the feature has no entry for it and nothing stands in. *)
Theorem predict_raises_on_unseen_value :
  exists self,
    Census.train (Census.init 1) census_frame "sex" = Py.Ok self
    /\ Census.features self = Some ["education"]
    /\ Py.mem "PhD" (Census.column_unique census_frame "education") = false
    /\ Census.predict self [("education", "PhD")] = Py.Raise Py.KeyError
    /\ Census.predict self [("education", "HS")] = Py.Ok "Male".
Proof.
  eexists. split; [evaluate; reflexivity |].
  split; [reflexivity |]. split; [reflexivity |].
  split; [evaluate; reflexivity |].
  evaluate. destruct (Rlt_dec _ _) as [H | H]; [exfalso | reflexivity].
  assert (H' : (ln ((1 + 1) / (3 + 1 * 2)) + ln ((0 + 1) / (1 + 1 * 2))
                < ln ((2 + 1) / (3 + 1 * 2)) + ln ((2 + 1) / (2 + 1 * 2)))%R)
    by (apply ln_add2_lt; lra).
  lra.
Qed.

(** C5, as the claim states it, fails: an instance that carries a field
    under a name the model was not trained on is classified like any other;
    nothing is raised. *)
Lemma predict_accepts_unknown_field :
  exists self,
    Census.train (Census.init 1) census_frame "sex" = Py.Ok self
    /\ Census.features self = Some ["education"]
    /\ Census.predict self [("education", "HS"); ("shoe_size", "44")]
       = Py.Ok "Male".
Proof.
  eexists. split; [evaluate; reflexivity |]. split; [reflexivity |].
  evaluate. destruct (Rlt_dec _ _) as [H | H]; [exfalso | reflexivity].
  assert (H' : (ln ((1 + 1) / (3 + 1 * 2)) + ln ((0 + 1) / (1 + 1 * 2))
                < ln ((2 + 1) / (3 + 1 * 2)) + ln ((2 + 1) / (2 + 1 * 2)))%R)
    by (apply ln_add2_lt; lra).
  lra.
Qed.

(** C5, amended.  [predict] reads an instance at the trained feature names
    only: two instances that agree on every trained feature get the same
    outcome, label or exception, so a field under any other name is ignored
    and no schema check takes place. *)
Theorem predict_reads_only_trained_features
  (self : Census.NaiveBayesClassifier) (i1 i2 : Py.dict string) :
  (forall fs f, Census.features self = Some fs -> In f fs ->
                Py.get i1 f = Py.get i2 f) ->
  Census.predict self i1 = Census.predict self i2.
Proof.
  intros Hagree. unfold Census.predict.
  now rewrite (class_probabilities_agree self i1 i2 Hagree).
Qed.

Lemma predict_reads_only_trained_features_witness :
  Census.predict (Census.trained 1 census_frame "sex")
    [("education", "HS"); ("shoe_size", "44")]
  = Census.predict (Census.trained 1 census_frame "sex") [("education", "HS")].
Proof.
  apply predict_reads_only_trained_features.
  intros fs f Hfs Hf. simpl in Hfs. injection Hfs as <-.
  destruct Hf as [<- | []]. reflexivity.
Defined.

(** C6, as the claim states it, fails: two classes tie on the instance,
    ["Female"] sorts before ["Male"], and [predict] returns ["Male"], the
    label of the first training row; with the two training rows swapped it
    returns ["Female"]. *)
Lemma tie_goes_to_first_seen_label :
  exists self self' s,
    Census.train (Census.init 1) tie_frame "sex" = Py.Ok self
    /\ Census.train (Census.init 1) tie_frame_swapped "sex" = Py.Ok self'
    /\ Permutation (Census.rows tie_frame) (Census.rows tie_frame_swapped)
    /\ Census.class_probabilities self [("education", "HS")]
       = Py.Ok [("Male", s); ("Female", s)]
    /\ Census.class_probabilities self' [("education", "HS")]
       = Py.Ok [("Female", s); ("Male", s)]
    /\ String.ltb "Female" "Male" = true
    /\ Census.predict self [("education", "HS")] = Py.Ok "Male"
    /\ Census.predict self' [("education", "HS")] = Py.Ok "Female".
Proof.
  eexists. eexists. eexists.
  split; [evaluate; reflexivity |]. split; [evaluate; reflexivity |].
  split; [apply perm_swap |].
  split; [evaluate; reflexivity |]. split; [evaluate; reflexivity |].
  split; [reflexivity |].
  split; evaluate; destruct (Rlt_dec _ _) as [H | H]; try reflexivity; lra.
Qed.

(** C6, amended.  [predict] returns the first label, in the order of the
    scores' dictionary, whose score is maximal: every label before it scores
    strictly less and every label after it scores at most as much.  For the
    census classifier that order is the order of first appearance of the
    labels in the training rows; for the spam script it is ham, spam. *)
Theorem predict_returns_first_maximal_label :
  (forall a data target self inst probs,
      Census.train (Census.init a) data target = Py.Ok self ->
      Census.class_probabilities self inst = Py.Ok probs ->
      probs <> [] ->
      Py.keys probs = Py.unique (Census.labels data target)
      /\ exists label before w after,
           Census.predict self inst = Py.Ok label
           /\ probs = (before ++ (label, w) :: after)%list
           /\ (forall p, In p before -> (snd p < w)%R)
           /\ (forall p, In p after -> (snd p <= w)%R))
  /\ (forall o shuffled_data g message probs,
         Spam.run o shuffled_data = Py.Ok g ->
         Spam.class_probabilities g (Spam.clean_message message) = Py.Ok probs ->
         Py.keys probs = ["ham"; "spam"]
         /\ exists label before w after,
              Spam.classify g message = Py.Ok label
              /\ probs = (before ++ (label, w) :: after)%list
              /\ (forall p, In p before -> (snd p < w)%R)
              /\ (forall p, In p after -> (snd p <= w)%R)).
Proof.
  split.
  - intros a data target self inst probs Htrain Hprobs Hne.
    apply train_inv in Htrain. cbn [Census.init Census.alpha] in Htrain. subst self.
    split.
    + rewrite (class_probabilities_keys (Census.trained a data target) inst
                 _ probs eq_refl Hprobs).
      rewrite keys_map_pairs. apply unique_NoDup, NoDup_unique.
    + destruct (max_by_value_nonempty probs Hne) as [label Hmax].
      destruct (max_by_value_first_maximum probs label Hmax)
        as [before [w [after H]]].
      exists label, before, w, after. split; [| exact H].
      unfold Census.predict. rewrite Hprobs. exact Hmax.
  - intros o sd g message probs Hrun Hprobs.
    destruct (run_fit o sd g Hrun) as [ph [ps [_ Hfit]]].
    assert (Hkeys : Py.keys probs = ["ham"; "spam"]).
    { unfold Spam.class_probabilities in Hprobs.
      rewrite (fitted_priors o ph ps _ g Hfit) in Hprobs.
      apply (keys_scored
               (fun k =>
                  prior <- Py.getitem [("ham", ph); ("spam", ps)] k ;;
                  Py.for_each (Spam.add_word g k) (Spam.clean_message message) prior)
               ["ham"; "spam"] [] probs).
      rewrite <- Hprobs. apply for_each_ext. intros acc k _.
      destruct (Py.getitem _ k); cbn [Py.bind]; [| reflexivity].
      destruct (Py.for_each _ _ _); reflexivity. }
    split; [exact Hkeys |].
    assert (Hne : probs <> []) by (intros ->; discriminate).
    destruct (max_by_value_nonempty probs Hne) as [label Hmax].
    destruct (max_by_value_first_maximum probs label Hmax)
      as [before [w [after H]]].
    exists label, before, w, after. split; [| exact H].
    unfold Spam.classify. rewrite Hprobs. exact Hmax.
Qed.

Section PriorSums.
Import Py.

Lemma filter_all {A : Type} (l : list A) : filter (fun _ => true) l = l.
Proof. induction l as [| x l IH]; simpl; [reflexivity | now rewrite IH]. Qed.

(** The class counts add up to the number of rows. *)
Lemma class_counts_total (data : Census.DataFrame) (target : string) :
  list_sum (map (Census.class_count data target)
              (unique (Census.labels data target)))
  = List.length (Census.rows data).
Proof.
  assert (Hcover : forall row, In row (Census.rows data) ->
                     In (row target) (unique (Census.labels data target))).
  { intros row Hrow. apply In_unique. unfold Census.labels.
    now apply (in_map (fun r => r target)). }
  pose proof (count_partition (fun row => row target) (fun _ => true)
                (unique (Census.labels data target)) (Census.rows data)
                (NoDup_unique _) Hcover) as H.
  rewrite filter_all in H. exact H.
Qed.

Lemma classes_nonempty (data : Census.DataFrame) (target : string) :
  Census.rows data <> [] -> unique (Census.labels data target) <> [].
Proof.
  intros Hrows Hu. destruct (Census.rows data) as [| r rs] eqn:Hr; [congruence |].
  assert (Hin : In (r target) (unique (Census.labels data target))).
  { apply In_unique. unfold Census.labels. rewrite Hr. now left. }
  rewrite Hu in Hin. contradiction.
Qed.

Lemma two_label_unique (L : list string) :
  (forall l, In l L -> l = "ham" \/ l = "spam") ->
  In "ham" L -> In "spam" L ->
  unique L = ["ham"; "spam"] \/ unique L = ["spam"; "ham"].
Proof.
  intros Hall Hham Hspam.
  pose proof (NoDup_unique L) as Hnd.
  assert (Hin : forall x, In x (unique L) -> x = "ham" \/ x = "spam")
    by (intros x Hx; apply Hall, In_unique, Hx).
  apply In_unique in Hham. apply In_unique in Hspam.
  destruct (unique L) as [| x [| y [| z U]]].
  - contradiction.
  - destruct Hham as [-> | []]. destruct Hspam as [H | []]. discriminate.
  - inversion Hnd as [| ? ? Hx _]; subst.
    assert (Hxy : x <> y) by (intros ->; apply Hx; now left).
    destruct (Hin x (or_introl eq_refl)) as [-> | ->];
      destruct (Hin y (or_intror (or_introl eq_refl))) as [-> | ->];
      try congruence; auto.
  - exfalso. inversion Hnd as [| ? ? Hx Hnd1]; subst.
    inversion Hnd1 as [| ? ? Hy _]; subst.
    assert (Hxy : x <> y) by (intros ->; apply Hx; now left).
    assert (Hxz : x <> z) by (intros ->; apply Hx; right; now left).
    assert (Hyz : y <> z) by (intros ->; apply Hy; now left).
    destruct (Hin x (or_introl eq_refl)) as [-> | ->];
      destruct (Hin y (or_intror (or_introl eq_refl))) as [-> | ->];
      destruct (Hin z (or_intror (or_intror (or_introl eq_refl)))) as [-> | ->];
      congruence.
Qed.

Lemma two_label_counts (L : list string) :
  (forall l, In l L -> l = "ham" \/ l = "spam") ->
  count_occ string_dec L "ham" + count_occ string_dec L "spam" = List.length L.
Proof.
  induction L as [| l L IH]; intros Hall; [reflexivity |].
  assert (IH' := IH (fun x Hx => Hall x (or_intror Hx))).
  destruct (Hall l (or_introl eq_refl)) as [-> | ->]; simpl in *; lia.
Qed.

(** With the two labels ham and spam both present, the first two entries of
    [value_counts] are the two class counts, in some order. *)
Lemma compute_log_priors_two_labels (sd : list Spam.row) :
  (forall r, In r sd -> Spam.Label r = "ham" \/ Spam.Label r = "spam") ->
  (exists r, In r sd /\ Spam.Label r = "ham") ->
  (exists r, In r sd /\ Spam.Label r = "spam") ->
  exists N_ham N_spam,
    Spam.compute_log_priors sd
    = Ok [("ham", ln (INR (N_ham + 1) / INR (List.length sd + 2)));
          ("spam", ln (INR (N_spam + 1) / INR (List.length sd + 2)))]
    /\ N_ham + N_spam = List.length sd.
Proof.
  intros Hall [rh [Hrh Hh]] [rs [Hrs Hs]].
  set (L := map Spam.Label sd).
  assert (HallL : forall l, In l L -> l = "ham" \/ l = "spam").
  { intros l Hl. apply in_map_iff in Hl. destruct Hl as [r [<- Hr]]. now apply Hall. }
  assert (HhL : In "ham" L) by (rewrite <- Hh; now apply in_map).
  assert (HsL : In "spam" L) by (rewrite <- Hs; now apply in_map).
  pose proof (two_label_counts L HallL) as Hsum.
  assert (Hlen : List.length L = List.length sd) by apply length_map.
  unfold Spam.compute_log_priors, Spam.value_counts. fold L.
  destruct (two_label_unique L HallL HhL HsL) as [-> | ->]; cbn [map fold_left Spam.place snd];
    destruct (Nat.ltb _ _);
    cbn [Spam.positional nth_error bind Spam.number_of_classes np_log];
    eexists; eexists; (split; [reflexivity | lia]).
Qed.

End PriorSums.

(** C7.  For a positive smoothing parameter the stored priors are a
    probability distribution over the classes of the data.  The census
    classifier: on every frame with at least one row (and the target among
    its columns, so that [train] returns) the table of log-priors has the
    labels of the target column as its keys, in order of first appearance,
    and the exponentials of the priors stored under those labels add up
    to 1.  The spam script: whenever the label column holds the two labels
    ham and spam, both present, the keys of its table are the labels of the
    frame and the same holds of its two priors. *)
Theorem smoothed_priors_sum_to_one :
  (forall a data target,
      (0 < a)%R -> Census.rows data <> [] ->
      Py.mem target (Census.columns data) = true ->
      exists self priors,
        Census.train (Census.init a) data target = Py.Ok self
        /\ Census.log_priors self = Some priors
        /\ Py.keys priors = Py.unique (Census.labels data target)
        /\ prior_mass priors (Py.unique (Census.labels data target)) = 1%R
        /\ Py.sum (map exp (Py.values priors)) = 1%R)
  /\ (forall shuffled_data,
         (forall r, In r shuffled_data ->
                    Spam.Label r = "ham" \/ Spam.Label r = "spam") ->
         (exists r, In r shuffled_data /\ Spam.Label r = "ham") ->
         (exists r, In r shuffled_data /\ Spam.Label r = "spam") ->
         exists priors,
           Spam.compute_log_priors shuffled_data = Py.Ok priors
           /\ Py.keys priors = ["ham"; "spam"]
           /\ (forall k, In k (Py.keys priors)
                         <-> In k (map Spam.Label shuffled_data))
           /\ prior_mass priors (Py.unique (map Spam.Label shuffled_data)) = 1%R
           /\ Py.sum (map exp (Py.values priors)) = 1%R).
Proof.
  split.
  - intros a data target Ha Hrows Hcol.
    exists (Census.trained a data target). eexists.
    split; [now apply (train_ok (Census.init a)) |].
    split; [reflexivity |].
    assert (Hsum : Py.sum
                     (map exp
                        (Py.values
                           (map (fun k => (k, Census.smoothed_prior a data target k))
                              (Py.unique (Census.labels data target))))) = 1%R).
    { apply (smoothed_table_sums_to_one (Census.class_count data target) a
               (List.length (Census.rows data))).
      + assumption.
      + now apply classes_nonempty.
      + apply class_counts_total. }
    split; [apply (keys_map_pairs (fun k => Census.smoothed_prior a data target k)) |].
    split; [| exact Hsum].
    rewrite <- Hsum. unfold prior_mass, Py.values. rewrite !map_map. f_equal.
    apply map_ext_in. intros k Hk.
    rewrite (get_map_pairs (fun k => Census.smoothed_prior a data target k)).
    apply mem_In in Hk. now rewrite Hk.
  - intros sd Hall Hham Hspam.
    destruct (compute_log_priors_two_labels sd Hall Hham Hspam)
      as [Nh [Ns [Hrun Hsum]]].
    eexists. split; [exact Hrun |].
    assert (Hd : (0 < INR (List.length sd + 2))%R) by (apply lt_0_INR; lia).
    assert (Hone : (exp (ln (INR (Nh + 1) / INR (List.length sd + 2)))
                    + exp (ln (INR (Ns + 1) / INR (List.length sd + 2))) = 1)%R).
    { rewrite !exp_ln.
      + rewrite <- Hsum, !plus_INR in *. simpl INR in *. field. lra.
      + apply Rdiv_lt_0_compat; [apply lt_0_INR; lia | assumption].
      + apply Rdiv_lt_0_compat; [apply lt_0_INR; lia | assumption]. }
    split; [reflexivity |]. split; [| split].
    + intros k. cbn [Py.keys map fst]. split.
      * destruct Hham as [rh [Hrh Hh]]. destruct Hspam as [rs [Hrs Hs]].
        intros [<- | [<- | []]];
          [rewrite <- Hh | rewrite <- Hs]; now apply in_map.
      * intros Hk. apply in_map_iff in Hk. destruct Hk as [r [<- Hr]].
        destruct (Hall r Hr) as [-> | ->]; simpl; auto.
    + assert (HallL : forall l, In l (map Spam.Label sd) -> l = "ham" \/ l = "spam").
      { intros l Hl. apply in_map_iff in Hl. destruct Hl as [r [<- Hr]].
        now apply Hall. }
      assert (HhL : In "ham" (map Spam.Label sd)).
      { destruct Hham as [rh [Hrh Hh]]. rewrite <- Hh. now apply in_map. }
      assert (HsL : In "spam" (map Spam.Label sd)).
      { destruct Hspam as [rs [Hrs Hs]]. rewrite <- Hs. now apply in_map. }
      unfold prior_mass.
      destruct (two_label_unique (map Spam.Label sd) HallL HhL HsL) as [-> | ->];
        cbn [map Py.get String.eqb Ascii.eqb Bool.eqb Py.sum fold_right]; lra.
    + cbn [Py.values map snd Py.sum fold_right]. lra.
Qed.

Section ConditionalSums.
Import Py.

Lemma matching_total (data : Census.DataFrame) (target k f : string) :
  list_sum (map (Census.matching data target k f) (Census.column_unique data f))
  = Census.class_count data target k.
Proof.
  rewrite <- (total_count_class_count data target k f).
  unfold Census.total_count. now rewrite fold_left_add_sum.
Qed.

(** Every token of a class is counted under exactly one vocabulary word. *)
Lemma joint_counts_total (k : string) (data : Spam.cleaned) :
  list_sum (map (Spam.joint_count k data) (Spam.build_vocabulary data))
  = Spam.class_total k data.
Proof.
  pose proof (count_partition (fun w => w) (fun _ => true)
                (Spam.build_vocabulary data) (Spam.words_of k data)
                (NoDup_build_vocabulary data)
                (words_of_in_vocabulary k data)) as H.
  rewrite filter_all in H. unfold Spam.class_total. rewrite <- H.
  apply f_equal, map_ext. intros v. unfold Spam.joint_count.
  transitivity (count_occ string_dec (map (fun w => w) (Spam.words_of k data)) v).
  - now rewrite map_id.
  - exact (count_occ_filter (fun w => w) (Spam.words_of k data) v).
Qed.

Lemma fitted_table_eq (o : Spam.set_order) (ph ps : R) (data : Spam.cleaned)
  (g : Spam.globals) (k : string) (t : dict R) :
  Spam.fit o [("ham", ph); ("spam", ps)] data = Ok g ->
  get (Spam.word_log_prob g) k = Some t ->
  (k = "ham" \/ k = "spam")
  /\ t = map (fun w => (w, Spam.smoothed_log_prob data k w))
           (Spam.build_vocabulary data).
Proof.
  intros Hfit Ht.
  assert (Hk : k = "ham" \/ k = "spam").
  { assert (Hin : In k (keys (Spam.word_log_prob g))) by (apply get_In_keys; eauto).
    destruct (fit_spec o [("ham", ph); ("spam", ps)] data) as [g' [Hg' H]].
    rewrite Hfit in Hg'. injection Hg' as <-.
    destruct H as [_ [_ [_ [_ [_ [Hkeys _]]]]]]. rewrite Hkeys in Hin.
    destruct o; simpl in Hin; intuition. }
  split; [exact Hk |].
  destruct (fitted_table o ph ps data g Hfit k Hk) as [t' [Ht' [Hkeys Hget]]].
  rewrite Ht in Ht'. injection Ht' as <-.
  rewrite (fitted_vocabulary o ph ps data g Hfit) in Hkeys, Hget.
  rewrite <- Hkeys. apply dict_by_keys.
  - rewrite Hkeys. apply NoDup_build_vocabulary.
  - intros w Hw. rewrite Hget. rewrite Hkeys in Hw. apply mem_In in Hw.
    now rewrite Hw.
Qed.

End ConditionalSums.

(** C8, as the claim states it, fails: when no training message holds a
    letter the vocabulary is empty, the table of each class is empty, and
    the sum over the vocabulary is 0. *)
Lemma empty_vocabulary_sums_to_zero :
  exists g t,
    Spam.run Spam.HamFirst digits_corpus = Py.Ok g
    /\ Spam.vocabulary g = []
    /\ Py.get (Spam.word_log_prob g) "spam" = Some t
    /\ Py.sum (map exp (Py.values t)) = 0%R
    /\ Py.sum (map exp (Py.values t)) <> 1%R.
Proof.
  eexists. eexists. split; [evaluate; reflexivity |].
  split; [reflexivity |]. split; [reflexivity |].
  split; [reflexivity |]. simpl. lra.
Qed.

(** C8, amended.  For a positive smoothing parameter, every table the
    census classifier stores for a class and a feature is a probability
    distribution over the feature's distinct values.  Every table the spam
    script stores for a class is a probability distribution over the
    vocabulary, provided the vocabulary is not empty. *)
Theorem smoothed_conditionals_sum_to_one :
  (forall a data target self probs k per_class f T,
      (0 < a)%R ->
      Census.train (Census.init a) data target = Py.Ok self ->
      Census.class_conditional_probs self = Some probs ->
      Py.get probs k = Some per_class ->
      Py.get per_class f = Some T ->
      Py.keys T = Census.column_unique data f
      /\ Py.sum (map exp (Py.values T)) = 1%R)
  /\ (forall o shuffled_data g k t,
         Spam.run o shuffled_data = Py.Ok g ->
         Spam.vocabulary g <> [] ->
         Py.get (Spam.word_log_prob g) k = Some t ->
         Py.keys t = Spam.vocabulary g
         /\ Py.sum (map exp (Py.values t)) = 1%R).
Proof.
  split.
  - intros a data target self probs k per_class f T Ha Htrain Hprobs Hk Hf.
    apply train_inv in Htrain. cbn [Census.init Census.alpha] in Htrain. subst self.
    cbn [Census.trained Census.class_conditional_probs] in Hprobs.
    injection Hprobs as <-.
    rewrite (get_map_pairs (fun k => Census.class_table a data target k)) in Hk.
    destruct (Py.mem k _); [| discriminate]. injection Hk as <-.
    destruct (class_table_spec a data target k f) as [Hspec _].
    destruct (Hspec T Hf) as [-> [_ Hne]].
    split; [apply keys_map_pairs |].
    apply (smoothed_table_sums_to_one (Census.matching data target k f) a
             (Census.class_count data target k)); [assumption | assumption |].
    apply matching_total.
  - intros o sd g k t Hrun Hv Ht.
    destruct (run_fit o sd g Hrun) as [ph [ps [_ Hfit]]].
    set (data := Spam.clean_training_data (Spam.training_data sd)) in *.
    destruct (fitted_table_eq o ph ps data g k t Hfit Ht) as [Hk ->].
    rewrite (fitted_vocabulary o ph ps data g Hfit) in *.
    split; [apply keys_map_pairs |].
    rewrite (map_ext
               (fun w => (w, Spam.smoothed_log_prob data k w))
               (fun w => (w, ln ((INR (Spam.joint_count k data w) + 1)
                                 / (INR (Spam.class_total k data)
                                    + 1 * INR (List.length
                                                 (Spam.build_vocabulary data))))%R))).
    + apply (smoothed_table_sums_to_one (Spam.joint_count k data) 1
               (Spam.class_total k data)); [lra | assumption |].
      apply joint_counts_total.
    + intros w. unfold Spam.smoothed_log_prob, Spam.alpha.
      rewrite !plus_INR, mult_INR. simpl INR. reflexivity.
Qed.




Section Reordering.
Import Py.

Lemma perm_filter {A : Type} (p : A -> bool) (l1 l2 : list A) :
  Permutation l1 l2 -> Permutation (filter p l1) (filter p l2).
Proof.
  induction 1 as [| x l1 l2 _ IH | x y l | l1 l2 l3 _ IH1 _ IH2]; simpl.
  - constructor.
  - destruct (p x); [now constructor | assumption].
  - destruct (p x), (p y); try apply Permutation_refl; apply perm_swap.
  - now transitivity (filter p l2).
Qed.

Lemma perm_concat {A : Type} (l1 l2 : list (list A)) :
  Permutation l1 l2 -> Permutation (List.concat l1) (List.concat l2).
Proof.
  induction 1 as [| x l1 l2 _ IH | x y l | l1 l2 l3 _ IH1 _ IH2]; simpl.
  - constructor.
  - now apply Permutation_app_head.
  - rewrite !app_assoc. apply Permutation_app_tail, Permutation_app_comm.
  - now transitivity (List.concat l2).
Qed.

Lemma perm_unique (l1 l2 : list string) :
  Permutation l1 l2 -> Permutation (unique l1) (unique l2).
Proof.
  intros H. apply NoDup_Permutation; try apply NoDup_unique.
  intros x. rewrite !In_unique. split; apply Permutation_in;
    [assumption | now apply Permutation_sym].
Qed.

Lemma perm_mem (l1 l2 : list string) (x : string) :
  Permutation l1 l2 -> mem x l1 = mem x l2.
Proof.
  intros H. destruct (mem x l2) eqn:E.
  - apply mem_In. apply mem_In in E. eapply Permutation_in; [| exact E].
    now apply Permutation_sym.
  - apply mem_false. apply mem_false in E. intros Hin. apply E.
    eapply Permutation_in; eassumption.
Qed.

Lemma perm_words_of (k : string) (d1 d2 : Spam.cleaned) :
  Permutation d1 d2 -> Permutation (Spam.words_of k d1) (Spam.words_of k d2).
Proof.
  intros H. unfold Spam.words_of, Spam.messages_of.
  now apply perm_concat, Permutation_map, perm_filter.
Qed.

Lemma perm_build_vocabulary (d1 d2 : Spam.cleaned) :
  Permutation d1 d2 ->
  Permutation (Spam.build_vocabulary d1) (Spam.build_vocabulary d2).
Proof.
  intros H. rewrite !build_vocabulary_unique.
  now apply perm_unique, perm_concat, Permutation_map.
Qed.

Lemma perm_class_count (d1 d2 : Census.DataFrame) (target k : string) :
  Permutation (Census.rows d1) (Census.rows d2) ->
  Census.class_count d1 target k = Census.class_count d2 target k.
Proof.
  intros H. unfold Census.class_count. now apply Permutation_length, perm_filter.
Qed.

Lemma perm_matching (d1 d2 : Census.DataFrame) (target k f v : string) :
  Permutation (Census.rows d1) (Census.rows d2) ->
  Census.matching d1 target k f v = Census.matching d2 target k f v.
Proof.
  intros H. unfold Census.matching. now apply Permutation_length, perm_filter.
Qed.

Lemma perm_column_unique (d1 d2 : Census.DataFrame) (f : string) :
  Permutation (Census.rows d1) (Census.rows d2) ->
  Permutation (Census.column_unique d1 f) (Census.column_unique d2 f).
Proof.
  intros H. unfold Census.column_unique. now apply perm_unique, Permutation_map.
Qed.

Lemma get_counted_classes (data : Census.DataFrame) (target k : string) :
  get (Census.counted_classes data target) k
  = if mem k (Census.labels data target)
    then Some (Census.class_count data target k) else None.
Proof.
  unfold Census.counted_classes.
  rewrite (get_map_pairs (fun k => Census.class_count data target k)).
  destruct (mem k (Census.labels data target)) eqn:E.
  - apply mem_In in E. apply In_unique, mem_In in E. now rewrite E.
  - apply mem_false in E.
    assert (E' : mem k (unique (Census.labels data target)) = false)
      by (apply mem_false; now rewrite In_unique).
    now rewrite E'.
Qed.

Lemma get2_word_frequency (o : Spam.set_order) (priors : dict R)
  (data : Spam.cleaned) (g : Spam.globals) (k w : string) :
  Spam.fit o priors data = Ok g ->
  Spam.get2 (Spam.word_frequency g) k w
  = if (String.eqb k "ham" || String.eqb k "spam")
       && mem w (Spam.build_vocabulary data)
    then Some (Spam.joint_count k data w) else None.
Proof.
  intros Hfit. destruct (fit_spec o priors data) as [g' [Hg' H]].
  rewrite Hfit in Hg'. injection Hg' as <-.
  destruct H as [_ [Hvoc [_ [_ [_ [_ [Hkeys [Hfreq _]]]]]]]].
  unfold Spam.get2.
  destruct (String.eqb k "ham") eqn:Eh; [| destruct (String.eqb k "spam") eqn:Es].
  - apply String.eqb_eq in Eh. subst k.
    destruct (Hfreq "ham" (or_introl eq_refl)) as [per [-> [_ Hget]]].
    rewrite Hget, Hvoc. reflexivity.
  - apply String.eqb_eq in Es. subst k.
    destruct (Hfreq "spam" (or_intror eq_refl)) as [per [-> [_ Hget]]].
    rewrite Hget, Hvoc. reflexivity.
  - apply String.eqb_neq in Eh, Es.
    assert (Hnone : get (Spam.word_frequency g) k = None).
    { apply get_None_keys. rewrite Hkeys. destruct o; simpl; intuition congruence. }
    now rewrite Hnone.
Qed.

End Reordering.

(** C9.  The counts of the counting phase do not depend on the order of the
    training instances.  The census classifier, on two frames with the same
    columns whose rows are a permutation of each other: the class
    frequencies hold the same count under every label, the joint counts and
    the per-class totals are equal, and every column has the same distinct
    values.  The spam script, on two cleaned training frames that are a
    permutation of each other: fitting returns on both, with the same
    vocabulary as a set, the same count under every class and word, and the
    same token totals. *)
Theorem counting_is_order_independent :
  (forall d1 d2 target,
      Census.columns d1 = Census.columns d2 ->
      Permutation (Census.rows d1) (Census.rows d2) ->
      (forall cf1,
          Census.count_classes d1 target = Py.Ok cf1 ->
          exists cf2,
            Census.count_classes d2 target = Py.Ok cf2
            /\ forall k, Py.get cf1 k = Py.get cf2 k)
      /\ (forall k f v,
             Census.matching d1 target k f v = Census.matching d2 target k f v)
      /\ (forall k f,
             Census.total_count d1 target k f = Census.total_count d2 target k f)
      /\ (forall f,
             Permutation (Census.column_unique d1 f) (Census.column_unique d2 f)))
  /\ (forall o priors data1 data2,
         Permutation data1 data2 ->
         exists g1 g2,
           Spam.fit o priors data1 = Py.Ok g1
           /\ Spam.fit o priors data2 = Py.Ok g2
           /\ Permutation (Spam.vocabulary g1) (Spam.vocabulary g2)
           /\ (forall k w,
                  Spam.get2 (Spam.word_frequency g1) k w
                  = Spam.get2 (Spam.word_frequency g2) k w)
           /\ Spam.words_in_spam g1 = Spam.words_in_spam g2
           /\ Spam.words_in_ham g1 = Spam.words_in_ham g2).
Proof.
  split.
  - intros d1 d2 target Hcols Hperm. repeat split.
    + intros cf1 H1. exists (Census.counted_classes d2 target).
      apply count_classes_inv in H1 as Hcf. subst cf1. split.
      * destruct (Py.mem target (Census.columns d2)) eqn:Hcol.
        -- now apply count_classes_spec.
        -- destruct (Census.rows d1) as [| r rs] eqn:Hr.
           ++ apply Permutation_nil in Hperm.
              unfold Census.count_classes, Census.counted_classes, Census.labels.
              rewrite Hperm. reflexivity.
           ++ rewrite count_classes_missing_column in H1;
                [discriminate | now rewrite Hcols | rewrite Hr; discriminate].
      * intros k. rewrite !get_counted_classes.
        rewrite (perm_mem (Census.labels d1 target) (Census.labels d2 target))
          by (unfold Census.labels; now apply Permutation_map).
        now rewrite (perm_class_count d1 d2).
    + intros k f v. now apply perm_matching.
    + intros k f. rewrite !total_count_class_count. now apply perm_class_count.
    + intros f. now apply perm_column_unique.
  - intros o priors data1 data2 Hperm.
    destruct (fit_spec o priors data1) as [g1 [Hg1 [_ [Hv1 [Hs1 [Hh1 _]]]]]].
    destruct (fit_spec o priors data2) as [g2 [Hg2 [_ [Hv2 [Hs2 [Hh2 _]]]]]].
    exists g1, g2. repeat split; try assumption.
    + rewrite Hv1, Hv2. now apply perm_build_vocabulary.
    + intros k w.
      rewrite (get2_word_frequency o priors data1 g1 k w Hg1).
      rewrite (get2_word_frequency o priors data2 g2 k w Hg2).
      rewrite (perm_mem _ _ w (perm_build_vocabulary data1 data2 Hperm)).
      unfold Spam.joint_count.
      pose proof (proj1 (Permutation_count_occ string_dec _ _)
                    (perm_words_of k data1 data2 Hperm) w) as Hc.
      now rewrite Hc.
    + rewrite Hs1, Hs2. unfold Spam.class_total.
      now apply Permutation_length, perm_words_of.
    + rewrite Hh1, Hh2. unfold Spam.class_total.
      now apply Permutation_length, perm_words_of.
Qed.

(** C2.  After training, the stored log-conditional of every class and
    every observed feature event is the additive-smoothing formula
    log((N_{k,e} + alpha) / (N_k + alpha * V)).  The spam script (alpha = 1):
    for both classes and every word of the vocabulary, with N_{k,w} the
    occurrences of the word in the class's training messages, N_k the
    class's token total and V the vocabulary size.  The census classifier:
    for every label of the target column, every column other than the
    target and every value the column takes, with N_{k,f,v} the rows of the
    class holding the value, N_k the rows of the class and V the number of
    distinct values of that column.  On the scenario of the specification,
    for either iteration order of the set literal, the entry for "win" under
    "spam" is log((2+1)/(4+1*5)) and "win prize" is classified as spam. *)
Theorem stored_conditionals_follow_smoothing_formula :
  (forall o shuffled_data g k w,
      Spam.run o shuffled_data = Py.Ok g ->
      k = "ham" \/ k = "spam" ->
      In w (Spam.vocabulary g) ->
      Spam.get2 (Spam.word_log_prob g) k w
      = Some
          (ln ((INR (Spam.joint_count k
                       (Spam.clean_training_data (Spam.training_data shuffled_data))
                       w)
                + INR Spam.alpha)
               / (INR (Spam.class_total k
                         (Spam.clean_training_data
                            (Spam.training_data shuffled_data)))
                  + INR Spam.alpha * INR (List.length (Spam.vocabulary g)))))%R)
  /\ (forall a data target self probs k f v,
         (0 < a)%R ->
         Census.train (Census.init a) data target = Py.Ok self ->
         Census.class_conditional_probs self = Some probs ->
         In k (Census.labels data target) ->
         In f (Census.feature_columns data target) ->
         In v (Census.column_unique data f) ->
         Census.get3 probs k f v
         = Some
             (ln ((INR (Census.matching data target k f v) + a)
                  / (INR (Census.class_count data target k)
                     + a * INR (List.length (Census.column_unique data f)))))%R)
  /\ (forall o,
         exists g,
           Spam.run o toy_corpus = Py.Ok g
           /\ Spam.clean_training_data (Spam.training_data toy_corpus)
              = [("spam", ["win"; "money"]); ("ham", ["hello"; "friend"]);
                 ("spam", ["win"; "prize"])]
           /\ Spam.get2 (Spam.word_log_prob g) "spam" "win"
              = Some (ln ((2 + 1) / (4 + 1 * 5)))%R
           /\ Spam.classify g "win prize" = Py.Ok "spam").
Proof.
  split; [| split].
  - intros o sd g k w Hrun Hk Hw.
    destruct (run_fit o sd g Hrun) as [ph [ps [_ Hfit]]].
    destruct (fitted_table o ph ps _ g Hfit k Hk) as [t [Ht [_ Hget]]].
    unfold Spam.get2. rewrite Ht, Hget.
    apply mem_In in Hw. rewrite Hw. f_equal.
    unfold Spam.smoothed_log_prob.
    rewrite <- (fitted_vocabulary o ph ps _ g Hfit).
    now rewrite !plus_INR, mult_INR.
  - intros a data target self probs k f v _ Htrain Hprobs Hk Hf Hv.
    apply train_inv in Htrain. cbn [Census.init Census.alpha] in Htrain. subst self.
    cbn [Census.trained Census.class_conditional_probs] in Hprobs.
    injection Hprobs as <-. unfold Census.get3.
    rewrite (get_map_pairs (fun k => Census.class_table a data target k)).
    apply In_unique, mem_In in Hk. rewrite Hk.
    assert (Hrows : Census.rows data <> []).
    { intros Hr. unfold Census.column_unique in Hv. rewrite Hr in Hv. contradiction. }
    destruct (class_table_spec a data target k f) as [Hspec Hex].
    destruct (Hex Hf Hrows) as [T HT]. rewrite HT.
    destruct (Hspec T HT) as [-> _].
    rewrite (get_map_pairs
               (fun v => Census.smoothed_conditional a data target k f v)).
    apply mem_In in Hv. now rewrite Hv.
  - intros o.
    destruct o;
      (eexists; split; [evaluate; reflexivity |];
       split; [reflexivity |];
       split;
       [ evaluate; do 2 f_equal; lra
       | evaluate; destruct (Rlt_dec _ _) as [H | H];
         [reflexivity | exfalso; apply H, ln_add3_lt; lra] ]).
Qed.

Lemma stored_conditionals_follow_smoothing_formula_witness :
  (exists g,
      Spam.run Spam.HamFirst toy_corpus = Py.Ok g
      /\ Spam.get2 (Spam.word_log_prob g) "ham" "hello"
         = Some
             (ln ((INR (Spam.joint_count "ham"
                          (Spam.clean_training_data (Spam.training_data toy_corpus))
                          "hello")
                   + INR Spam.alpha)
                  / (INR (Spam.class_total "ham"
                            (Spam.clean_training_data
                               (Spam.training_data toy_corpus)))
                     + INR Spam.alpha * INR (List.length (Spam.vocabulary g)))))%R)
  /\ exists self probs,
       Census.train (Census.init 1) census_frame "sex" = Py.Ok self
       /\ Census.class_conditional_probs self = Some probs
       /\ Census.get3 probs "Male" "education" "HS"
          = Some
              (ln ((INR (Census.matching census_frame "sex" "Male" "education" "HS")
                    + 1)
                   / (INR (Census.class_count census_frame "sex" "Male")
                      + 1 * INR (List.length
                                   (Census.column_unique census_frame
                                      "education")))))%R.
Proof.
  split.
  - eexists. split; [evaluate; reflexivity |].
    apply (proj1 stored_conditionals_follow_smoothing_formula
             Spam.HamFirst toy_corpus).
    + evaluate. reflexivity.
    + left. reflexivity.
    + simpl. auto.
  - exists (Census.trained 1 census_frame "sex"). eexists.
    split; [apply (train_ok (Census.init 1)); reflexivity |].
    split; [reflexivity |].
    apply (proj1 (proj2 stored_conditionals_follow_smoothing_formula)
             1%R census_frame "sex" (Census.trained 1 census_frame "sex")).
    + lra.
    + apply (train_ok (Census.init 1)). reflexivity.
    + reflexivity.
    + simpl. auto.
    + simpl. auto.
    + cbv. auto.
Defined.

Lemma predict_returns_first_maximal_label_witness :
  exists probs label before w after,
    Census.class_probabilities (Census.trained 1 tie_frame "sex")
      [("education", "HS")] = Py.Ok probs
    /\ Census.predict (Census.trained 1 tie_frame "sex") [("education", "HS")]
       = Py.Ok label
    /\ probs = (before ++ (label, w) :: after)%list
    /\ (forall p, In p before -> (snd p < w)%R)
    /\ (forall p, In p after -> (snd p <= w)%R).
Proof.
  assert (Hp : exists probs,
             Census.class_probabilities (Census.trained 1 tie_frame "sex")
               [("education", "HS")] = Py.Ok probs
             /\ probs <> [])
    by (eexists; split; [evaluate; reflexivity | discriminate]).
  destruct Hp as [probs [Hp Hne]].
  destruct (proj1 predict_returns_first_maximal_label 1%R tie_frame "sex"
              (Census.trained 1 tie_frame "sex") [("education", "HS")] probs
              (train_ok (Census.init 1) tie_frame "sex" eq_refl) Hp Hne)
    as [_ [label [before [w [after H]]]]].
  exists probs, label, before, w, after. split; [exact Hp | exact H].
Defined.

Lemma smoothed_priors_sum_to_one_witness :
  (exists self priors,
      Census.train (Census.init 1) census_frame "sex" = Py.Ok self
      /\ Census.log_priors self = Some priors
      /\ Py.keys priors = Py.unique (Census.labels census_frame "sex")
      /\ prior_mass priors (Py.unique (Census.labels census_frame "sex")) = 1%R
      /\ Py.sum (map exp (Py.values priors)) = 1%R)
  /\ exists priors,
       Spam.compute_log_priors toy_corpus = Py.Ok priors
       /\ Py.keys priors = ["ham"; "spam"]
       /\ (forall k, In k (Py.keys priors) <-> In k (map Spam.Label toy_corpus))
       /\ prior_mass priors (Py.unique (map Spam.Label toy_corpus)) = 1%R
       /\ Py.sum (map exp (Py.values priors)) = 1%R.
Proof.
  split.
  - apply (proj1 smoothed_priors_sum_to_one 1%R census_frame "sex").
    + lra.
    + discriminate.
    + reflexivity.
  - apply (proj2 smoothed_priors_sum_to_one toy_corpus).
    + intros r [<- | [<- | [<- | [<- | []]]]]; simpl; auto.
    + eexists. split; [right; left; reflexivity | reflexivity].
    + eexists. split; [left; reflexivity | reflexivity].
Defined.

Lemma smoothed_conditionals_sum_to_one_witness :
  (exists T,
      Py.get (Census.class_table 1 census_frame "sex" "Male") "education" = Some T
      /\ Py.keys T = Census.column_unique census_frame "education"
      /\ Py.sum (map exp (Py.values T)) = 1%R)
  /\ exists g t,
       Spam.run Spam.HamFirst toy_corpus = Py.Ok g
       /\ Py.get (Spam.word_log_prob g) "spam" = Some t
       /\ Py.keys t = Spam.vocabulary g
       /\ Py.sum (map exp (Py.values t)) = 1%R.
Proof.
  split.
  - eexists. split; [evaluate; reflexivity |].
    apply (proj1 smoothed_conditionals_sum_to_one 1%R census_frame "sex"
             (Census.trained 1 census_frame "sex")
             (map (fun k => (k, Census.class_table 1 census_frame "sex" k))
                (Py.unique (Census.labels census_frame "sex")))
             "Male" (Census.class_table 1 census_frame "sex" "Male") "education").
    + lra.
    + apply (train_ok (Census.init 1)). reflexivity.
    + reflexivity.
    + reflexivity.
    + evaluate. reflexivity.
  - eexists. eexists. split; [evaluate; reflexivity |].
    split; [reflexivity |].
    apply (proj2 smoothed_conditionals_sum_to_one Spam.HamFirst toy_corpus
             _ "spam").
    + evaluate. reflexivity.
    + discriminate.
    + reflexivity.
Defined.

Lemma counting_is_order_independent_witness :
  Census.matching tie_frame "sex" "Male" "education" "HS"
  = Census.matching tie_frame_swapped "sex" "Male" "education" "HS"
  /\ exists g1 g2,
       Spam.fit Spam.HamFirst []
         [("spam", ["win"; "money"]); ("ham", ["hello"; "friend"])] = Py.Ok g1
       /\ Spam.fit Spam.HamFirst []
            [("ham", ["hello"; "friend"]); ("spam", ["win"; "money"])] = Py.Ok g2
       /\ Permutation (Spam.vocabulary g1) (Spam.vocabulary g2)
       /\ (forall k w,
              Spam.get2 (Spam.word_frequency g1) k w
              = Spam.get2 (Spam.word_frequency g2) k w)
       /\ Spam.words_in_spam g1 = Spam.words_in_spam g2
       /\ Spam.words_in_ham g1 = Spam.words_in_ham g2.
Proof.
  split.
  - destruct (proj1 counting_is_order_independent tie_frame tie_frame_swapped
                "sex" eq_refl (perm_swap _ _ _)) as [_ [Hm _]].
    apply Hm.
  - apply (proj2 counting_is_order_independent). apply perm_swap.
Defined.

(** ** Further properties of the code *)

(** The census classifier stores, for every label of the target column,
    the log of the smoothed prior (N_k + alpha) / (n + alpha * K), where N_k
    counts the rows of the class among the rows passed to [train], n is
    their number and K the number of distinct labels. *)
Theorem census_priors_follow_smoothing_formula
  (a : R) (data : Census.DataFrame) (target : string)
  (self : Census.NaiveBayesClassifier) (priors : Py.dict R) (k : string) :
  (0 < a)%R ->
  Census.train (Census.init a) data target = Py.Ok self ->
  Census.log_priors self = Some priors ->
  In k (Census.labels data target) ->
  Py.get priors k
  = Some (ln ((INR (Census.class_count data target k) + a)
              / (INR (List.length (Census.rows data))
                 + a * INR (List.length (Py.unique (Census.labels data target))))))%R.
Proof.
  intros _ Htrain Hpriors Hk.
  apply train_inv in Htrain. cbn [Census.init Census.alpha] in Htrain. subst self.
  cbn [Census.trained Census.log_priors] in Hpriors. injection Hpriors as <-.
  rewrite (get_map_pairs (fun k => Census.smoothed_prior a data target k)).
  apply In_unique, mem_In in Hk. now rewrite Hk.
Qed.

Lemma census_priors_follow_smoothing_formula_witness :
  Py.get [("Male", ln ((INR (Census.class_count census_frame "sex" "Male") + 1)
                       / (INR 3 + 1 * INR 2)));
          ("Female", ln ((INR (Census.class_count census_frame "sex" "Female") + 1)
                         / (INR 3 + 1 * INR 2)))]%R "Male"
  = Some (ln ((INR (Census.class_count census_frame "sex" "Male") + 1)
              / (INR (List.length (Census.rows census_frame))
                 + 1 * INR (List.length
                              (Py.unique (Census.labels census_frame "sex"))))))%R.
Proof.
  apply (census_priors_follow_smoothing_formula 1%R census_frame "sex"
           (Census.trained 1 census_frame "sex")).
  - lra.
  - apply (train_ok (Census.init 1)). reflexivity.
  - reflexivity.
  - simpl. auto.
Defined.

(** From the cleaned training frame on, the training cell of the spam
    script never raises: every word counted has an entry in
    [word_frequency], and no smoothed ratio divides by zero. *)
Theorem training_cell_never_raises
  (o : Spam.set_order) (priors : Py.dict R) (data : Spam.cleaned) :
  exists g,
    Spam.fit o priors data = Py.Ok g
    /\ Spam.vocabulary g = Spam.build_vocabulary data
    /\ Py.keys (Spam.word_log_prob g) = Spam.iterate o.
Proof.
  destruct (fit_spec o priors data) as [g [Hg [_ [Hv [_ [_ [_ [Hk _]]]]]]]].
  exists g. auto.
Qed.

(** [train] on a frame with at least one row whose target is not a column
    raises [KeyError], and leaves no trained object behind. *)
Theorem train_raises_without_target_column
  (self : Census.NaiveBayesClassifier) (data : Census.DataFrame) (target : string) :
  Py.mem target (Census.columns data) = false ->
  Census.rows data <> [] ->
  Census.train self data target = Py.Raise Py.KeyError.
Proof. intros Hcol Hrows. now apply train_missing_target. Qed.

Lemma train_raises_without_target_column_witness :
  Census.train (Census.init 1) census_frame "income" = Py.Raise Py.KeyError.
Proof.
  apply train_raises_without_target_column; [reflexivity | discriminate].
Defined.

(** [train] accepts every frame without rows, whatever its columns, the
    target name and alpha: it stores empty tables and the feature names, and
    [predict] on the object then raises [ValueError] at [max], whatever the
    instance. *)
Theorem train_on_empty_frame
  (self : Census.NaiveBayesClassifier) (data : Census.DataFrame)
  (target : string) :
  Census.rows data = [] ->
  exists self',
    Census.train self data target = Py.Ok self'
    /\ Census.log_priors self' = Some []
    /\ Census.class_conditional_probs self' = Some []
    /\ Census.features self' = Some (Census.feature_columns data target)
    /\ forall new_instance,
         Census.predict self' new_instance = Py.Raise Py.ValueError.
Proof.
  intros Hr. eexists. unfold Census.train, Census.count_classes. rewrite Hr.
  cbn [Py.for_each Py.bind]. split; [reflexivity |].
  repeat split; reflexivity.
Qed.

Lemma train_on_empty_frame_witness :
  exists self,
    Census.train (Census.init 1) empty_frame "sex" = Py.Ok self
    /\ Census.log_priors self = Some []
    /\ Census.class_conditional_probs self = Some []
    /\ Census.features self = Some ["education"]
    /\ forall new_instance,
         Census.predict self new_instance = Py.Raise Py.ValueError.
Proof.
  exact (train_on_empty_frame (Census.init 1) empty_frame "sex" eq_refl).
Defined.

Lemma classify_empty_vocabulary (o : Spam.set_order) (ph ps : R)
  (data : Spam.cleaned) (g : Spam.globals) (message : string) :
  Spam.fit o [("ham", ph); ("spam", ps)] data = Py.Ok g ->
  Spam.vocabulary g = [] ->
  Spam.classify g message
  = match Spam.clean_message message with
    | [] => Py.Ok (if Rlt_dec ph ps then "spam" else "ham")
    | _ :: _ => Py.Raise Py.ZeroDivisionError
    end.
Proof.
  intros Hfit Hv. unfold Spam.classify, Spam.class_probabilities.
  rewrite (fitted_priors o ph ps data g Hfit).
  cbn [Py.keys map fst Py.for_each]. unfold Py.getitem at 1.
  cbn [Py.get String.eqb Ascii.eqb Bool.eqb Py.bind].
  destruct (Spam.clean_message message) as [| w ws].
  - cbn [Py.for_each Py.bind Py.setitem]. unfold Py.getitem.
    cbn [Py.get String.eqb Ascii.eqb Bool.eqb Py.bind Py.for_each Py.setitem].
    apply max_of_two.
  - cbn [Py.for_each]. rewrite add_word_unknown by (now rewrite Hv).
    now rewrite (unseen_word_prob_empty o ph ps data g Hfit Hv).
Qed.




(** ** Cleaning and tokenising, in both cells *)

Section Characters.

Ltac by_cases_on c :=
  destruct c as [[] [] [] [] [] [] [] []]; reflexivity.

Lemma letter_lowered (c : ascii) :
  implb (Spam.is_letter c) (Spam.is_lower (Spam.lower_char c)) = true.
Proof. by_cases_on c. Qed.

Lemma lower_not_space (c : ascii) :
  implb (Spam.is_lower c) (negb (Spam.is_space c)) = true.
Proof. by_cases_on c. Qed.

Lemma lower_char_twice (c : ascii) :
  Spam.lower_char (Spam.lower_char c) = Spam.lower_char c.
Proof. by_cases_on c. Qed.

Lemma is_letter_lower_char (c : ascii) :
  Spam.is_letter (Spam.lower_char c) = Spam.is_letter c.
Proof. by_cases_on c. Qed.

Lemma blank_is_space (c : ascii) :
  implb (Spam.is_blank c) (Spam.is_space (Spam.lower_char c)) = true.
Proof. by_cases_on c. Qed.

Lemma blank_not_letter (c : ascii) :
  implb (Spam.is_blank c) (negb (Spam.is_letter c)) = true.
Proof. by_cases_on c. Qed.

Lemma blank_is_the_space (c : ascii) :
  Spam.is_blank c = true -> c = " "%char.
Proof. destruct c as [[] [] [] [] [] [] [] []]; intros H; try discriminate; reflexivity. Qed.

End Characters.

Section Tokenising.

Lemma append_empty (s : string) : (s ++ "")%string = s.
Proof. induction s as [| c s IH]; simpl; [reflexivity | now rewrite IH]. Qed.

Lemma append_char (s : string) (c : ascii) (t : string) :
  ((s ++ String c "") ++ t)%string = (s ++ String c t)%string.
Proof. induction s as [| d s IH]; simpl; [reflexivity | now rewrite IH]. Qed.

Lemma all_chars_append (p : ascii -> bool) (s t : string) :
  all_chars p (s ++ t) = all_chars p s && all_chars p t.
Proof.
  induction s as [| c s IH]; simpl; [reflexivity |].
  now rewrite IH, andb_assoc.
Qed.

Lemma eqb_empty (s : string) : String.eqb s "" = true <-> s = "".
Proof. apply String.eqb_eq. Qed.

(** The tokens [split] cuts, written one after the other, are the
    characters that are no separators. *)
Lemma split_from_glue (s : string) :
  forall word,
    glue (Spam.split_from word s)
    = (word ++ keep_chars (fun c => negb (Spam.is_space c)) s)%string.
Proof.
  induction s as [| c s IH]; intros word; simpl.
  - rewrite append_empty. destruct (String.eqb word "") eqn:E; simpl.
    + apply String.eqb_eq in E. now subst.
    + apply append_empty.
  - destruct (Spam.is_space c); simpl.
    + destruct (String.eqb word "") eqn:E; simpl.
      * apply String.eqb_eq in E. subst. apply IH.
      * now rewrite IH.
    + now rewrite IH, append_char.
Qed.

(** No token is empty, and a token holds only characters of the text that
    are no separators. *)
Lemma split_from_tokens (p : ascii -> bool) (s : string) :
  forall word w,
    all_chars p word = true ->
    all_chars (fun c => Spam.is_space c || p c) s = true ->
    In w (Spam.split_from word s) ->
    w <> "" /\ all_chars p w = true.
Proof.
  induction s as [| c s IH]; intros word w Hword Hs; simpl.
  - destruct (String.eqb word "") eqn:E; [intros [] |].
    intros [<- | []]. apply String.eqb_neq in E. auto.
  - simpl in Hs. apply andb_prop in Hs. destruct Hs as [Hc Hs].
    destruct (Spam.is_space c) eqn:Hsp.
    + destruct (String.eqb word "") eqn:E.
      * apply IH; [reflexivity | assumption].
      * intros [<- | Hin].
        -- apply String.eqb_neq in E. auto.
        -- now apply (IH "" w).
    + apply IH; [| assumption].
      rewrite all_chars_append, Hword. simpl in *. now rewrite Hc.
Qed.

Lemma cleaned_message_chars (m : string) :
  all_chars (fun c => Spam.is_space c || Spam.is_lower c)
    (Spam.lower (Spam.blank_non_letters m)) = true.
Proof.
  induction m as [| c m IH]; [reflexivity |]. simpl. rewrite IH, andb_true_r.
  pose proof (letter_lowered c) as H. destruct (Spam.is_letter c); simpl in *.
  - rewrite H. apply orb_true_r.
  - reflexivity.
Qed.

Lemma cleaned_training_chars (m : string) :
  all_chars (fun c => Spam.is_space c || Spam.is_lower c)
    (Spam.lower (Spam.delete_non_letters m)) = true.
Proof.
  induction m as [| c m IH]; [reflexivity |]. simpl.
  pose proof (letter_lowered c) as Hl. pose proof (blank_is_space c) as Hb.
  destruct (Spam.is_letter c); simpl in *.
  - rewrite IH, Hl, orb_true_r. reflexivity.
  - destruct (Spam.is_blank c); simpl in *; [| exact IH].
    now rewrite IH, Hb.
Qed.

Lemma cleaned_message_letters (m : string) :
  keep_chars (fun c => negb (Spam.is_space c))
    (Spam.lower (Spam.blank_non_letters m))
  = letters_of m.
Proof.
  unfold letters_of. induction m as [| c m IH]; [reflexivity |]. simpl.
  pose proof (letter_lowered c) as Hl.
  pose proof (lower_not_space (Spam.lower_char c)) as Hn.
  destruct (Spam.is_letter c); simpl in *.
  - rewrite Hl in Hn. simpl in Hn. now rewrite Hn, IH.
  - exact IH.
Qed.

Lemma cleaned_training_letters (m : string) :
  keep_chars (fun c => negb (Spam.is_space c))
    (Spam.lower (Spam.delete_non_letters m))
  = letters_of m.
Proof.
  unfold letters_of. induction m as [| c m IH]; [reflexivity |]. simpl.
  pose proof (letter_lowered c) as Hl.
  pose proof (lower_not_space (Spam.lower_char c)) as Hn.
  pose proof (blank_is_space c) as Hb.
  destruct (Spam.is_letter c); simpl in *.
  - rewrite Hl in Hn. simpl in Hn. now rewrite Hn, IH.
  - destruct (Spam.is_blank c); simpl in *; [| exact IH].
    now rewrite Hb.
Qed.

Lemma plain_text_unchanged (s : string) :
  all_chars (fun c => Spam.is_letter c || Spam.is_blank c) s = true ->
  Spam.delete_non_letters s = s /\ Spam.blank_non_letters s = s.
Proof.
  induction s as [| c s IH]; [auto |]. simpl. intros H.
  apply andb_prop in H. destruct H as [Hc Hs]. destruct (IH Hs) as [-> ->].
  rewrite Hc. split; [reflexivity |].
  destruct (Spam.is_letter c) eqn:Hl; [reflexivity |].
  simpl in Hc. now rewrite (blank_is_the_space c Hc).
Qed.

Lemma lower_blank_commute (m : string) :
  Spam.lower (Spam.blank_non_letters (Spam.lower m))
  = Spam.lower (Spam.blank_non_letters m).
Proof.
  induction m as [| c m IH]; [reflexivity |]. simpl.
  rewrite IH, is_letter_lower_char.
  destruct (Spam.is_letter c); [now rewrite lower_char_twice | reflexivity].
Qed.

End Tokenising.

(** The tokens both cells work with are words: no token is empty and every
    character of a token is a lower-case letter. *)
Theorem tokens_are_lowercase_words (text w : string) :
  In w (Spam.clean_message text) \/ In w (Spam.clean_training_text text) ->
  w <> "" /\ all_chars Spam.is_lower w = true.
Proof.
  intros [H | H].
  - apply (split_from_tokens Spam.is_lower _ "" w eq_refl
             (cleaned_message_chars text) H).
  - apply (split_from_tokens Spam.is_lower _ "" w eq_refl
             (cleaned_training_chars text) H).
Qed.

Lemma tokens_are_lowercase_words_witness :
  "win" <> "" /\ all_chars Spam.is_lower "win" = true.
Proof.
  apply (tokens_are_lowercase_words "WIN a prize!!"). left. simpl. auto.
Defined.

(** Neither cleaning loses or reorders a letter: the tokens of a text,
    written one after the other, are its letters in lower case, for the
    training cell's cleaning and for [classify]'s alike.  The two differ
    only in where the tokens are cut. *)
Theorem cleanings_keep_the_letters (text : string) :
  glue (Spam.clean_message text) = letters_of text
  /\ glue (Spam.clean_training_text text) = letters_of text.
Proof.
  unfold Spam.clean_message, Spam.clean_training_text, Spam.split.
  rewrite !split_from_glue. simpl.
  now rewrite cleaned_message_letters, cleaned_training_letters.
Qed.

(** On a text made of letters and blanks only, the training cell and
    [classify] cut the same tokens. *)
Theorem cleanings_agree_on_plain_text (text : string) :
  all_chars (fun c => Spam.is_letter c || Spam.is_blank c) text = true ->
  Spam.clean_training_text text = Spam.clean_message text.
Proof.
  intros H. unfold Spam.clean_training_text, Spam.clean_message.
  destruct (plain_text_unchanged text H) as [-> ->]. reflexivity.
Qed.

Lemma cleanings_agree_on_plain_text_witness :
  Spam.clean_training_text "Win money NOW" = Spam.clean_message "Win money NOW".
Proof. apply cleanings_agree_on_plain_text. reflexivity. Defined.

(** Where a text holds another character the two can differ: the training
    cell deletes it, [classify] cuts the token there. *)
Lemma cleanings_differ_on_punctuation :
  Spam.clean_training_text "don't" = ["dont"]
  /\ Spam.clean_message "don't" = ["don"; "t"].
Proof. split; reflexivity. Qed.

Lemma ascii_lower_lower (s : string) : ascii_lower s = Spam.lower s.
Proof. induction s as [| c s IH]; [reflexivity |]. simpl. now rewrite IH. Qed.

(** [classify] does not see the case of the ASCII letters: two messages
    that become equal when A-Z are replaced by a-z, every other character
    left as it is, get the same outcome.  (Every character outside a-z and
    A-Z is turned into a blank before [lower()] runs, so the letters of
    other alphabets that [lower()] would fold never reach it.) *)
Theorem classify_ignores_ascii_case (g : Spam.globals) (m1 m2 : string) :
  ascii_lower m1 = ascii_lower m2 ->
  Spam.classify g m1 = Spam.classify g m2.
Proof.
  rewrite !ascii_lower_lower. intros H. unfold Spam.classify, Spam.clean_message.
  now rewrite <- (lower_blank_commute m1), <- (lower_blank_commute m2), H.
Qed.

Lemma classify_ignores_ascii_case_witness :
  exists g,
    Spam.run Spam.HamFirst toy_corpus = Py.Ok g
    /\ Spam.classify g "WIN a Prize" = Spam.classify g "win A prize".
Proof.
  eexists. split; [evaluate; reflexivity |].
  apply classify_ignores_ascii_case. reflexivity.
Defined.

(** ** The split into training and testing rows *)

Section Splitting.

Lemma split_index_below (n : nat) : 1 <= n -> Spam.split_index n < n.
Proof.
  intros H. unfold Spam.split_index.
  apply Nat.Div0.div_lt_upper_bound. lia.
Qed.

Lemma split_index_positive (n : nat) : 2 <= n -> 1 <= Spam.split_index n.
Proof.
  intros H. unfold Spam.split_index.
  apply (Nat.div_le_lower_bound (n * 4) 5 1); lia.
Qed.

Lemma split_index_small (n : nat) : n <= 1 -> Spam.split_index n = 0.
Proof.
  intros H. unfold Spam.split_index.
  destruct n as [| [| n]]; [reflexivity | reflexivity | lia].
Qed.

End Splitting.

(** The split loses no row and duplicates none: the training rows followed
    by the testing rows are the frame.  The training part holds the first
    [4n/5] rows (rounded down), so on a frame with a row the testing part is
    never empty, one row alone trains on nothing, and two rows or more
    always leave a training row. *)
Theorem split_partitions_the_frame (shuffled_data : list Spam.row) :
  (Spam.training_data shuffled_data ++ Spam.testing_data shuffled_data)%list
  = shuffled_data
  /\ List.length (Spam.training_data shuffled_data)
     = Spam.split_index (List.length shuffled_data)
  /\ (shuffled_data <> [] -> Spam.testing_data shuffled_data <> [])
  /\ (List.length shuffled_data <= 1 -> Spam.training_data shuffled_data = [])
  /\ (2 <= List.length shuffled_data -> Spam.training_data shuffled_data <> []).
Proof.
  unfold Spam.training_data, Spam.testing_data.
  set (n := List.length shuffled_data).
  assert (Hlen : List.length (firstn (Spam.split_index n) shuffled_data)
                 = Spam.split_index n).
  { rewrite length_firstn. fold n.
    destruct n as [| n'] eqn:E; [reflexivity |].
    pose proof (split_index_below (S n')). lia. }
  split; [apply firstn_skipn |]. split; [exact Hlen |]. split; [| split].
  - intros Hne Hskip.
    assert (Hn : 1 <= n).
    { unfold n. destruct shuffled_data; [congruence | simpl; lia]. }
    pose proof (split_index_below n Hn) as Hlt.
    pose proof (length_skipn (Spam.split_index n) shuffled_data) as Hs.
    rewrite Hskip in Hs. simpl in Hs. fold n in Hs. lia.
  - intros Hsmall. rewrite (split_index_small n Hsmall). reflexivity.
  - intros Hbig Hfirst. rewrite Hfirst in Hlen. simpl in Hlen.
    pose proof (split_index_positive n Hbig). lia.
Qed.

Lemma split_partitions_the_frame_witness :
  Spam.testing_data held_out_corpus <> []
  /\ Spam.training_data held_out_corpus <> [].
Proof.
  destruct (split_partitions_the_frame held_out_corpus) as [_ [_ [Ht [_ Hr]]]].
  split; [apply Ht; discriminate | apply Hr; simpl; lia].
Defined.

(** ** [value_counts] and the priors of the spam script *)

Section ValueCounts.
Import Py.

Lemma place_perm (x : string * nat) (l : dict nat) :
  Permutation (Spam.place x l) (x :: l).
Proof.
  induction l as [| y l IH]; simpl; [apply Permutation_refl |].
  destruct (snd y <? snd x)%nat; [apply Permutation_refl |].
  transitivity (y :: x :: l); [now constructor | apply perm_swap].
Qed.

Lemma place_descending (x : string * nat) (l : dict nat) :
  descending l -> descending (Spam.place x l).
Proof.
  unfold descending. induction l as [| y l IH]; intros Hs; simpl.
  - repeat constructor.
  - destruct (Nat.ltb_spec (snd y) (snd x)) as [Hlt | Hge].
    + constructor; [assumption |]. constructor. lia.
    + inversion Hs as [| ? ? Hl Hhd]; subst.
      constructor; [now apply IH |].
      destruct l as [| z l]; simpl.
      * constructor. exact Hge.
      * inversion Hhd; subst.
        destruct (snd z <? snd x)%nat; constructor; assumption.
Qed.

Lemma placed_all (items acc : dict nat) :
  descending acc ->
  descending (fold_left (fun sorted x => Spam.place x sorted) items acc)
  /\ Permutation (fold_left (fun sorted x => Spam.place x sorted) items acc)
       (rev items ++ acc).
Proof.
  revert acc. induction items as [| x items IH]; intros acc Hacc; simpl.
  - split; [assumption | apply Permutation_refl].
  - destruct (IH (Spam.place x acc) (place_descending x acc Hacc)) as [Hs Hp].
    split; [exact Hs |].
    rewrite Hp, <- app_assoc. simpl.
    apply Permutation_app_head, place_perm.
Qed.

Lemma value_counts_spec (labels : list string) :
  descending (Spam.value_counts labels)
  /\ Permutation (Spam.value_counts labels)
       (map (fun l => (l, count_occ string_dec labels l)) (unique labels)).
Proof.
  unfold Spam.value_counts.
  destruct (placed_all
              (map (fun l => (l, count_occ string_dec labels l)) (unique labels))
              []) as [Hs Hp]; [constructor |].
  split; [exact Hs |].
  rewrite Hp, app_nil_r. apply Permutation_sym, Permutation_rev.
Qed.

Lemma descending_head (x : string * nat) (l : dict nat) :
  descending (x :: l) -> forall y, In y l -> snd y <= snd x.
Proof.
  intros Hs. apply Sorted_StronglySorted in Hs.
  - inversion Hs as [| ? ? _ Hall]; subst.
    intros y Hy. rewrite Forall_forall in Hall. now apply Hall.
  - intros a b c Hab Hbc. lia.
Qed.

Lemma count_total (labels : list string) :
  list_sum (map (fun l => count_occ string_dec labels l) (unique labels))
  = List.length labels.
Proof.
  pose proof (count_partition (fun l : string => l) (fun _ => true)
                (unique labels) labels (NoDup_unique labels)
                (fun l H => proj2 (In_unique labels l) H)) as H.
  rewrite filter_all in H. rewrite <- H.
  apply f_equal, map_ext. intros v.
  transitivity (count_occ string_dec (map (fun l : string => l) labels) v).
  - now rewrite map_id.
  - exact (count_occ_filter (fun l => l) labels v).
Qed.

Lemma list_sum_perm (l1 l2 : list nat) :
  Permutation l1 l2 -> list_sum l1 = list_sum l2.
Proof. induction 1; simpl; lia. Qed.

End ValueCounts.

(** [value_counts] lists every distinct label exactly once with its number
    of occurrences, the counts never increase down the list, and they add
    up to the number of rows. *)
Theorem value_counts_sorted_and_complete (labels : list string) :
  descending (Spam.value_counts labels)
  /\ Permutation (Py.keys (Spam.value_counts labels)) (Py.unique labels)
  /\ (forall l c, In (l, c) (Spam.value_counts labels) <->
                  In l labels /\ c = count_occ string_dec labels l)
  /\ list_sum (Py.values (Spam.value_counts labels)) = List.length labels.
Proof.
  destruct (value_counts_spec labels) as [Hs Hp].
  split; [exact Hs |]. split; [| split].
  - unfold Py.keys. rewrite (Permutation_map fst Hp), map_map. simpl.
    rewrite map_id. apply Permutation_refl.
  - intros l c. split.
    + intros H. apply (Permutation_in _ Hp), in_map_iff in H.
      destruct H as [l' [E Hin]]. injection E as <- <-.
      split; [now apply In_unique | reflexivity].
    + intros [Hin ->]. apply (Permutation_in _ (Permutation_sym Hp)).
      apply in_map_iff. exists l. split; [reflexivity | now apply In_unique].
  - unfold Py.values. rewrite (list_sum_perm _ _ (Permutation_map snd Hp)).
    rewrite map_map. simpl. apply count_total.
Qed.

Section SpamPriors.
Import Py.

Lemma ln_monotone (x y : R) : (0 < x)%R -> (x <= y)%R -> (ln x <= ln y)%R.
Proof.
  intros Hx [Hlt | ->]; [| lra]. left. now apply ln_increasing.
Qed.

Lemma value_counts_length (labels : list string) :
  List.length (Spam.value_counts labels) = List.length (unique labels).
Proof.
  destruct (value_counts_spec labels) as [_ Hp].
  now rewrite (Permutation_length Hp), length_map.
Qed.

End SpamPriors.

(** The priors of the spam script are read off [value_counts] by position,
    not by label: whenever they are computed, the frame holds two distinct
    labels l0 and l1 such that no label occurs more often than l0 and no
    label other than l0 occurs more often than l1, and the prior stored
    under ["ham"] is log((N_l0 + 1) / (n + 2)) and the one under ["spam"]
    is log((N_l1 + 1) / (n + 2)), whatever l0 and l1 are.  So the stored
    prior of ham is never below that of spam. *)
Theorem priors_use_the_two_largest_counts
  (shuffled_data : list Spam.row) (priors : Py.dict R) :
  Spam.compute_log_priors shuffled_data = Py.Ok priors ->
  let labels := map Spam.Label shuffled_data in
  let N l := count_occ string_dec labels l in
  exists l0 l1 ph ps,
    priors = [("ham", ph); ("spam", ps)]
    /\ In l0 labels /\ In l1 labels /\ l0 <> l1
    /\ (forall l, N l <= N l0)
    /\ (forall l, l <> l0 -> N l <= N l1)
    /\ ph = ln (INR (N l0 + 1) / INR (List.length shuffled_data + 2))
    /\ ps = ln (INR (N l1 + 1) / INR (List.length shuffled_data + 2))
    /\ (ps <= ph)%R.
Proof.
  intros Hpriors labels N. unfold Spam.compute_log_priors in Hpriors.
  fold labels in Hpriors.
  destruct (value_counts_spec labels) as [Hs Hp].
  assert (Hin : forall l, In l labels -> In (l, N l) (Spam.value_counts labels)).
  { intros l Hl. apply (Permutation_in _ (Permutation_sym Hp)).
    apply in_map_iff. exists l. split; [reflexivity | now apply In_unique]. }
  assert (Hout : forall l c, In (l, c) (Spam.value_counts labels) ->
                   In l labels /\ c = N l).
  { intros l c H. apply (Permutation_in _ Hp), in_map_iff in H.
    destruct H as [l' [E Hl']]. injection E as <- <-.
    split; [now apply In_unique | reflexivity]. }
  assert (Hnd : NoDup (Py.keys (Spam.value_counts labels))).
  { apply (Permutation_NoDup (l := Py.unique labels)); [| apply NoDup_unique].
    apply Permutation_sym. unfold Py.keys.
    rewrite (Permutation_map fst Hp), map_map. simpl. rewrite map_id.
    apply Permutation_refl. }
  destruct (Spam.value_counts labels) as [| [l0 c0] [| [l1 c1] rest]] eqn:E;
    cbn [Spam.positional nth_error Py.bind] in Hpriors; try discriminate.
  injection Hpriors as <-.
  destruct (Hout l0 c0 (or_introl eq_refl)) as [Hl0 Hc0].
  destruct (Hout l1 c1 (or_intror (or_introl eq_refl))) as [Hl1 Hc1].
  assert (Hne : l0 <> l1).
  { intros ->. cbn [Py.keys map fst] in Hnd. inversion Hnd as [| ? ? Hx _]; subst.
    apply Hx. now left. }
  assert (Htail : descending ((l1, c1) :: rest)).
  { unfold descending in *. now inversion Hs. }
  assert (Hmax : forall l, N l <= N l0).
  { intros l. destruct (in_dec string_dec l labels) as [Hl | Hl].
    - destruct (Hin l Hl) as [Hh | Ht].
      + injection Hh as -> _. lia.
      + pose proof (descending_head (l0, c0) _ Hs _ Ht) as Hle. simpl in Hle. lia.
    - unfold N. rewrite (proj1 (count_occ_not_In string_dec labels l) Hl). lia. }
  assert (Hsecond : forall l, l <> l0 -> N l <= N l1).
  { intros l Hl0'. destruct (in_dec string_dec l labels) as [Hl | Hl].
    - destruct (Hin l Hl) as [Hh | [Hh | Ht]].
      + injection Hh as Heq _. congruence.
      + injection Hh as -> _. lia.
      + pose proof (descending_head (l1, c1) _ Htail _ Ht) as Hle.
        simpl in Hle. lia.
    - unfold N. rewrite (proj1 (count_occ_not_In string_dec labels l) Hl). lia. }
  exists l0, l1. eexists. eexists. split; [reflexivity |].
  split; [exact Hl0 |]. split; [exact Hl1 |]. split; [exact Hne |].
  split; [exact Hmax |]. split; [exact Hsecond |].
  unfold Py.np_log, Spam.number_of_classes. rewrite Hc0, Hc1.
  split; [reflexivity |]. split; [reflexivity |].
  assert (Hd : (0 < INR (List.length shuffled_data + 2))%R)
    by (apply lt_0_INR; lia).
  apply ln_monotone.
  - apply Rdiv_lt_0_compat; [apply lt_0_INR; lia | assumption].
  - apply Rmult_le_compat_r; [left; now apply Rinv_0_lt_compat |].
    apply le_INR. pose proof (Hmax l1). lia.
Qed.

Lemma priors_use_the_two_largest_counts_witness :
  exists priors,
    Spam.compute_log_priors spam_heavy_corpus = Py.Ok priors
    /\ Py.get priors "ham" = Some (ln (INR (4 + 1) / INR (5 + 2)))
    /\ exists l0 l1 ph ps,
         let N l := count_occ string_dec (map Spam.Label spam_heavy_corpus) l in
         priors = [("ham", ph); ("spam", ps)]
         /\ In l0 (map Spam.Label spam_heavy_corpus)
         /\ In l1 (map Spam.Label spam_heavy_corpus)
         /\ l0 <> l1
         /\ (forall l, N l <= N l0)
         /\ (forall l, l <> l0 -> N l <= N l1)
         /\ ph = ln (INR (N l0 + 1) / INR (List.length spam_heavy_corpus + 2))
         /\ ps = ln (INR (N l1 + 1) / INR (List.length spam_heavy_corpus + 2))
         /\ (ps <= ph)%R.
Proof.
  eexists. split; [evaluate; reflexivity |]. split; [evaluate; reflexivity |].
  apply (priors_use_the_two_largest_counts spam_heavy_corpus).
  evaluate. reflexivity.
Defined.

(** The priors need two distinct labels in the frame: with fewer (an empty
    frame, or one label only) reading the second count raises [IndexError]
    and the cell stops; with two or more it returns. *)
Theorem priors_need_two_labels (shuffled_data : list Spam.row) :
  (List.length (Py.unique (map Spam.Label shuffled_data)) < 2 ->
   Spam.compute_log_priors shuffled_data = Py.Raise Py.IndexError
   /\ forall o, Spam.run o shuffled_data = Py.Raise Py.IndexError)
  /\ (2 <= List.length (Py.unique (map Spam.Label shuffled_data)) ->
      exists priors, Spam.compute_log_priors shuffled_data = Py.Ok priors).
Proof.
  pose proof (value_counts_length (map Spam.Label shuffled_data)) as Hlen.
  unfold Spam.run, Spam.compute_log_priors.
  destruct (Spam.value_counts (map Spam.Label shuffled_data))
    as [| [l0 c0] [| [l1 c1] rest]];
    simpl in Hlen; cbn [Spam.positional nth_error Py.bind].
  - split; [auto | intros H; lia].
  - split; [auto | intros H; lia].
  - split; [intros H; lia | intros _; eauto].
Qed.

Lemma priors_need_two_labels_witness :
  (forall o,
      Spam.run o [ {| Spam.Label := "ham"; Spam.Text := "hi" |};
                   {| Spam.Label := "ham"; Spam.Text := "see you" |} ]
      = Py.Raise Py.IndexError)
  /\ exists priors, Spam.compute_log_priors toy_corpus = Py.Ok priors.
Proof.
  split.
  - apply (proj1 (priors_need_two_labels _)). simpl. lia.
  - apply (proj2 (priors_need_two_labels toy_corpus)). simpl. lia.
Defined.

(** ** What the training cell of the spam script leaves behind *)

Section SpamInvariants.
Import Py.

Lemma list_sum_values_pairs (f : string -> nat) (ks : list string) :
  list_sum (values (map (fun k => (k, f k)) ks)) = list_sum (map f ks).
Proof. unfold values. now rewrite map_map. Qed.

Lemma In_clean_training_data (rows : list Spam.row) (w : string) :
  (exists text, In text (Spam.clean_training_data rows) /\ In w (snd text))
  <-> exists r, In r rows /\ In w (Spam.clean_training_text (Spam.Text r)).
Proof.
  unfold Spam.clean_training_data. split.
  - intros [text [Ht Hw]]. apply in_map_iff in Ht.
    destruct Ht as [r [<- Hr]]. eauto.
  - intros [r [Hr Hw]].
    exists (Spam.Label r, Spam.clean_training_text (Spam.Text r)).
    split; [| assumption].
    apply (in_map (fun r => (Spam.Label r, Spam.clean_training_text (Spam.Text r)))).
    assumption.
Qed.

End SpamInvariants.

(** The vocabulary holds every word of every training row, whatever the
    row's label, exactly once, and nothing else: no word of a testing row
    that no training row holds, no empty token, no character that is no
    lower-case letter. *)
Theorem vocabulary_is_the_set_of_training_words
  (o : Spam.set_order) (shuffled_data : list Spam.row) (g : Spam.globals) :
  Spam.run o shuffled_data = Py.Ok g ->
  NoDup (Spam.vocabulary g)
  /\ (forall w,
         In w (Spam.vocabulary g) <->
         exists r, In r (Spam.training_data shuffled_data)
                   /\ In w (Spam.clean_training_text (Spam.Text r)))
  /\ (forall w, In w (Spam.vocabulary g) ->
                w <> "" /\ all_chars Spam.is_lower w = true).
Proof.
  intros Hrun. destruct (run_fit o shuffled_data g Hrun) as [ph [ps [_ Hfit]]].
  rewrite (fitted_vocabulary o ph ps _ g Hfit).
  assert (Hmem : forall w,
             In w (Spam.build_vocabulary
                     (Spam.clean_training_data (Spam.training_data shuffled_data)))
             <-> exists r, In r (Spam.training_data shuffled_data)
                           /\ In w (Spam.clean_training_text (Spam.Text r))).
  { intros w. rewrite In_build_vocabulary. apply In_clean_training_data. }
  split; [apply NoDup_build_vocabulary |]. split; [exact Hmem |].
  intros w Hw. apply Hmem in Hw. destruct Hw as [r [_ Hw]].
  apply (split_from_tokens Spam.is_lower _ "" w eq_refl
           (cleaned_training_chars (Spam.Text r)) Hw).
Qed.

Lemma vocabulary_is_the_set_of_training_words_witness :
  exists g,
    Spam.run Spam.HamFirst held_out_corpus = Py.Ok g
    /\ NoDup (Spam.vocabulary g)
    /\ In "prize" (Spam.vocabulary g)
    /\ ~ In "see" (Spam.vocabulary g).
Proof.
  eexists. split; [evaluate; reflexivity |].
  destruct (vocabulary_is_the_set_of_training_words Spam.HamFirst held_out_corpus
              _ ltac:(evaluate; reflexivity)) as [Hnd [Hmem _]].
  split; [exact Hnd |]. split.
  - apply Hmem. eexists. split; [right; right; right; left; reflexivity |].
    simpl. auto.
  - simpl. intuition discriminate.
Defined.

(** The counters of the training cell agree with its tables: for each of
    the two classes the table of word counts has the vocabulary as its keys,
    in the vocabulary's order, and its entries add up to the class's token
    counter ([words_in_spam], [words_in_ham]). *)
Theorem word_counts_add_up
  (o : Spam.set_order) (shuffled_data : list Spam.row) (g : Spam.globals) :
  Spam.run o shuffled_data = Py.Ok g ->
  exists spam_counts ham_counts,
    Py.get (Spam.word_frequency g) "spam" = Some spam_counts
    /\ Py.get (Spam.word_frequency g) "ham" = Some ham_counts
    /\ Py.keys spam_counts = Spam.vocabulary g
    /\ Py.keys ham_counts = Spam.vocabulary g
    /\ list_sum (Py.values spam_counts) = Spam.words_in_spam g
    /\ list_sum (Py.values ham_counts) = Spam.words_in_ham g.
Proof.
  intros Hrun. destruct (run_fit o shuffled_data g Hrun) as [ph [ps [_ Hfit]]].
  set (data := Spam.clean_training_data (Spam.training_data shuffled_data)) in *.
  destruct (fit_spec o [("ham", ph); ("spam", ps)] data) as [g' [Hg' H]].
  rewrite Hfit in Hg'. injection Hg' as <-.
  destruct H as [_ [Hv [Hs [Hh [_ [_ [_ [Hfreq _]]]]]]]].
  assert (Hsum : forall k per,
             Py.get (Spam.word_frequency g) k = Some per ->
             Py.keys per = Spam.vocabulary g ->
             (forall w, Py.get per w
                        = if Py.mem w (Spam.vocabulary g)
                          then Some (Spam.joint_count k data w) else None) ->
             list_sum (Py.values per) = Spam.class_total k data).
  { intros k per _ Hk Hget.
    rewrite (dict_by_keys per (Spam.joint_count k data)).
    - rewrite list_sum_values_pairs, Hk, Hv. apply joint_counts_total.
    - rewrite Hk, Hv. apply NoDup_build_vocabulary.
    - intros w Hw. rewrite Hget. rewrite Hk in Hw. apply mem_In in Hw.
      now rewrite Hw. }
  destruct (Hfreq "spam" (or_intror eq_refl)) as [pspam [Hgs [Hks Hcs]]].
  destruct (Hfreq "ham" (or_introl eq_refl)) as [pham [Hgh [Hkh Hch]]].
  exists pspam, pham. repeat split; try assumption.
  - rewrite Hs. now apply Hsum.
  - rewrite Hh. now apply Hsum.
Qed.

Lemma word_counts_add_up_witness :
  exists g spam_counts ham_counts,
    Spam.run Spam.SpamFirst toy_corpus = Py.Ok g
    /\ Py.get (Spam.word_frequency g) "spam" = Some spam_counts
    /\ Py.get (Spam.word_frequency g) "ham" = Some ham_counts
    /\ Py.keys spam_counts = Spam.vocabulary g
    /\ Py.keys ham_counts = Spam.vocabulary g
    /\ list_sum (Py.values spam_counts) = Spam.words_in_spam g
    /\ list_sum (Py.values ham_counts) = Spam.words_in_ham g.
Proof.
  eexists.
  destruct (word_counts_add_up Spam.SpamFirst toy_corpus _
              ltac:(evaluate; reflexivity)) as [sc [hc H]].
  exists sc, hc. split; [evaluate; reflexivity | exact H].
Defined.

(** ** What [classify] can do *)

(** After a run of the training cell, [classify] has three outcomes and no
    other: the label ham, the label spam, or ZeroDivisionError; and it
    raises exactly when the training frame left an empty vocabulary and the
    message holds a word. *)
Theorem classify_outcomes
  (o : Spam.set_order) (shuffled_data : list Spam.row) (g : Spam.globals)
  (message : string) :
  Spam.run o shuffled_data = Py.Ok g ->
  (Spam.classify g message = Py.Ok "ham"
   \/ Spam.classify g message = Py.Ok "spam"
   \/ Spam.classify g message = Py.Raise Py.ZeroDivisionError)
  /\ (Spam.classify g message = Py.Raise Py.ZeroDivisionError
      <-> Spam.vocabulary g = [] /\ Spam.clean_message message <> []).
Proof.
  intros Hrun. destruct (run_fit o shuffled_data g Hrun) as [ph [ps [_ Hfit]]].
  destruct (Spam.vocabulary g) as [| v vs] eqn:Hv.
  - rewrite (classify_empty_vocabulary o ph ps _ g message Hfit Hv).
    destruct (Spam.clean_message message) as [| w ws].
    + split.
      * destruct (Rlt_dec ph ps); auto.
      * split; [destruct (Rlt_dec ph ps); discriminate | intros [_ H]; congruence].
    + split; [auto |]. split; [intros _; split; [reflexivity | discriminate] | reflexivity].
  - rewrite (classify_nonempty o ph ps _ g message Hfit) by (rewrite Hv; discriminate).
    split.
    + destruct (Rlt_dec _ _); auto.
    + split; [destruct (Rlt_dec _ _); discriminate | intros [H _]; discriminate].
Qed.

Lemma classify_outcomes_witness :
  exists g,
    Spam.run Spam.HamFirst digits_corpus = Py.Ok g
    /\ (Spam.classify g "hello" = Py.Raise Py.ZeroDivisionError
        <-> Spam.vocabulary g = [] /\ Spam.clean_message "hello" <> []).
Proof.
  eexists. split; [evaluate; reflexivity |].
  apply (proj2 (classify_outcomes Spam.HamFirst digits_corpus _ "hello"
                  ltac:(evaluate; reflexivity))).
Defined.

(** ** What [predict] of the census classifier computes *)

Section CensusScores.
Import Py.

Variable a : R.
Variable data : Census.DataFrame.
Variable target : string.
Variable new_instance : dict string.
Hypothesis Hrows : Census.rows data <> [].

Let self := Census.trained a data target.

Lemma add_feature_trained (k : string) (x : R) (f : string) :
  In k (unique (Census.labels data target)) ->
  In f (Census.feature_columns data target) ->
  Census.add_feature self new_instance k x f
  = if seen data new_instance f
    then Ok (x + ln (feature_probability a data target new_instance k f))%R
    else Raise KeyError.
Proof.
  intros Hk Hf. unfold Census.add_feature, self.
  cbn [Census.trained Census.class_conditional_probs Census.attribute bind].
  unfold getitem at 1.
  rewrite (get_map_pairs (fun k => Census.class_table a data target k)).
  apply mem_In in Hk. rewrite Hk. cbn [bind].
  destruct (class_table_spec a data target k f) as [H1 H2].
  destruct (H2 Hf Hrows) as [T HT]. unfold getitem at 1. rewrite HT. cbn [bind].
  destruct (H1 T HT) as [-> _].
  unfold seen, feature_probability.
  destruct (get new_instance f) as [v |]; [| reflexivity].
  unfold getitem.
  rewrite (get_map_pairs (fun v => Census.smoothed_conditional a data target k f v)).
  destruct (mem v (Census.column_unique data f)); reflexivity.
Qed.

Lemma add_features_trained (k : string) (fs : list string) :
  In k (unique (Census.labels data target)) ->
  (forall f, In f fs -> In f (Census.feature_columns data target)) ->
  forall x,
    for_each (Census.add_feature self new_instance k) fs x
    = if forallb (seen data new_instance) fs
      then Ok (fold_left Rplus
                 (map (fun f => ln (feature_probability a data target new_instance k f))
                    fs) x)
      else Raise KeyError.
Proof.
  intros Hk. induction fs as [| f fs IH]; intros Hfs x; [reflexivity |].
  cbn [for_each forallb map fold_left].
  rewrite add_feature_trained by (auto; apply Hfs; now left).
  destruct (seen data new_instance f); cbn [bind andb]; [| reflexivity].
  apply IH. intros g Hg. apply Hfs. now right.
Qed.

Lemma class_score_trained (acc : dict R) (k : string) :
  In k (unique (Census.labels data target)) ->
  (prior <- getitem (map (fun k => (k, Census.smoothed_prior a data target k))
                       (unique (Census.labels data target))) k ;;
   fs <- Census.attribute (Census.features self) ;;
   log_prob <- for_each (Census.add_feature self new_instance k) fs prior ;;
   Ok (setitem acc k log_prob))
  = if forallb (seen data new_instance) (Census.feature_columns data target)
    then Ok (setitem acc k (log_score a data target new_instance k))
    else Raise KeyError.
Proof.
  intros Hk. unfold getitem.
  rewrite (get_map_pairs (fun k => Census.smoothed_prior a data target k)).
  rewrite (proj2 (mem_In _ _) Hk). cbn [bind].
  unfold self at 1. cbn [Census.trained Census.features Census.attribute bind].
  rewrite add_features_trained by auto.
  destruct (forallb _ _); reflexivity.
Qed.

Lemma class_probabilities_trained :
  Census.class_probabilities self new_instance
  = if forallb (seen data new_instance) (Census.feature_columns data target)
    then Ok (map (fun k => (k, log_score a data target new_instance k))
               (unique (Census.labels data target)))
    else Raise KeyError.
Proof.
  unfold Census.class_probabilities. unfold self at 1.
  cbn [Census.trained Census.log_priors].
  rewrite (keys_map_pairs (fun k => Census.smoothed_prior a data target k)).
  destruct (forallb (seen data new_instance) (Census.feature_columns data target))
    eqn:Hseen.
  - rewrite (for_each_pure _
               (fun acc k => setitem acc k (log_score a data target new_instance k))).
    + f_equal.
      apply (fold_setitem_NoDup (fun k => log_score a data target new_instance k)).
      apply NoDup_unique.
    + intros acc k Hk. rewrite class_score_trained by assumption.
      now rewrite Hseen.
  - pose proof (classes_nonempty data target Hrows) as Hne.
    destruct (unique (Census.labels data target)) as [| k ks] eqn:Hu; [congruence |].
    cbn [for_each].
    rewrite <- Hu. rewrite class_score_trained by (rewrite Hu; now left).
    now rewrite Hseen.
Qed.

End CensusScores.

Lemma forallb_exists_false {A : Type} (p : A -> bool) (l : list A) :
  forallb p l = false -> exists x, In x l /\ p x = false.
Proof.
  induction l as [| x l IH]; simpl; [discriminate |].
  destruct (p x) eqn:E; simpl.
  - intros H. destruct (IH H) as [y [Hy Hp]]. eauto.
  - intros _. eauto.
Qed.

Lemma predict_without_rows (a : R) (data : Census.DataFrame) (target : string)
  (inst : Py.dict string) :
  Census.rows data = [] ->
  Census.predict (Census.trained a data target) inst = Py.Raise Py.ValueError.
Proof.
  intros Hr. unfold Census.predict, Census.class_probabilities, Census.trained,
    Census.labels. cbn [Census.log_priors]. rewrite Hr. reflexivity.
Qed.

Lemma predict_trained_label (a : R) (data : Census.DataFrame) (target : string)
  (inst : Py.dict string) :
  Census.rows data <> [] ->
  (forall f, In f (Census.feature_columns data target) -> seen data inst f = true) ->
  exists label,
    Census.predict (Census.trained a data target) inst = Py.Ok label
    /\ In label (Census.labels data target).
Proof.
  intros Hrows Hall. unfold Census.predict.
  rewrite class_probabilities_trained by assumption.
  rewrite (proj2 (forallb_forall _ _) Hall). cbn [Py.bind].
  destruct (max_by_value_nonempty
              (map (fun k => (k, log_score a data target inst k))
                 (Py.unique (Census.labels data target)))) as [label Hlabel].
  { pose proof (classes_nonempty data target Hrows) as Hne.
    destruct (Py.unique (Census.labels data target)); [congruence | discriminate]. }
  exists label. split; [assumption |].
  destruct (max_by_value_first_maximum _ _ Hlabel) as [b [w [af [Hsplit _]]]].
  assert (Hin : In (label, w)
                  (map (fun k => (k, log_score a data target inst k))
                     (Py.unique (Census.labels data target)))).
  { rewrite Hsplit. apply in_or_app. right. now left. }
  apply in_map_iff in Hin. destruct Hin as [k [Hk Hin]].
  injection Hk as -> _. now apply In_unique.
Qed.

(** On a classifier trained on a frame with rows, [predict] has two
    outcomes and no other: KeyError, exactly when some trained feature is
    missing from the instance or holds a value its training column never
    held; otherwise one of the labels of the training rows. *)
Theorem predict_returns_a_training_label_or_KeyError
  (a : R) (data : Census.DataFrame) (target : string)
  (self : Census.NaiveBayesClassifier) (new_instance : Py.dict string) :
  (0 < a)%R ->
  Census.rows data <> [] ->
  Census.train (Census.init a) data target = Py.Ok self ->
  (Census.predict self new_instance = Py.Raise Py.KeyError
   <-> exists f, In f (Census.feature_columns data target)
                 /\ seen data new_instance f = false)
  /\ ((forall f, In f (Census.feature_columns data target) ->
                 seen data new_instance f = true) ->
      exists label,
        Census.predict self new_instance = Py.Ok label
        /\ In label (Census.labels data target)).
Proof.
  intros _ Hrows Htrain. apply train_inv in Htrain.
  cbn [Census.init Census.alpha] in Htrain. subst self.
  unfold Census.predict. rewrite class_probabilities_trained by assumption.
  destruct (forallb (seen data new_instance) (Census.feature_columns data target))
    eqn:Hseen; cbn [Py.bind].
  - assert (Hall := proj1 (forallb_forall _ _) Hseen).
    destruct (max_by_value_nonempty
                (map (fun k => (k, log_score a data target new_instance k))
                   (Py.unique (Census.labels data target)))) as [label Hlabel].
    { pose proof (classes_nonempty data target Hrows) as Hne.
      destruct (Py.unique (Census.labels data target)); [congruence | discriminate]. }
    split.
    + rewrite Hlabel. split; [discriminate |].
      intros [f [Hf Hs]]. rewrite (Hall f Hf) in Hs. discriminate.
    + intros _. exists label. split; [assumption |].
      destruct (max_by_value_first_maximum _ _ Hlabel) as [b [w [af [Hsplit _]]]].
      assert (Hin : In (label, w)
                      (map (fun k => (k, log_score a data target new_instance k))
                         (Py.unique (Census.labels data target)))).
      { rewrite Hsplit. apply in_or_app. right. now left. }
      apply in_map_iff in Hin. destruct Hin as [k [Hk Hin]].
      injection Hk as -> _. now apply In_unique.
  - split.
    + split; [intros _ | reflexivity].
      destruct (forallb_exists_false (seen data new_instance)
                  (Census.feature_columns data target)) as [f Hf]; [assumption |].
      exists f. exact Hf.
    + intros Hall. apply forallb_forall in Hall. congruence.
Qed.

Lemma predict_returns_a_training_label_or_KeyError_witness :
  exists self,
    Census.train (Census.init 1) census_frame "sex" = Py.Ok self
    /\ (Census.predict self [("education", "MS")] = Py.Raise Py.KeyError
        <-> exists f, In f (Census.feature_columns census_frame "sex")
                      /\ seen census_frame [("education", "MS")] f = false).
Proof.
  eexists. split; [reflexivity |].
  apply (proj1 (predict_returns_a_training_label_or_KeyError 1 census_frame "sex" _
                  [("education", "MS")] ltac:(lra) ltac:(discriminate) eq_refl)).
Defined.

(** ** The evaluation cell of the spam script *)

Section SpamTesting.
Import Py.

Variable g : Spam.globals.

Lemma check_rows_bound (rows : list Spam.row) :
  (forall r, In r rows -> exists l, Spam.classify g (Spam.Text r) = Ok l) ->
  forall c, exists c',
    for_each (SpamTest.check_row g) rows c = Ok c'
    /\ c <= c' <= c + List.length rows.
Proof.
  induction rows as [| r rows IH]; intros Hok c.
  - exists c. simpl. split; [reflexivity | lia].
  - destruct (Hok r (or_introl eq_refl)) as [l Hl].
    cbn [for_each]. unfold SpamTest.check_row at 1. rewrite Hl. cbn [bind].
    destruct (IH (fun r' Hr' => Hok r' (or_intror Hr'))
                (if String.eqb l (Spam.Label r) then c + 1 else c)) as [c' [Hc' Hb]].
    exists c'. split; [exact Hc' |].
    destruct (String.eqb l (Spam.Label r)); simpl; lia.
Qed.

Lemma check_rows_raise (e : exn) (rows : list Spam.row) :
  (forall r, In r rows ->
             (exists l, Spam.classify g (Spam.Text r) = Ok l)
             \/ Spam.classify g (Spam.Text r) = Raise e) ->
  (exists r, In r rows /\ Spam.classify g (Spam.Text r) = Raise e) ->
  forall c, for_each (SpamTest.check_row g) rows c = Raise e.
Proof.
  induction rows as [| r rows IH]; intros Hall [r0 [Hin Hr0]] c; [destruct Hin |].
  cbn [for_each]. unfold SpamTest.check_row at 1.
  destruct (Hall r (or_introl eq_refl)) as [[l Hl] | Hraise].
  - rewrite Hl. cbn [bind]. apply IH.
    + intros r' Hr'. apply Hall. now right.
    + destruct Hin as [<- | Hin]; [congruence | eauto].
  - now rewrite Hraise.
Qed.

End SpamTesting.

Lemma priors_need_two_rows (shuffled_data : list Spam.row) (priors : Py.dict R) :
  Spam.compute_log_priors shuffled_data = Py.Ok priors ->
  2 <= List.length shuffled_data.
Proof.
  intros H.
  pose proof (value_counts_length (map Spam.Label shuffled_data)) as Hlen.
  assert (H2 : 2 <= List.length (Py.unique (map Spam.Label shuffled_data))).
  { unfold Spam.compute_log_priors in H.
    destruct (Spam.value_counts (map Spam.Label shuffled_data))
      as [| [l0 c0] [| [l1 c1] rest]];
      simpl in Hlen; cbn [Spam.positional nth_error Py.bind] in H;
      try discriminate. lia. }
  assert (Hle : List.length (Py.unique (map Spam.Label shuffled_data))
                <= List.length (map Spam.Label shuffled_data)).
  { apply NoDup_incl_length; [apply NoDup_unique |].
    intros x Hx. now apply In_unique. }
  rewrite length_map in Hle. lia.
Qed.

(** After a run of the training cell the evaluation cell never divides by
    zero at its own division: a frame on which the priors could be computed
    has two rows at least, so the testing part holds a row.  When the
    vocabulary is not empty, or no testing message holds a word, the cell
    returns the ratio of a count of correct labels that is at most the
    number of testing rows, a number between 0 and 1.  When the vocabulary
    is empty and a testing message holds a word, the ZeroDivisionError of
    [classify] leaves the cell. *)
Theorem evaluation_cell_outcomes
  (o : Spam.set_order) (shuffled_data : list Spam.row) (g : Spam.globals) :
  Spam.run o shuffled_data = Py.Ok g ->
  let testing_data := Spam.testing_data shuffled_data in
  testing_data <> []
  /\ (Spam.vocabulary g <> []
      \/ (forall r, In r testing_data -> Spam.clean_message (Spam.Text r) = []) ->
      exists correct_labels,
        SpamTest.count_correct g testing_data = Py.Ok correct_labels
        /\ correct_labels <= List.length testing_data
        /\ SpamTest.accuracy g testing_data
           = Py.Ok (INR correct_labels / INR (List.length testing_data))%R
        /\ (0 <= INR correct_labels / INR (List.length testing_data) <= 1)%R)
  /\ (Spam.vocabulary g = [] ->
      (exists r, In r testing_data /\ Spam.clean_message (Spam.Text r) <> []) ->
      SpamTest.accuracy g testing_data = Py.Raise Py.ZeroDivisionError).
Proof.
  intros Hrun testing_data.
  destruct (run_fit o shuffled_data g Hrun) as [ph [ps [Hpriors Hfit]]].
  pose proof (priors_need_two_rows _ _ Hpriors) as Htwo.
  assert (Hne : testing_data <> []).
  { unfold testing_data, Spam.testing_data. intros Hskip.
    pose proof (length_skipn (Spam.split_index (List.length shuffled_data))
                  shuffled_data) as Hs.
    rewrite Hskip in Hs. simpl in Hs.
    pose proof (split_index_below (List.length shuffled_data)). lia. }
  assert (Hlen : 1 <= List.length testing_data).
  { destruct testing_data; [congruence | simpl; lia]. }
  split; [exact Hne |]. split.
  - intros Hsafe.
    assert (Hok : forall r, In r testing_data ->
                    exists l, Spam.classify g (Spam.Text r) = Py.Ok l).
    { intros r Hr. destruct (Spam.vocabulary g) as [| v vs] eqn:Hv.
      - destruct Hsafe as [Hv' | Hempty]; [congruence |].
        rewrite (classify_empty_vocabulary o ph ps _ g _ Hfit Hv).
        rewrite (Hempty r Hr). eauto.
      - rewrite (classify_nonempty o ph ps _ g _ Hfit) by (rewrite Hv; discriminate).
        eauto. }
    destruct (check_rows_bound g testing_data Hok 0) as [c [Hc Hb]].
    exists c. split; [exact Hc |]. split; [lia |].
    assert (Hpos : (0 < INR (List.length testing_data))%R) by (apply lt_0_INR; lia).
    split.
    + unfold SpamTest.accuracy. unfold SpamTest.count_correct in Hc. 
      unfold SpamTest.count_correct. rewrite Hc. cbn [Py.bind].
      unfold Py.truediv.
      destruct (Nat.eqb_spec (List.length testing_data) 0); [lia | reflexivity].
    + split.
      * apply Rmult_le_pos; [apply pos_INR | left; now apply Rinv_0_lt_compat].
      * apply (Rmult_le_reg_r (INR (List.length testing_data))); [assumption |].
        unfold Rdiv. rewrite Rmult_assoc, Rinv_l, Rmult_1_r, Rmult_1_l by lra.
        apply le_INR. lia.
  - intros Hv Hword. unfold SpamTest.accuracy, SpamTest.count_correct.
    rewrite (check_rows_raise g Py.ZeroDivisionError); [reflexivity | |].
    + intros r _. rewrite (classify_empty_vocabulary o ph ps _ g _ Hfit Hv).
      destruct (Spam.clean_message (Spam.Text r)); eauto.
    + destruct Hword as [r [Hr Hw]]. exists r. split; [exact Hr |].
      rewrite (classify_empty_vocabulary o ph ps _ g _ Hfit Hv).
      destruct (Spam.clean_message (Spam.Text r)); [congruence | reflexivity].
Qed.

Lemma evaluation_cell_outcomes_witness :
  exists g,
    Spam.run Spam.HamFirst held_out_corpus = Py.Ok g
    /\ Spam.testing_data held_out_corpus <> []
    /\ exists correct_labels,
         SpamTest.count_correct g (Spam.testing_data held_out_corpus)
         = Py.Ok correct_labels
         /\ correct_labels <= List.length (Spam.testing_data held_out_corpus).
Proof.
  eexists. split; [evaluate; reflexivity |].
  destruct (evaluation_cell_outcomes Spam.HamFirst held_out_corpus _
              ltac:(evaluate; reflexivity)) as [Hne [Hok _]].
  split; [exact Hne |].
  destruct Hok as [c [Hc [Hb _]]]; [left; discriminate |].
  exists c. split; assumption.
Defined.

(** ** The evaluation cell of the census notebook *)

Section CensusTesting.
Import Py.

Lemma overwrite_all {V : Type} (f : string -> V) (cs : list string) (d : dict V) :
  d = [] \/ keys d = unique cs ->
  fold_left (fun acc c => setitem acc c (f c)) cs d
  = map (fun c => (c, f c)) (unique cs).
Proof.
  intros Hd.
  assert (Hk : keys (fold_left (fun acc c => setitem acc c (f c)) cs d) = unique cs).
  { rewrite keys_fold_setitem. destruct Hd as [-> | ->]; [reflexivity |].
    apply fold_add_present. intros x Hx. now apply In_unique. }
  rewrite (dict_by_keys _ f).
  - now rewrite Hk.
  - rewrite Hk. apply NoDup_unique.
  - intros k Hin. rewrite Hk in Hin. rewrite get_fold_setitem.
    apply (proj1 (In_unique _ _)) in Hin. apply (proj2 (mem_In _ _)) in Hin.
    now rewrite Hin.
Qed.

Variable classifier : Census.NaiveBayesClassifier.
Variable test_data : Census.DataFrame.

(** What reading the cells of a row does to each name of the state. *)
Lemma read_cells (row : string -> string) (cols : list string) :
  forall st,
    let st' := fold_left (CensusTest.read_cell row) cols st in
    CensusTest.new_instance st'
    = fold_left (fun acc c => setitem acc c (row c))
        (filter (fun c => negb (String.eqb c CensusTest.target_class)) cols)
        (CensusTest.new_instance st)
    /\ CensusTest.correct_value st'
       = (if mem CensusTest.target_class cols then Some (row CensusTest.target_class)
          else CensusTest.correct_value st)
    /\ CensusTest.correct_labels st' = CensusTest.correct_labels st
    /\ CensusTest.incorrect_labels st' = CensusTest.incorrect_labels st.
Proof.
  induction cols as [| c cols IH]; intros st; [repeat split |].
  cbn [fold_left filter]. destruct (IH (CensusTest.read_cell row st c))
    as [H1 [H2 [H3 H4]]].
  cbv zeta in *. rewrite H1, H2, H3, H4. unfold CensusTest.read_cell.
  unfold mem. cbn [existsb]. rewrite (String.eqb_sym CensusTest.target_class c).
  destruct (String.eqb c CensusTest.target_class); cbn [negb orb fold_left
    CensusTest.new_instance CensusTest.correct_value CensusTest.correct_labels
    CensusTest.incorrect_labels]; repeat split.
  now destruct (existsb _ cols).
Qed.

Lemma read_cells_instance (row : string -> string) (st : CensusTest.state) :
  settled test_data st ->
  CensusTest.new_instance
    (fold_left (CensusTest.read_cell row) (Census.columns test_data) st)
  = CensusTest.instance_of test_data row.
Proof.
  intros Hs. destruct (read_cells row (Census.columns test_data) st) as [H _].
  cbv zeta in H. rewrite H. unfold CensusTest.instance_of, Census.feature_columns.
  apply (overwrite_all row). exact Hs.
Qed.

Lemma read_cells_fresh (row : string -> string) (st : CensusTest.state) :
  settled test_data st ->
  fold_left (CensusTest.read_cell row) (Census.columns test_data) st
  = fold_left (CensusTest.read_cell row) (Census.columns test_data)
      {| CensusTest.new_instance := [];
         CensusTest.correct_value := CensusTest.correct_value st;
         CensusTest.correct_labels := CensusTest.correct_labels st;
         CensusTest.incorrect_labels := CensusTest.incorrect_labels st |}.
Proof.
  intros Hs.
  set (st0 := {| CensusTest.new_instance := [];
                 CensusTest.correct_value := CensusTest.correct_value st;
                 CensusTest.correct_labels := CensusTest.correct_labels st;
                 CensusTest.incorrect_labels := CensusTest.incorrect_labels st |}).
  pose proof (read_cells_instance row st Hs) as Hi.
  pose proof (read_cells_instance row st0 (or_introl eq_refl)) as Hi0.
  destruct (read_cells row (Census.columns test_data) st) as [_ [Hv [Hc Hn]]].
  destruct (read_cells row (Census.columns test_data) st0) as [_ [Hv0 [Hc0 Hn0]]].
  cbv zeta in *.
  destruct (fold_left (CensusTest.read_cell row) (Census.columns test_data) st)
    as [i v c n].
  destruct (fold_left (CensusTest.read_cell row) (Census.columns test_data) st0)
    as [i0 v0 c0 n0].
  cbn [CensusTest.new_instance CensusTest.correct_value CensusTest.correct_labels
         CensusTest.incorrect_labels st0] in *.
  congruence.
Qed.

Lemma compare_settled (st st' : CensusTest.state) :
  CensusTest.compare classifier st = CensusTest.Done st' ->
  CensusTest.new_instance st' = CensusTest.new_instance st
  /\ CensusTest.correct_value st' = CensusTest.correct_value st
  /\ CensusTest.correct_labels st' + CensusTest.incorrect_labels st'
     = CensusTest.correct_labels st + CensusTest.incorrect_labels st + 1.
Proof.
  unfold CensusTest.compare.
  destruct (Census.predict classifier (CensusTest.new_instance st)) as [label |];
    [| discriminate].
  destruct (CensusTest.correct_value st) as [v |] eqn:Hv; [| discriminate].
  destruct (String.eqb label v); intros H; injection H as <-;
    cbn [CensusTest.new_instance CensusTest.correct_value CensusTest.correct_labels
           CensusTest.incorrect_labels]; repeat split; auto; lia.
Qed.

Lemma test_row_settled (st st' : CensusTest.state) (row : string -> string) :
  settled test_data st ->
  CensusTest.test_row classifier test_data st row = CensusTest.Done st' ->
  settled test_data st'
  /\ CensusTest.new_instance st' = CensusTest.instance_of test_data row
  /\ CensusTest.correct_labels st' + CensusTest.incorrect_labels st'
     = CensusTest.correct_labels st + CensusTest.incorrect_labels st + 1.
Proof.
  intros Hs H. unfold CensusTest.test_row in H.
  destruct (compare_settled _ _ H) as [Hi [_ Hc]].
  rewrite (read_cells_instance row st Hs) in Hi.
  destruct (read_cells row (Census.columns test_data) st) as [_ [_ [Hc' Hn']]].
  cbv zeta in *. rewrite Hc', Hn' in Hc.
  split; [| split; assumption].
  right. rewrite Hi. unfold CensusTest.instance_of.
  apply (keys_map_pairs (fun c => row c)).
Qed.

Lemma test_rows_fresh_eq (rows : list (string -> string)) :
  forall st, settled test_data st ->
    CensusTest.test_rows classifier test_data rows st
    = CensusTest.test_rows_fresh classifier test_data rows st.
Proof.
  induction rows as [| row rows IH]; intros st Hs; [reflexivity |].
  cbn [CensusTest.test_rows CensusTest.test_rows_fresh].
  assert (E : CensusTest.test_row_fresh classifier test_data st row
              = CensusTest.test_row classifier test_data st row).
  { unfold CensusTest.test_row_fresh, CensusTest.test_row.
    now rewrite <- (read_cells_fresh row st Hs). }
  rewrite E.
  destruct (CensusTest.test_row classifier test_data st row) as [st' | e | name]
    eqn:Hrow; try reflexivity.
  apply IH. exact (proj1 (test_row_settled st st' row Hs Hrow)).
Qed.

Lemma test_rows_count (rows : list (string -> string)) :
  forall st st', settled test_data st ->
    CensusTest.test_rows classifier test_data rows st = CensusTest.Done st' ->
    CensusTest.correct_labels st' + CensusTest.incorrect_labels st'
    = CensusTest.correct_labels st + CensusTest.incorrect_labels st
      + List.length rows.
Proof.
  induction rows as [| row rows IH]; intros st st' Hs H.
  - injection H as <-. simpl. lia.
  - cbn [CensusTest.test_rows] in H.
    destruct (CensusTest.test_row classifier test_data st row) as [st1 | e | name]
      eqn:Hrow; try discriminate.
    destruct (test_row_settled st st1 row Hs Hrow) as [Hs1 [_ Hc1]].
    rewrite (IH st1 st' Hs1 H). simpl. lia.
Qed.

End CensusTesting.

Section CensusHarness.
Import Py.

Variable classifier : Census.NaiveBayesClassifier.
Variable test_data : Census.DataFrame.

Lemma test_row_outcome (st : CensusTest.state) (row : string -> string) :
  settled test_data st ->
  CensusTest.test_row classifier test_data st row
  = CensusTest.compare classifier
      {| CensusTest.new_instance := CensusTest.instance_of test_data row;
         CensusTest.correct_value :=
           (if mem CensusTest.target_class (Census.columns test_data)
            then Some (row CensusTest.target_class)
            else CensusTest.correct_value st);
         CensusTest.correct_labels := CensusTest.correct_labels st;
         CensusTest.incorrect_labels := CensusTest.incorrect_labels st |}.
Proof.
  intros Hs. unfold CensusTest.test_row. f_equal.
  pose proof (read_cells_instance test_data row st Hs) as Hi.
  destruct (read_cells row (Census.columns test_data) st) as [_ [Hv [Hc Hn]]].
  cbv zeta in *.
  destruct (fold_left (CensusTest.read_cell row) (Census.columns test_data) st)
    as [i v c n].
  cbn [CensusTest.new_instance CensusTest.correct_value CensusTest.correct_labels
         CensusTest.incorrect_labels] in *.
  congruence.
Qed.

Lemma test_rows_done (rows : list (string -> string)) :
  mem CensusTest.target_class (Census.columns test_data) = true ->
  (forall row, In row rows ->
     exists label,
       Census.predict classifier (CensusTest.instance_of test_data row) = Ok label) ->
  forall st, settled test_data st ->
    exists st', CensusTest.test_rows classifier test_data rows st = CensusTest.Done st'.
Proof.
  intros Ht. induction rows as [| row rows IH]; intros Hok st Hs; [simpl; eauto |].
  cbn [CensusTest.test_rows].
  destruct (CensusTest.test_row classifier test_data st row) as [st1 | e | name]
    eqn:Hrow.
  - apply IH; [intros r Hr; apply Hok; now right |].
    exact (proj1 (test_row_settled classifier test_data st st1 row Hs Hrow)).
  - exfalso. rewrite (test_row_outcome st row Hs), Ht in Hrow.
    destruct (Hok row (or_introl eq_refl)) as [label Hl].
    unfold CensusTest.compare in Hrow.
    cbn [CensusTest.new_instance CensusTest.correct_value] in Hrow.
    rewrite Hl in Hrow. destruct (String.eqb label _); discriminate.
  - exfalso. rewrite (test_row_outcome st row Hs), Ht in Hrow.
    destruct (Hok row (or_introl eq_refl)) as [label Hl].
    unfold CensusTest.compare in Hrow.
    cbn [CensusTest.new_instance CensusTest.correct_value] in Hrow.
    rewrite Hl in Hrow. destruct (String.eqb label _); discriminate.
Qed.

Lemma accuracy_bounds (st : CensusTest.state) :
  1 <= CensusTest.correct_labels st + CensusTest.incorrect_labels st ->
  exists p, CensusTest.accuracy st = CensusTest.Done p /\ (0 <= p <= 100)%R.
Proof.
  intros Hn. unfold CensusTest.accuracy, truediv.
  destruct (Nat.eqb_spec (CensusTest.correct_labels st
                          + CensusTest.incorrect_labels st) 0) as [E | _]; [lia |].
  eexists. split; [reflexivity |].
  set (c := CensusTest.correct_labels st) in *.
  set (n := c + CensusTest.incorrect_labels st) in *.
  assert (Hpos : (0 < INR n)%R) by (apply lt_0_INR; lia).
  assert (Hc : (0 <= INR c <= INR n)%R)
    by (split; [apply pos_INR | apply le_INR; unfold n; lia]).
  assert (Hr : (0 <= INR c / INR n <= 1)%R).
  { split.
    - apply Rmult_le_pos; [lra | left; now apply Rinv_0_lt_compat].
    - apply (Rmult_le_reg_r (INR n)); [assumption |].
      unfold Rdiv. rewrite Rmult_assoc, Rinv_l, Rmult_1_r, Rmult_1_l by lra. lra. }
  lra.
Qed.

End CensusHarness.

(** The evaluation cell reuses one dictionary, [new_instance], for all the
    testing rows.  No value of an earlier row reaches a later prediction:
    the loop over the rows ends as it would if every row started from an
    empty dictionary of its own, in the same state or with the same
    exception. *)
Theorem shared_instance_never_leaks
  (classifier : Census.NaiveBayesClassifier) (test_data : Census.DataFrame) :
  CensusTest.test_rows classifier test_data (Census.rows test_data)
    CensusTest.initial
  = CensusTest.test_rows_fresh classifier test_data (Census.rows test_data)
      CensusTest.initial.
Proof.
  apply test_rows_fresh_eq. left. reflexivity.
Qed.

(** When the loop over the testing rows ends, every row was counted once,
    as correct or as incorrect; the division of the accuracy raises
    ZeroDivisionError exactly when the testing frame has no row, and
    otherwise gives a percentage between 0 and 100. *)
Theorem evaluation_counts_every_row
  (classifier : Census.NaiveBayesClassifier) (test_data : Census.DataFrame)
  (st : CensusTest.state) :
  CensusTest.test_rows classifier test_data (Census.rows test_data)
    CensusTest.initial = CensusTest.Done st ->
  CensusTest.correct_labels st + CensusTest.incorrect_labels st
  = List.length (Census.rows test_data)
  /\ (CensusTest.accuracy st = CensusTest.Failed Py.ZeroDivisionError
      <-> Census.rows test_data = [])
  /\ (Census.rows test_data <> [] ->
      exists p, CensusTest.accuracy st = CensusTest.Done p /\ (0 <= p <= 100)%R).
Proof.
  intros H.
  pose proof (test_rows_count classifier test_data (Census.rows test_data)
                CensusTest.initial st (or_introl eq_refl) H) as Hc.
  simpl in Hc. split; [exact Hc |].
  destruct (Census.rows test_data) as [| row rows] eqn:Hr.
  - split; [| intros Hne; congruence].
    split; [reflexivity |]. intros _. unfold CensusTest.accuracy.
    rewrite Hc. reflexivity.
  - destruct (accuracy_bounds st) as [p [Hp Hb]]; [simpl in Hc; lia |].
    split; [| intros _; eauto].
    split; [rewrite Hp; discriminate | discriminate].
Qed.

Lemma evaluation_counts_every_row_witness :
  exists st,
    CensusTest.test_rows (Census.trained 1 census_frame "sex") census_frame
      (Census.rows census_frame) CensusTest.initial = CensusTest.Done st
    /\ CensusTest.correct_labels st + CensusTest.incorrect_labels st = 3.
Proof.
  destruct (test_rows_done (Census.trained 1 census_frame "sex") census_frame
              (Census.rows census_frame) eq_refl) with (st := CensusTest.initial)
    as [st Hst].
  - intros row Hrow.
    destruct (predict_trained_label 1 census_frame "sex"
                (CensusTest.instance_of census_frame row) ltac:(discriminate))
      as [label [Hl _]]; [| eauto].
    intros f Hf. destruct Hf as [<- | []].
    destruct Hrow as [<- | [<- | [<- | []]]]; reflexivity.
  - left. reflexivity.
  - exists st. split; [exact Hst |].
    apply (proj1 (evaluation_counts_every_row _ _ _ Hst)).
Defined.

(** When the testing frame has no column named by [target_class], the
    branch that assigns [correct_value] never runs: on the first row the
    cell ends with the exception of [predict] if it raises, and with
    NameError at [correct_value] otherwise.  No accuracy is printed. *)
Theorem evaluation_needs_the_target_column
  (classifier : Census.NaiveBayesClassifier) (test_data : Census.DataFrame)
  (row : string -> string) (rest : list (string -> string)) :
  Census.rows test_data = row :: rest ->
  Py.mem CensusTest.target_class (Census.columns test_data) = false ->
  CensusTest.test_rows classifier test_data (Census.rows test_data)
    CensusTest.initial
  = match Census.predict classifier (CensusTest.instance_of test_data row) with
    | Py.Ok _ => CensusTest.NameError "correct_value"
    | Py.Raise e => CensusTest.Failed e
    end.
Proof.
  intros Hr Hcol. rewrite Hr. cbn [CensusTest.test_rows].
  rewrite (test_row_outcome classifier test_data CensusTest.initial row)
    by (left; reflexivity).
  rewrite Hcol. unfold CensusTest.compare.
  cbn [CensusTest.new_instance CensusTest.correct_value CensusTest.initial].
  destruct (Census.predict classifier (CensusTest.instance_of test_data row));
    reflexivity.
Qed.

Lemma evaluation_needs_the_target_column_witness :
  CensusTest.run census_frame unlabelled_frame
  = CensusTest.NameError "correct_value".
Proof.
  unfold CensusTest.run.
  rewrite (train_ok (Census.init 1) census_frame CensusTest.target_class eq_refl).
  rewrite (evaluation_needs_the_target_column _ unlabelled_frame
             (row_of [("education", "HS")]) [] eq_refl eq_refl).
  destruct (predict_trained_label 1 census_frame "sex"
              (CensusTest.instance_of unlabelled_frame (row_of [("education", "HS")]))
              ltac:(discriminate)) as [label [Hl _]].
  - intros f [<- | []]. reflexivity.
  - cbn [Census.init Census.alpha]. unfold CensusTest.target_class.
    now rewrite Hl.
Defined.

(** The whole evaluation cell returns an accuracy, a percentage between 0
    and 100, when the training frame has a row and the column sex, the
    testing frame has a row and the column sex, and every testing row holds,
    in every feature column of the training frame, a value that the
    training column holds too. *)
Theorem census_cell_returns_an_accuracy
  (train_data test_data : Census.DataFrame) :
  Census.rows train_data <> [] ->
  Census.rows test_data <> [] ->
  In "sex" (Census.columns train_data) ->
  In "sex" (Census.columns test_data) ->
  (forall row f,
      In row (Census.rows test_data) ->
      In f (Census.feature_columns train_data "sex") ->
      In f (Census.columns test_data)
      /\ In (row f) (Census.column_unique train_data f)) ->
  exists p, CensusTest.run train_data test_data = CensusTest.Done p
            /\ (0 <= p <= 100)%R.
Proof.
  intros Htrain Htest Hsex Hsex' Hvalues. unfold CensusTest.run.
  apply mem_In in Hsex. apply mem_In in Hsex'.
  rewrite (train_ok (Census.init 1) train_data CensusTest.target_class Hsex).
  cbn [Census.init Census.alpha].
  destruct (test_rows_done (Census.trained 1 train_data CensusTest.target_class)
              test_data (Census.rows test_data) Hsex')
    with (st := CensusTest.initial) as [st Hst].
  - intros row Hrow.
    destruct (predict_trained_label 1 train_data CensusTest.target_class
                (CensusTest.instance_of test_data row) Htrain)
      as [label [Hl _]]; [| eauto].
    intros f Hf. destruct (Hvalues row f Hrow Hf) as [Hcol Hval].
    unfold seen, CensusTest.instance_of.
    rewrite (get_map_pairs (fun c => row c)).
    assert (Hin : In f (Py.unique
                          (Census.feature_columns test_data CensusTest.target_class))).
    { apply In_unique. unfold Census.feature_columns in *. apply filter_In.
      apply filter_In in Hf. tauto. }
    apply mem_In in Hin. rewrite Hin. now apply mem_In.
  - left. reflexivity.
  - rewrite Hst. apply accuracy_bounds.
    pose proof (test_rows_count _ test_data _ CensusTest.initial st
                  (or_introl eq_refl) Hst) as Hc.
    simpl in Hc. rewrite Hc. destruct (Census.rows test_data); [congruence | simpl; lia].
Qed.

Lemma census_cell_returns_an_accuracy_witness :
  exists p, CensusTest.run census_frame census_frame = CensusTest.Done p
            /\ (0 <= p <= 100)%R.
Proof.
  apply census_cell_returns_an_accuracy; try discriminate; try (simpl; tauto).
  intros row f Hrow [<- | []]. split; [simpl; tauto |].
  destruct Hrow as [<- | [<- | [<- | []]]]; vm_compute; tauto.
Defined.

(** ** The stored numbers are logarithms of probabilities *)

Section LogProbabilities.
Import Py.

Lemma ln_nonpositive (x : R) : (0 < x <= 1)%R -> (ln x <= 0)%R.
Proof. intros [H0 H1]. rewrite <- ln_1. now apply ln_monotone. Qed.

Lemma ratio_at_most_one (x y : R) : (0 < x <= y)%R -> (0 < x / y <= 1)%R.
Proof.
  intros [H0 H1]. split.
  - apply Rdiv_lt_0_compat; lra.
  - apply (Rmult_le_reg_r y); [lra |].
    unfold Rdiv. rewrite Rmult_assoc, Rinv_l, Rmult_1_r, Rmult_1_l by lra. lra.
Qed.

Lemma smoothed_log_prob_nonpositive (data : Spam.cleaned) (k w : string) :
  In w (Spam.build_vocabulary data) -> (Spam.smoothed_log_prob data k w <= 0)%R.
Proof.
  intros Hw. unfold Spam.smoothed_log_prob. apply ln_nonpositive, ratio_at_most_one.
  split; [apply lt_0_INR; unfold Spam.alpha; lia |].
  apply le_INR. unfold Spam.joint_count, Spam.class_total, Spam.alpha.
  pose proof (count_occ_bound string_dec w (Spam.words_of k data)).
  destruct (Spam.build_vocabulary data); [destruct Hw | simpl; lia].
Qed.

Lemma matching_at_most_class_count (data : Census.DataFrame) (target k f v : string) :
  Census.matching data target k f v <= Census.class_count data target k.
Proof.
  unfold Census.matching, Census.class_count.
  induction (Census.rows data) as [| r rs IH]; [reflexivity |]. simpl.
  destruct (String.eqb (r target) k); simpl; [| exact IH].
  destruct (String.eqb (r f) v); simpl; lia.
Qed.

Lemma class_count_at_most_rows (data : Census.DataFrame) (target k : string) :
  Census.class_count data target k <= List.length (Census.rows data).
Proof. unfold Census.class_count. apply filter_length_le. Qed.

Lemma smoothed_prior_nonpositive (a : R) (data : Census.DataFrame)
  (target k : string) :
  (0 < a)%R -> In k (Census.labels data target) ->
  (Census.smoothed_prior a data target k <= 0)%R.
Proof.
  intros Ha Hk. unfold Census.smoothed_prior. apply ln_nonpositive, ratio_at_most_one.
  pose proof (pos_INR (Census.class_count data target k)) as Hc.
  pose proof (le_INR _ _ (class_count_at_most_rows data target k)) as Hn.
  assert (HK : (1 <= INR (List.length (unique (Census.labels data target))))%R).
  { change 1%R with (INR 1). apply le_INR. apply In_unique in Hk.
    destruct (unique (Census.labels data target)); [destruct Hk | simpl; lia]. }
  split; [lra | nra].
Qed.

Lemma smoothed_conditional_nonpositive (a : R) (data : Census.DataFrame)
  (target k f v : string) :
  (0 < a)%R -> In v (Census.column_unique data f) ->
  (Census.smoothed_conditional a data target k f v <= 0)%R.
Proof.
  intros Ha Hv. unfold Census.smoothed_conditional.
  apply ln_nonpositive, ratio_at_most_one.
  pose proof (pos_INR (Census.matching data target k f v)) as Hm.
  pose proof (le_INR _ _ (matching_at_most_class_count data target k f v)) as Hc.
  assert (HV : (1 <= INR (List.length (Census.column_unique data f)))%R).
  { change 1%R with (INR 1). apply le_INR.
    destruct (Census.column_unique data f); [destruct Hv | simpl; lia]. }
  split; [lra | nra].
Qed.

End LogProbabilities.

(** Every number the training cell of the spam script stores is the
    logarithm of a probability: the two log-priors are negative and every
    entry of [word_log_prob] is at most 0 (the smoothed ratio never exceeds
    1).  The quantity [classify] adds for an unseen word, the positive ratio
    itself, is therefore of the other sign than every stored entry. *)
Theorem spam_tables_hold_log_probabilities
  (o : Spam.set_order) (shuffled_data : list Spam.row) (g : Spam.globals) :
  Spam.run o shuffled_data = Py.Ok g ->
  (forall k p, Py.get (Spam.log_priors g) k = Some p -> (p < 0)%R)
  /\ (forall k w x, Spam.get2 (Spam.word_log_prob g) k w = Some x -> (x <= 0)%R)
  /\ (Spam.vocabulary g <> [] -> (0 < Spam.unseen_increment g)%R).
Proof.
  intros Hrun. destruct (run_fit o shuffled_data g Hrun) as [ph [ps [Hpriors Hfit]]].
  set (data := Spam.clean_training_data (Spam.training_data shuffled_data)) in *.
  split; [| split].
  - rewrite (fitted_priors o ph ps data g Hfit).
    assert (Hneg : (ph < 0)%R /\ (ps < 0)%R).
    { unfold Spam.compute_log_priors in Hpriors.
      set (labels := map Spam.Label shuffled_data) in *.
      destruct (value_counts_spec labels) as [_ Hp].
      assert (Hle : forall l c, In (l, c) (Spam.value_counts labels) ->
                      c <= List.length shuffled_data).
      { intros l c Hin. apply (Permutation_in _ Hp) in Hin.
        apply in_map_iff in Hin. destruct Hin as [l' [E _]]. injection E as _ <-.
        pose proof (count_occ_bound string_dec l' labels) as Hb.
        unfold labels in Hb at 2. now rewrite length_map in Hb. }
      destruct (Spam.value_counts labels) as [| [l0 c0] [| [l1 c1] rest]];
        cbn [Spam.positional nth_error Py.bind] in Hpriors; try discriminate.
      injection Hpriors as <- <-.
      pose proof (Hle l0 c0 (or_introl eq_refl)) as H0.
      pose proof (Hle l1 c1 (or_intror (or_introl eq_refl))) as H1.
      unfold Py.np_log, Spam.number_of_classes.
      assert (Hlt : forall c, c <= List.length shuffled_data ->
                      (ln (INR (c + 1) / INR (List.length shuffled_data + 2)) < 0)%R).
      { intros c Hc. rewrite <- ln_1. apply ln_increasing.
        - apply Rdiv_lt_0_compat; apply lt_0_INR; lia.
        - apply (Rmult_lt_reg_r (INR (List.length shuffled_data + 2)));
            [apply lt_0_INR; lia |].
          unfold Rdiv. rewrite Rmult_assoc, Rinv_l, Rmult_1_r, Rmult_1_l.
          + apply lt_INR. lia.
          + apply not_0_INR. lia. }
      split; apply Hlt; assumption. }
    intros k p. simpl.
    destruct (String.eqb k "ham"); [intros H; injection H as <-; tauto |].
    destruct (String.eqb k "spam"); [intros H; injection H as <-; tauto |].
    discriminate.
  - intros k w x. unfold Spam.get2.
    destruct (Py.get (Spam.word_log_prob g) k) as [t |] eqn:Ht; [| discriminate].
    assert (Hk : k = "ham" \/ k = "spam").
    { assert (Hin : In k (Py.keys (Spam.word_log_prob g)))
        by (apply get_In_keys; eauto).
      destruct (fit_spec o [("ham", ph); ("spam", ps)] data) as [g' [Hg' H]].
      rewrite Hfit in Hg'. injection Hg' as <-.
      destruct H as [_ [_ [_ [_ [_ [Hkeys _]]]]]]. rewrite Hkeys in Hin.
      destruct o; simpl in Hin; intuition. }
    destruct (fitted_table o ph ps data g Hfit k Hk) as [t' [Ht' [_ Hget]]].
    rewrite Ht in Ht'. injection Ht' as <-. rewrite Hget.
    destruct (Py.mem w (Spam.vocabulary g)) eqn:Hw; [| discriminate].
    intros H. injection H as <-. apply smoothed_log_prob_nonpositive.
    rewrite <- (fitted_vocabulary o ph ps data g Hfit). now apply mem_In.
  - intros Hv. unfold Spam.unseen_increment.
    apply Rdiv_lt_0_compat; apply lt_0_INR; unfold Spam.alpha; [lia |].
    destruct (Spam.vocabulary g); [congruence | simpl; lia].
Qed.

Lemma spam_tables_hold_log_probabilities_witness :
  exists g,
    Spam.run Spam.HamFirst toy_corpus = Py.Ok g
    /\ (forall k p, Py.get (Spam.log_priors g) k = Some p -> (p < 0)%R).
Proof.
  eexists. split; [evaluate; reflexivity |].
  apply (proj1 (spam_tables_hold_log_probabilities Spam.HamFirst toy_corpus _
                  ltac:(evaluate; reflexivity))).
Defined.

(** Every number [train] stores is the logarithm of a probability: for
    alpha > 0 every log-prior and every entry of [class_conditional_probs]
    is at most 0, so the score [predict] gives a class is at most 0 too. *)
Theorem census_tables_hold_log_probabilities
  (a : R) (data : Census.DataFrame) (target : string)
  (self : Census.NaiveBayesClassifier) :
  (0 < a)%R ->
  Census.train (Census.init a) data target = Py.Ok self ->
  (forall priors k p,
      Census.log_priors self = Some priors ->
      Py.get priors k = Some p -> (p <= 0)%R)
  /\ (forall probs k f v x,
         Census.class_conditional_probs self = Some probs ->
         Census.get3 probs k f v = Some x -> (x <= 0)%R).
Proof.
  intros Ha Htrain. apply train_inv in Htrain.
  cbn [Census.init Census.alpha] in Htrain. subst self. split.
  - intros priors k p Hp. cbn [Census.trained Census.log_priors] in Hp.
    injection Hp as <-.
    rewrite (get_map_pairs (fun k => Census.smoothed_prior a data target k)).
    destruct (Py.mem k (Py.unique (Census.labels data target))) eqn:Hk;
      [| discriminate].
    intros H. injection H as <-. apply smoothed_prior_nonpositive; [assumption |].
    now apply In_unique, mem_In.
  - intros probs k f v x Hp. cbn [Census.trained Census.class_conditional_probs] in Hp.
    injection Hp as <-. unfold Census.get3.
    rewrite (get_map_pairs (fun k => Census.class_table a data target k)).
    destruct (Py.mem k (Py.unique (Census.labels data target))); [| discriminate].
    destruct (Py.get (Census.class_table a data target k) f) as [T |] eqn:HT;
      [| discriminate].
    destruct (proj1 (class_table_spec a data target k f) T HT) as [-> _].
    rewrite (get_map_pairs (fun v => Census.smoothed_conditional a data target k f v)).
    destruct (Py.mem v (Census.column_unique data f)) eqn:Hv; [| discriminate].
    intros H. injection H as <-.
    apply smoothed_conditional_nonpositive; [assumption | now apply mem_In].
Qed.

Lemma census_tables_hold_log_probabilities_witness :
  exists self,
    Census.train (Census.init 1) census_frame "sex" = Py.Ok self
    /\ (forall priors k p,
           Census.log_priors self = Some priors ->
           Py.get priors k = Some p -> (p <= 0)%R).
Proof.
  eexists. split; [reflexivity |].
  apply (proj1 (census_tables_hold_log_probabilities 1 census_frame "sex" _
                  ltac:(lra) eq_refl)).
Defined.

(** ** [predict] before and after [train] *)

(** On a classifier fresh from [__init__], [predict] raises AttributeError
    whatever the instance ([self.log_priors] is [None]); once [train] has
    returned, [predict] never raises AttributeError or TypeError again:
    every attribute it reads holds a table. *)
Theorem predict_needs_a_trained_classifier
  (a : R) (data : Census.DataFrame) (target : string)
  (self : Census.NaiveBayesClassifier) (new_instance : Py.dict string) :
  (0 < a)%R ->
  Census.train (Census.init a) data target = Py.Ok self ->
  Census.predict (Census.init a) new_instance = Py.Raise Py.AttributeError
  /\ Census.predict self new_instance <> Py.Raise Py.AttributeError
  /\ Census.predict self new_instance <> Py.Raise Py.TypeError.
Proof.
  intros _ Htrain. split; [reflexivity |].
  apply train_inv in Htrain. cbn [Census.init Census.alpha] in Htrain. subst self.
  destruct (Census.rows data) as [| r rs] eqn:Hr.
  - rewrite predict_without_rows by assumption. split; discriminate.
  - assert (Hrows : Census.rows data <> []) by (rewrite Hr; discriminate).
    unfold Census.predict. rewrite class_probabilities_trained by assumption.
    destruct (forallb _ _); cbn [Py.bind]; [| split; discriminate].
    destruct (max_by_value_nonempty
                (map (fun k => (k, log_score a data target new_instance k))
                   (Py.unique (Census.labels data target)))) as [label Hlabel].
    { pose proof (classes_nonempty data target Hrows) as Hne.
      destruct (Py.unique (Census.labels data target)); [congruence | discriminate]. }
    rewrite Hlabel. split; discriminate.
Qed.

Lemma predict_needs_a_trained_classifier_witness :
  exists self,
    Census.train (Census.init 1) census_frame "sex" = Py.Ok self
    /\ Census.predict (Census.init 1) [("education", "HS")]
       = Py.Raise Py.AttributeError
    /\ Census.predict self [("education", "HS")] <> Py.Raise Py.AttributeError
    /\ Census.predict self [("education", "HS")] <> Py.Raise Py.TypeError.
Proof.
  eexists. split; [reflexivity |].
  apply (predict_needs_a_trained_classifier 1 census_frame "sex" _
           [("education", "HS")] ltac:(lra) eq_refl).
Defined.
